(** * surveyhelper: questions, tallies and frequency tables

    A shallow embedding of [surveyhelper/question.py].  Python exceptions
    are values of [pyerror] threaded through the [result] monad; the
    response data set is a list of rows, each a finite map from answer
    variable to numeric code, where an absent key is a missing (NaN) cell.
    The statistical tests of scipy are parameters of the development. *)

From Stdlib Require Import ZArith QArith.
From stdpp Require Import base option list sorting gmap strings pretty fin_maps.

Local Open Scope string_scope.
Local Open Scope list_scope.
Local Open Scope Z_scope.

(** ** Python values and exceptions *)

Inductive pyerror : Type :=
| KeyError (key : string)
| Exception (msg : string)
| AttributeError (attr : string)
| TypeError (msg : string)
| IndexError
| ZeroDivisionError
| ValueError (msg : string).

Inductive result (A : Type) : Type :=
| Ok (a : A)
| Err (e : pyerror).
Arguments Ok {A} a.
Arguments Err {A} e.

#[global] Instance result_ret : MRet result := fun _ a => Ok a.
#[global] Instance result_bind : MBind result := fun _ _ f m =>
  match m with
  | Ok a => f a
  | Err e => Err e
  end.

(** [for x in xs: out.append(f(x))] where [f] may raise. *)
Fixpoint for_each {A B} (f : A -> result B) (xs : list A) : result (list B) :=
  match xs with
  | [] => Ok []
  | x :: xs' => y ← f x; ys ← for_each f xs'; Ok (y :: ys)
  end.

(** A Python float: the not-a-number sentinel or a real, kept exact. *)
Inductive pyfloat : Type :=
| NaN
| Real (q : Q).

(** [a < b] on floats; every comparison with NaN is false. *)
Definition flt (a b : pyfloat) : bool :=
  match a, b with
  | Real x, Real y => Qnum x * Z.pos (Qden y) <? Qnum y * Z.pos (Qden x)
  | _, _ => false
  end.

(** [a / b] on integers. *)
Definition truediv (a b : Z) : result pyfloat :=
  if decide (b = 0) then Err ZeroDivisionError
  else Ok (Real (Qmake (Z.sgn b * a) (Z.to_pos (Z.abs b)))).

(** [sum(l)]: a left fold starting at 0. *)
Definition pysum (l : list Z) : Z := fold_left Z.add l 0.

(** A numpy [int64]: its arithmetic wraps around at 64 bits. *)
Definition int64 (z : Z) : Z := (z + 2 ^ 63) mod 2 ^ 64 - 2 ^ 63.

(** [sum(l)] when the terms are numpy [int64]: every addition wraps. *)
Definition pysum64 (l : list Z) : Z :=
  fold_left (fun acc x => int64 (acc + x)) l 0.

Definition len {A} (l : list A) : Z := Z.of_nat (length l).

(** [itertools.compress(data, selectors)] *)
Fixpoint compress {A} (data : list A) (selectors : list bool) : list A :=
  match data, selectors with
  | d :: ds, s :: ss => if s then d :: compress ds ss else compress ds ss
  | _, _ => []
  end.

(** [zip(a, b)] stops at the shorter list. *)
Fixpoint zip2 {A B} (a : list A) (b : list B) : list (A * B) :=
  match a, b with
  | x :: a', y :: b' => (x, y) :: zip2 a' b'
  | _, _ => []
  end.

(** ** The response data set *)

(** A row maps an answer variable to its code; no entry is a NaN cell. *)
Record DataFrame : Type := {
  df_columns : list string;
  df_rows : list (gmap string Z)
}.

(** A column (pandas Series) is the list of its cells. *)
Abbreviation Series := (list (option Z)).

(** [df[var]] *)
Definition getitem (df : DataFrame) (var : string) : result Series :=
  if decide (var ∈ df_columns df)
  then Ok ((fun row : gmap string Z => row !! var) <$> df_rows df)
  else Err (KeyError var).

(** [dict(series.value_counts())]: occurrences of each non-missing value. *)
Definition value_counts (s : Series) : gmap Z Z :=
  foldr (fun (c : option Z) (m : gmap Z Z) =>
           match c with
           | Some v => <[v := default 0 (m !! v) + 1]> m
           | None => m
           end) ∅ s.

(** [series.dropna()] *)
Definition dropna (s : Series) : list Z := omap id s.

(** [groupby]: iterating it yields one (key, sub-frame) pair per group.
    A pandas grouping has one group per key: the keys of [gb_items] are
    pairwise distinct, which the statements about groupings take as a
    hypothesis.  The length and the keys are read separately, as the
    source does. *)
Record GroupBy : Type := {
  gb_items : list (Z * DataFrame)
}.

(** [len(groupby)] *)
Definition gb_len (g : GroupBy) : Z := len (gb_items g).

(** [groupby.groups.keys()]: the keys of the dictionary of groups. *)
Definition gb_group_keys (g : GroupBy) : gset Z :=
  list_to_set (fst <$> gb_items g).

(** ** Tables built for presentation *)

Inductive cell : Type :=
| CStr (s : string)
| CInt (z : Z)
| CNone.

#[global] Instance cell_eq_dec : EqDecision cell.
Proof. solve_decision. Defined.

(** An argument passed positionally, whose type the callee does not fix. *)
Inductive pyarg : Type :=
| PStr (s : string)
| PBool (b : bool).

Definition truthy (a : pyarg) : bool :=
  match a with
  | PStr s => negb (String.eqb s EmptyString)
  | PBool b => b
  end.

(** A table of object cells, as a list of named columns with the default
    integer row index. *)
Abbreviation Table := (list (string * list cell)).

Definition pad (n : nat) (l : list cell) : list cell :=
  l ++ replicate (n - length l) CNone.

(** [tbl.columns = names]: the new labels must be as many as the columns. *)
Definition set_columns (names : list string) (cols : list (list cell))
  : result Table :=
  if decide (length names = length cols)
  then Ok (zip2 names cols)
  else Err (ValueError "Length mismatch").

(** [pd.DataFrame(data).T]: each list becomes a column, padded to the
    longest. *)
Definition columns_of_lists (data : list (list cell)) : list (list cell) :=
  pad (max_list (length <$> data)) <$> data.

(** [pd.DataFrame(data)]: each list becomes a row, padded to the longest. *)
Definition columns_of_rows (data : list (list cell)) : list (list cell) :=
  (fun j => (fun row => default CNone (row !! j)) <$> data)
    <$> seq 0 (max_list (length <$> data)).

(** [tbl.loc[len(tbl)] = row]: a frame without columns takes no row. *)
Definition append_row (tbl : Table) (row : list cell) : result Table :=
  match tbl with
  | [] => Err (ValueError "cannot set a frame with no defined columns")
  | _ :: _ =>
      if decide (length row = length tbl)
      then Ok ((fun p : (string * list cell) * cell =>
                  (p.1.1, p.1.2 ++ [p.2])) <$> zip2 tbl row)
      else Err (ValueError "cannot set a row with mismatched columns")
  end.

(** [tbl.iloc[:,0].tolist()] *)
Definition iloc_col0 (tbl : Table) : result (list cell) :=
  match tbl with
  | [] => Err IndexError
  | (_, col) :: _ => Ok col
  end.

(** [tbl[name] = values]: overwrites the columns of that name, or adds one.
    The list assigned always has one entry per row of the frame here. *)
Definition setitem (tbl : Table) (name : string) (values : list cell) : Table :=
  if decide (name ∈ tbl.*1)
  then (fun nc : string * list cell =>
          if decide (nc.1 = name) then (nc.1, values) else nc) <$> tbl
  else tbl ++ [(name, values)].

(** [tbl[cols]]: for each label asked for, the columns carrying it. *)
Definition select_columns (tbl : Table) (cols : list string) : Table :=
  c ← cols; filter (fun nc : string * list cell => nc.1 = c) tbl.

(** [t.set_index(name, inplace=True)] followed by [t.ix[:,0]]: the first
    remaining column, indexed by the cells of the column [name]. *)
Definition series_indexed_by (t : Table) (name : string)
  : result (list cell * list cell) :=
  match filter (fun nc : string * list cell => nc.1 = name) t with
  | [] => Err (KeyError name)
  | (_, idx) :: _ =>
      match filter (fun nc : string * list cell => nc.1 ≠ name) t with
      | [] => Err IndexError
      | (_, vals) :: _ => Ok (idx, vals)
      end
  end.

(** [pd.MultiIndex.from_arrays([top, bottom])] assigned to an axis. *)
Definition from_arrays {A B} (top : list A) (bottom : list B)
  : result (list (A * B)) :=
  if decide (length top = length bottom)
  then Ok (zip2 top bottom)
  else Err (ValueError "Length mismatch").

(** A cross-tabulation: hierarchical row and column keys around the cells. *)
Record CrossTab : Type := {
  ct_index : list (string * cell);
  ct_columns : list (string * cell);
  ct_data : list (list cell)
}.

(** ** The collaborators outside the package *)

(** scipy's tests (each stands for the p-value it returns) and Python's
    [format] on floats and integers. *)
Class Extern : Type := {
  ttest_ind : list Z -> list Z -> bool -> pyfloat;
  f_oneway : list (list Z) -> pyfloat;
  chisquare : list Z -> list pyfloat -> pyfloat;
  format_float : pyfloat -> string -> string;
  format_int : Z -> string -> string
}.

(** The calls made to scipy, in order. *)
Inductive stat_call : Type :=
| TTestInd (a b : list Z) (equal_var : bool)
| FOneway (samples : list (list Z)).

(** [format(x, spec)]: the format specification must be a string. *)
Definition pyformat_float {ext : Extern} (x : pyfloat) (spec : pyarg) : result string :=
  match spec with
  | PStr s => Ok (format_float x s)
  | PBool _ => Err (TypeError "format() argument 2 must be str")
  end.

Definition pyformat_int {ext : Extern} (x : Z) (spec : pyarg) : result string :=
  match spec with
  | PStr s => Ok (format_int x s)
  | PBool _ => Err (TypeError "format() argument 2 must be str")
  end.

(** The default significance level, [.05]. *)
Definition p05 : pyfloat := Real (5 # 100).

(** [sep.join(l)] *)
Fixpoint join (sep : string) (l : list string) : string :=
  match l with
  | [] => EmptyString
  | [x] => x
  | x :: rest => x +:+ sep +:+ join sep rest
  end.

(** ** SelectOneQuestion *)

Record SelectOneQuestion : Type := {
  so_text : string;
  so_variable : string;
  so_choices : list string;
  so_label : string;
  so_values : list Z;
  so_exclude_from_analysis : list bool
}.

Module SelectOne.

Definition get_variable_names (q : SelectOneQuestion) : list string :=
  [so_variable q].

(** The values kept by [compress(values, [not x for x in exclude])]. *)
Definition retained_values (q : SelectOneQuestion) (remove_exclusions : bool)
  : list Z :=
  if remove_exclusions
  then compress (so_values q) (negb <$> so_exclude_from_analysis q)
  else so_values q.

Definition get_choices (q : SelectOneQuestion)
    (remove_exclusions show_values : bool) : list string :=
  let choices :=
    if remove_exclusions
    then compress (so_choices q) (negb <$> so_exclude_from_analysis q)
    else so_choices q in
  let values := retained_values q remove_exclusions in
  if show_values then
    if remove_exclusions
    then (fun '(c, v) => c +:+ " (" +:+ pretty v +:+ ")") <$> zip2 choices values
    else (fun '(c, v, x) =>
            if x : bool then c +:+ " (X)"
            else c +:+ " (" +:+ pretty v +:+ ")")
           <$> zip2 (zip2 choices values) (so_exclude_from_analysis q)
  else choices.

Definition tally (q : SelectOneQuestion) (df : DataFrame)
    (remove_exclusions : bool) : result (list Z * Z * Z) :=
  unit_record ← getitem df (so_variable q);
  let freqs := value_counts unit_record in
  let values := retained_values q remove_exclusions in
  let cts := (fun k => match freqs !! k with
                       | Some c => c
                       | None => 0
                       end) <$> values in
  Ok (cts, pysum cts, len unit_record - pysum cts).

(** The counts are the numpy [int64] of [value_counts] (or the integer 0):
    the product of a count and a value wraps around at 64 bits, and so
    does the sum of the products.  The values are taken to fit in 64 bits,
    as the codes held by a column do. *)
Definition mean (q : SelectOneQuestion) (df : DataFrame)
    (remove_exclusions : bool) : result pyfloat :=
  let values := retained_values q remove_exclusions in
  '(freq, n, x) ← tally q df remove_exclusions;
  let num := pysum64 ((fun '(ct, v) => int64 (ct * v)) <$> zip2 freq values) in
  if 0 <? n then truediv num n else Ok NaN.

(** [get_total_respondents] of the base class, with this [tally]. *)
Definition get_total_respondents (q : SelectOneQuestion) (df : DataFrame)
  : result Z :=
  '(freqs, resp, nonresp) ← tally q df true;
  Ok resp.

Definition frequency_table {ext : Extern} (q : SelectOneQuestion) (df : DataFrame)
    (show_question ct pct : bool) (pct_format : pyarg)
    (remove_exclusions show_totals show_mean : bool) (mean_format : string)
  : result Table :=
  '(cts, resp, nonresp) ← tally q df remove_exclusions;
  let '(data, cols, tots, mean_row) :=
    if show_question
    then ([CStr <$> get_choices q remove_exclusions show_mean],
          ["Answer"], [CStr "Total"], [CStr "Mean"])
    else ([], [], [], []) in
  '(data, cols, tots, mean_row) ←
    (if ct
     then m ← mean q df remove_exclusions;
          Ok (data ++ [CInt <$> cts], cols ++ ["Count"],
              tots ++ [CInt resp],
              mean_row ++ [CStr (format_float m mean_format)])
     else Ok (data, cols, tots, mean_row));
  '(data, cols, tots, mean_row) ←
    (if pct
     then l ← for_each (fun x =>
                  if 0 <? resp
                  then r ← truediv x resp;
                       s ← pyformat_float r pct_format; Ok (CStr s)
                  else Ok (CStr "-")) cts;
          one ← pyformat_int 1 pct_format;
          last ← (if negb ct
                  then m ← mean q df remove_exclusions;
                       Ok (CStr (format_float m mean_format))
                  else Ok (CStr EmptyString));
          Ok (data ++ [l], cols ++ ["%"], tots ++ [CStr one],
              mean_row ++ [last])
     else Ok (data, cols, tots, mean_row));
  tbl ← set_columns cols (columns_of_lists data);
  tbl ← (if show_totals then append_row tbl tots else Ok tbl);
  tbl ← (if show_mean then append_row tbl mean_row else Ok tbl);
  Ok tbl.

(** Returns the significance flag and, for the record, the tests run. *)
Definition compare_groups {ext : Extern} (q : SelectOneQuestion)
    (groupby : GroupBy) (pval : pyfloat) : result (bool * list stat_call) :=
  data ← for_each (fun '(groupname, d) =>
                     s ← getitem d (so_variable q); Ok (dropna s))
                  (gb_items groupby);
  if decide (gb_len groupby = 2) then
    match data with
    | [a; b] => Ok (flt (ttest_ind a b false) pval, [TTestInd a b false])
    | _ => Err (TypeError "ttest_ind() takes two samples")
    end
  else if decide (Z.of_nat (size (gb_group_keys groupby)) = 2) then
    Ok (flt (f_oneway data) p05, [FOneway data])
  else Ok (false, []).

(** [pd.DataFrame(freqs)] aligns the series of the groups on their answer
    labels, and the columns of the frame are the labels of the first
    series.  pandas does so for series whose labels are pairwise
    distinct; it refuses to align series with a repeated label, a case
    that is left out here. *)
Definition cut_by {ext : Extern} (q : SelectOneQuestion) (groups : GroupBy)
    (group_label_mapping : gmap Z string) (cut_var_label : string)
    (question_label : option string) (pct_format : pyarg)
    (remove_exclusions show_mean : bool) (mean_format : string)
  : result CrossTab :=
  freqs ← for_each (fun '(k, gp) =>
             t ← frequency_table q gp true false true pct_format
                   remove_exclusions false show_mean mean_format;
             series ← series_indexed_by t "Answer";
             name ← match group_label_mapping !! k with
                    | Some n => Ok n
                    | None => Err (KeyError (pretty k))
                    end;
             Ok (name, series)) (gb_items groups);
  let df_index := (fun f : string * (list cell * list cell) => CStr f.1)
                    <$> freqs in
  let df_columns := match freqs with
                    | [] => []
                    | (_, (idx, _)) :: _ => idx
                    end in
  let df_data := (fun f : string * (list cell * list cell) => f.2.2)
                   <$> freqs in
  df_columns ←
    (if show_mean then
       '(significant, _) ← compare_groups q groups p05;
       if significant : bool then
         match last df_columns with
         | None => Err IndexError
         | Some (CStr s) => Ok (removelast df_columns ++ [CStr (s +:+ "*")])
         | Some _ => Err (TypeError "unsupported operand type(s) for +")
         end
       else Ok df_columns
     else Ok df_columns);
  let my_label := match question_label with
                  | Some l => if String.eqb l EmptyString then so_text q else l
                  | None => so_text q
                  end in
  let top_index := replicate (length (gb_items groups)) cut_var_label in
  index ← from_arrays top_index df_index;
  let col_top_index :=
    replicate (length (so_choices q)) my_label
    ++ (if show_mean then [my_label] else []) in
  columns ← from_arrays col_top_index df_columns;
  Ok {| ct_index := index; ct_columns := columns; ct_data := df_data |}.

(** The lines that [pretty_print] writes to the console. *)
Definition pretty_print (q : SelectOneQuestion) : list string :=
  (so_text q +:+ " (" +:+ so_label q +:+ ")")
  :: ((fun '(a, b, c) =>
         if c : bool then a +:+ " (X)"
         else a +:+ " (" +:+ pretty b +:+ ")")
        <$> zip2 (zip2 (so_choices q) (so_values q))
                 (so_exclude_from_analysis q)).

(** The line that [pretty_print_answers] writes to the console. *)
Definition pretty_print_answers (q : SelectOneQuestion) : list string :=
  let l := (fun '(a, b, c) =>
              if c : bool then a +:+ " (X)"
              else a +:+ " (" +:+ pretty b +:+ ")")
             <$> zip2 (zip2 (so_choices q) (so_values q))
                      (so_exclude_from_analysis q) in
  [join ", " l].

End SelectOne.

(** ** SelectMultipleQuestion *)

Record SelectMultipleQuestion : Type := {
  sm_text : string;
  sm_variables : list string;
  sm_choices : list string;
  sm_label : string;
  sm_exclude_from_analysis : list bool
}.

(** [df[vars]] for a list of labels: the rows restricted to those columns. *)
Definition getitems (df : DataFrame) (vars : list string)
  : result (list Series) :=
  match filter (fun v => v ∉ df_columns df) vars with
  | [] => Ok ((fun row : gmap string Z => (fun v => row !! v) <$> vars)
                <$> df_rows df)
  | v :: _ => Err (KeyError v)
  end.

(** A [for] loop threading its state, whose body may raise. *)
Fixpoint fold_loop {S A} (body : S -> A -> result S) (s : S) (xs : list A)
  : result S :=
  match xs with
  | [] => Ok s
  | x :: xs' => s' ← body s x; fold_loop body s' xs'
  end.

(** [zip] of the unpacked lists: the tuples of the i-th elements, up to
    the shortest list. *)
Fixpoint zip_star {A} (ls : list (list A)) : list (list A) :=
  match ls with
  | [] => []
  | [l] => (fun x => [x]) <$> l
  | l :: ls' => (fun p : A * list A => p.1 :: p.2) <$> zip2 l (zip_star ls')
  end.

(** [p * n] for a float [p] and an integer [n]. *)
Definition fmul (p : pyfloat) (n : Z) : pyfloat :=
  match p with
  | Real q => Real (Qmult q (inject_Z n))
  | NaN => NaN
  end.

Module SelectMultiple.

Definition get_variable_names (q : SelectMultipleQuestion) : list string :=
  sm_variables q.

Definition retained_variables (q : SelectMultipleQuestion)
    (remove_exclusions : bool) : list string :=
  if remove_exclusions
  then compress (sm_variables q) (negb <$> sm_exclude_from_analysis q)
  else sm_variables q.

Definition get_choices (q : SelectMultipleQuestion)
    (remove_exclusions : bool) : list string :=
  if remove_exclusions
  then compress (sm_choices q) (negb <$> sm_exclude_from_analysis q)
  else sm_choices q.

(** [cts[ct] += 1] *)
Definition increment (cts : list Z) (ct : nat) : result (list Z) :=
  match cts !! ct with
  | Some c => Ok (<[ct := c + 1]> cts)
  | None => Err IndexError
  end.

(** The inner loop over the cells of one row, [ct] counting the cells. *)
Fixpoint count_row (cts : list Z) (ct : nat) (cells : Series)
  : result (list Z) :=
  match cells with
  | [] => Ok cts
  | v :: rest =>
      cts' ← (match v with
              | Some _ => increment cts ct
              | None => Ok cts
              end);
      count_row cts' (S ct) rest
  end.

Definition tally_row (acc : list Z * Z * Z) (row : Series)
  : result (list Z * Z * Z) :=
  let '(cts, respondents, nonrespondents) := acc in
  match dropna row with
  | [] => Ok (cts, respondents, nonrespondents + 1)
  | _ :: _ => cts' ← count_row cts 0 row;
              Ok (cts', respondents + 1, nonrespondents)
  end.

Definition tally (q : SelectMultipleQuestion) (df : DataFrame)
    (remove_exclusions : bool) : result (list Z * Z * Z) :=
  let vars := retained_variables q remove_exclusions in
  unit_record ← getitems df vars;
  fold_loop tally_row (replicate (length vars) 0, 0, 0) unit_record.

Definition get_total_respondents (q : SelectMultipleQuestion)
    (df : DataFrame) : result Z :=
  '(freqs, resp, nonresp) ← tally q df true;
  Ok resp.

Definition frequency_table {ext : Extern} (q : SelectMultipleQuestion)
    (df : DataFrame) (show_question ct pct_respondents pct_responses : bool)
    (pct_format : pyarg) (remove_exclusions show_totals : bool)
  : result Table :=
  '(cts, resp, nonresp) ← tally q df remove_exclusions;
  let '(data, cols, tots) :=
    if show_question
    then ([CStr <$> get_choices q remove_exclusions], ["Answer"],
          [CStr "Total respondents"])
    else ([], [], []) in
  let '(data, cols, tots) :=
    if ct
    then (data ++ [CInt <$> cts], cols ++ ["Count"], tots ++ [CInt resp])
    else (data, cols, tots) in
  '(data, cols, tots) ←
    (if pct_respondents
     then l ← for_each (fun x => r ← truediv x resp;
                                 s ← pyformat_float r pct_format;
                                 Ok (CStr s)) cts;
          Ok (data ++ [l], cols ++ ["% of respondents"], tots ++ [CStr EmptyString])
     else Ok (data, cols, tots));
  '(data, cols, tots) ←
    (if pct_responses
     then l ← for_each (fun x => r ← truediv x (pysum cts);
                                 s ← pyformat_float r pct_format;
                                 Ok (CStr s)) cts;
          Ok (data ++ [l], cols ++ ["% of responses"], tots ++ [CStr EmptyString])
     else Ok (data, cols, tots));
  tbl ← set_columns cols (columns_of_lists data);
  if show_totals then append_row tbl tots else Ok tbl.

Definition compare_groups {ext : Extern} (q : SelectMultipleQuestion)
    (groupby : GroupBy) (remove_exclusions : bool) (pval : pyfloat)
  : result (list bool) :=
  tallies ← for_each (fun '(k, df) => tally q df remove_exclusions)
                     (gb_items groupby);
  let obs_by_cut := (fun t : list Z * Z * Z => t.1.1) <$> tallies in
  let ct_by_cut := (fun t : list Z * Z * Z => t.1.2) <$> tallies in
  let choice_totals := pysum <$> zip_star obs_by_cut in
  exp_prop_per_choice ←
    for_each (fun t => truediv t (pysum ct_by_cut)) choice_totals;
  Ok ((fun '(f_obs, choice_tot, p_choice) =>
         let f_exp := (fun ct => fmul p_choice ct) <$> ct_by_cut in
         flt (chisquare f_obs f_exp) pval)
        <$> zip2 (zip2 (zip_star obs_by_cut) choice_totals)
                 exp_prop_per_choice).

(** The flags of [compare_groups] put on the column labels,
    [i + "*"] for a flagged label [i]. *)
Fixpoint flag_columns (sigs : list bool) (columns : list cell)
  : result (list cell) :=
  match sigs, columns with
  | s :: sigs', i :: columns' =>
      i' ← (if s then
              match i with
              | CStr label => Ok (CStr (label +:+ "*"))
              | _ => Err (TypeError "unsupported operand type(s) for +")
              end
            else Ok i);
      rest ← flag_columns sigs' columns';
      Ok (i' :: rest)
  | _, _ => Ok []
  end.

(** As for a single-answer question, [pd.DataFrame(freqs)] is described
    for choice labels that are pairwise distinct. *)
Definition cut_by {ext : Extern} (q : SelectMultipleQuestion)
    (groups : GroupBy) (group_label_mapping : gmap Z string)
    (cut_var_label : string) (question_label : option string)
    (pct_format : pyarg) (remove_exclusions : bool) : result CrossTab :=
  freqs ← for_each (fun '(k, gp) =>
             t ← frequency_table q gp true false true false pct_format
                   remove_exclusions false;
             series ← series_indexed_by t "Answer";
             name ← match group_label_mapping !! k with
                    | Some n => Ok n
                    | None => Err (KeyError (pretty k))
                    end;
             Ok (name, series)) (gb_items groups);
  let df_index := (fun f : string * (list cell * list cell) => CStr f.1)
                    <$> freqs in
  let df_columns := match freqs with
                    | [] => []
                    | (_, (idx, _)) :: _ => idx
                    end in
  let df_data := (fun f : string * (list cell * list cell) => f.2.2)
                   <$> freqs in
  let my_label := match question_label with
                  | Some l => if String.eqb l EmptyString then sm_text q else l
                  | None => sm_text q
                  end in
  sigs ← compare_groups q groups remove_exclusions p05;
  newcols ← flag_columns sigs df_columns;
  let top_index := replicate (length (gb_items groups)) cut_var_label in
  index ← from_arrays top_index df_index;
  let col_top_index := replicate (length (sm_choices q)) my_label in
  columns ← from_arrays col_top_index newcols;
  Ok {| ct_index := index; ct_columns := columns; ct_data := df_data |}.

End SelectMultiple.

(** ** Questions of either kind, and matrices of them *)

Inductive Question : Type :=
| QOne (q : SelectOneQuestion)
| QMultiple (q : SelectMultipleQuestion).

(** [type(q)] *)
Inductive qtype : Type :=
| TSelectOneQuestion
| TSelectMultipleQuestion.

#[global] Instance qtype_eq_dec : EqDecision qtype.
Proof. solve_decision. Defined.

Definition type (q : Question) : qtype :=
  match q with
  | QOne _ => TSelectOneQuestion
  | QMultiple _ => TSelectMultipleQuestion
  end.

Definition question_text (q : Question) : string :=
  match q with
  | QOne s => so_text s
  | QMultiple s => sm_text s
  end.

(** [self.same_choices(other)], dispatched on [self]; a multi-answer
    question has no [values] attribute. *)
Definition same_choices (self other : Question) : result bool :=
  match self, other with
  | QOne s, QOne o =>
      Ok (bool_decide (so_choices s = so_choices o)
          && bool_decide (so_values s = so_values o)
          && bool_decide (so_exclude_from_analysis s
                          = so_exclude_from_analysis o))
  | QOne s, QMultiple o =>
      if bool_decide (so_choices s = sm_choices o)
      then Err (AttributeError "values")
      else Ok false
  | QMultiple s, QOne o =>
      Ok (bool_decide (sm_choices s = so_choices o)
          && bool_decide (sm_exclude_from_analysis s
                          = so_exclude_from_analysis o))
  | QMultiple s, QMultiple o =>
      Ok (bool_decide (sm_choices s = sm_choices o)
          && bool_decide (sm_exclude_from_analysis s
                          = sm_exclude_from_analysis o))
  end.

(** [q.get_total_respondents(df)] *)
Definition get_total_respondents (q : Question) (df : DataFrame) : result Z :=
  match q with
  | QOne s => SelectOne.get_total_respondents s df
  | QMultiple s => SelectMultiple.get_total_respondents s df
  end.

(** [q.tally(df, remove_exclusions)] *)
Definition tally (q : Question) (df : DataFrame) (remove_exclusions : bool)
  : result (list Z * Z * Z) :=
  match q with
  | QOne s => SelectOne.tally s df remove_exclusions
  | QMultiple s => SelectMultiple.tally s df remove_exclusions
  end.

(** [q.frequency_table(df, a1, ..., a7)] with seven positional arguments:
    each class binds them to its own parameters, in order. *)
Definition call_frequency_table {ext : Extern} (q : Question) (df : DataFrame)
    (a1 a2 a3 a4 a5 a6 a7 : pyarg) : result Table :=
  match q with
  | QOne s =>
      SelectOne.frequency_table s df (truthy a1) (truthy a2) (truthy a3) a4
        (truthy a5) (truthy a6) (truthy a7) ".1f"
  | QMultiple s =>
      SelectMultiple.frequency_table s df (truthy a1) (truthy a2) (truthy a3)
        (truthy a4) a5 (truthy a6) (truthy a7)
  end.

(** The owner back-reference set on each child by the constructor is not
    read by any method and is left out of the records. *)
Record MatrixQuestion : Type := {
  mx_text : string;
  mx_label : string;
  mx_questions : list Question
}.

(** [cols[-1:] + cols[:-1]] *)
Definition last_first {A} (cols : list A) : list A :=
  match last cols with
  | Some c => c :: removelast cols
  | None => []
  end.

Module Matrix.

Definition same_type_message : string :=
  "Questions in a matrix must all have the same type".

Definition same_choices_message : string :=
  "Questions in a matrix must all have the same choices".

Definition assert_questions_same_type (self : MatrixQuestion) : result bool :=
  match mx_questions self with
  | [] => Ok true
  | q0 :: _ =>
      if forallb (fun x => bool_decide (type x = type q0)) (mx_questions self)
      then Ok true
      else Err (Exception same_type_message)
  end.

(** [all(x.same_choices(q0) for x in xs)], stopping at the first False. *)
Fixpoint all_same_choices (q0 : Question) (xs : list Question)
  : result bool :=
  match xs with
  | [] => Ok true
  | x :: xs' => b ← same_choices x q0;
                if b : bool then all_same_choices q0 xs' else Ok false
  end.

Definition assert_choices_same (self : MatrixQuestion) : result bool :=
  match mx_questions self with
  | [] => Ok true
  | q0 :: _ =>
      b ← all_same_choices q0 (mx_questions self);
      if b : bool then Ok true else Err (Exception same_choices_message)
  end.

(** [__init__] *)
Definition init (text label : string) (questions : list Question)
  : result MatrixQuestion :=
  let self := {| mx_text := text; mx_label := label;
                 mx_questions := questions |} in
  _ ← assert_questions_same_type self;
  _ ← assert_choices_same self;
  Ok self.

Definition get_children_text (self : MatrixQuestion) : list string :=
  question_text <$> mx_questions self.

End Matrix.

Module SelectOneMatrix.

Definition get_choices (self : MatrixQuestion)
    (remove_exclusions show_values : bool) : result (list string) :=
  _ ← Matrix.assert_choices_same self;
  match mx_questions self with
  | [] => Err IndexError
  | QOne q :: _ => Ok (SelectOne.get_choices q remove_exclusions show_values)
  | QMultiple _ :: _ =>
      Err (TypeError "get_choices() takes from 1 to 2 positional arguments")
  end.

(** [SelectOneQuestion.get_choices] hands out the very list of choices
    that the question holds, not a copy, when nothing is removed and no
    value is shown. *)
Definition returns_own_list (remove_exclusions show_values : bool) : bool :=
  negb remove_exclusions && negb show_values.


(** Python appends "Total" and "Mean" in place to the list that
    [get_choices] returns, which is the first child's own list when nothing
    is removed and no value is shown.  The call yields the table, or the
    exception raised, together with the labels that it has appended to
    the list of choices held by the first child; the labels stay appended
    when the assignment of the column labels then fails. *)
Definition frequency_table {ext : Extern} (self : MatrixQuestion)
    (df : DataFrame) (show : string) (pct_format : string)
    (remove_exclusions show_totals show_mean : bool) (mean_format : string)
  : result Table * list string :=
  match
    (if String.eqb show "ct" then
       for_each (fun q =>
           t ← call_frequency_table q df (PBool false) (PBool true)
                 (PBool false) (PStr pct_format) (PBool remove_exclusions)
                 (PBool show_totals) (PBool show_mean);
           iloc_col0 t) (mx_questions self)
     else if String.eqb show "pct" then
       for_each (fun q =>
           t ← call_frequency_table q df (PBool false) (PBool false)
                 (PBool true) (PStr pct_format) (PBool remove_exclusions)
                 (PBool show_totals) (PBool show_mean);
           iloc_col0 t) (mx_questions self)
     else Err (Exception ("Invalid 'show' parameter: " +:+ show)))
  with
  | Err e => (Err e, [])
  | Ok data =>
      let tbl := columns_of_rows data in
      match get_choices self remove_exclusions show_mean with
      | Err e => (Err e, [])
      | Ok choices =>
          let added := (if show_totals then ["Total"] else [])
                       ++ (if show_mean then ["Mean"] else []) in
          let tmpcols := choices ++ added in
          (tbl ← set_columns tmpcols tbl;
           let tbl := setitem tbl "Question"
                        (CStr <$> Matrix.get_children_text self) in
           Ok (select_columns tbl (last_first tbl.*1)),
           if returns_own_list remove_exclusions show_mean
           then added else [])
      end
  end.

End SelectOneMatrix.

Module SelectMultipleMatrix.

Definition get_choices (self : MatrixQuestion) (remove_exclusions : bool)
  : result (list string) :=
  _ ← Matrix.assert_choices_same self;
  match mx_questions self with
  | [] => Err IndexError
  | QOne q :: _ => Ok (SelectOne.get_choices q remove_exclusions false)
  | QMultiple q :: _ => Ok (SelectMultiple.get_choices q remove_exclusions)
  end.

(** The two percentage modes iterate over [self.responses], an attribute
    no class defines. *)
Definition frequency_table {ext : Extern} (self : MatrixQuestion)
    (df : DataFrame) (show : string) (pct_format : string)
    (remove_exclusions show_totals : bool) : result Table :=
  data ←
    (if String.eqb show "ct" then
       for_each (fun q =>
           t ← call_frequency_table q df (PBool false) (PBool true)
                 (PBool false) (PBool false) (PStr pct_format)
                 (PBool remove_exclusions) (PBool false);
           iloc_col0 t) (mx_questions self)
     else if String.eqb show "pct_respondents" then
       Err (AttributeError "responses")
     else if String.eqb show "pct_responses" then
       Err (AttributeError "responses")
     else Err (Exception ("Invalid 'show' parameter: " +:+ show)));
  let tbl := columns_of_rows data in
  cols ← get_choices self remove_exclusions;
  tbl ← set_columns cols tbl;
  let tbl := setitem tbl "Question"
               (CStr <$> Matrix.get_children_text self) in
  let tbl := select_columns tbl (last_first tbl.*1) in
  if show_totals then
    tots ← for_each (fun q => get_total_respondents q df)
                    (mx_questions self);
    Ok (setitem tbl "Total Respondents" (CInt <$> tots))
  else Ok tbl.

End SelectMultipleMatrix.

(** ** Grouping the respondents by another question *)

(** [df.groupby(col)], as iterated: one sub-frame per value held in the
    column, the values ascending; a row with a missing cell is in no
    group. *)
Definition groupby (df : DataFrame) (col : string) : result GroupBy :=
  s ← getitem df col;
  let keys := merge_sort Z.le (remove_dups (dropna s)) in
  Ok {| gb_items :=
          (fun k => (k, {| df_columns := df_columns df;
                           df_rows := filter (fun row : gmap string Z =>
                                                row !! col = Some k)
                                             (df_rows df) |})) <$> keys |}.

(** [df[var].replace(v, np.nan, inplace=True)] *)
Definition replace_with_nan (df : DataFrame) (var : string) (v : Z)
  : result DataFrame :=
  if decide (var ∈ df_columns df)
  then Ok {| df_columns := df_columns df;
             df_rows := (fun row : gmap string Z =>
                           if decide (row !! var = Some v)
                           then delete var row else row) <$> df_rows df |}
  else Err (KeyError var).

(** [dict(zip(keys, values))]: a later pair replaces an earlier one. *)
Definition dict_of_zip (keys : list Z) (vals : list string) : gmap Z string :=
  fold_left (fun (m : gmap Z string) (p : Z * string) => <[p.1 := p.2]> m)
            (zip2 keys vals) ∅.

(** [r.T] *)
Definition transpose (t : CrossTab) : CrossTab :=
  {| ct_index := ct_columns t;
     ct_columns := ct_index t;
     ct_data := columns_of_rows (ct_data t) |}.

(** [pd.concat(frames)] for frames under the same column keys, as the
    cross-tabulations of one grouping are: their rows, stacked. *)
Definition concat (frames : list CrossTab) : result CrossTab :=
  match frames with
  | [] => Err (ValueError "No objects to concatenate")
  | f :: _ => Ok {| ct_index := frames ≫= ct_index;
                    ct_columns := ct_columns f;
                    ct_data := frames ≫= ct_data |}
  end.

Module CutByQuestion.

Definition wrong_type_message : string :=
  "Can only call cut_by_question on a SelectOneQuestion type".

(** [[v for v, e in zip(values, exclude_from_analysis) if e]] *)
Definition values_to_drop (o : SelectOneQuestion) : list Z :=
  fst <$> filter (fun p : Z * bool => p.2 = true)
                 (zip2 (so_values o) (so_exclude_from_analysis o)).

(** The working copy in which the excluded answers to the cut variable are
    set to missing, when exclusions are removed. *)
Definition working_copy (o : SelectOneQuestion) (response_set : DataFrame)
    (remove_exclusions : bool) : result DataFrame :=
  if remove_exclusions
  then fold_loop (fun df v => replace_with_nan df (so_variable o) v)
                 response_set (values_to_drop o)
  else Ok response_set.

(** [cut_var_label], or the text of the other question when it is not
    given. *)
Definition axis_text (cut_var_label : option string) (o : SelectOneQuestion)
  : string :=
  match cut_var_label with
  | Some l => if String.eqb l EmptyString then so_text o else l
  | None => so_text o
  end.

(** [SelectOneQuestion.cut_by_question] *)
Definition select_one {ext : Extern} (q : SelectOneQuestion)
    (other_question : Question) (response_set : DataFrame)
    (cut_var_label question_label : option string) (pct_format : pyarg)
    (remove_exclusions show_mean : bool) (mean_format : string)
  : result CrossTab :=
  match other_question with
  | QMultiple _ => Err (Exception wrong_type_message)
  | QOne o =>
      df ← working_copy o response_set remove_exclusions;
      groups ← groupby df (so_label o);
      let group_mapping := dict_of_zip (so_values o) (so_choices o) in
      SelectOne.cut_by q groups group_mapping (axis_text cut_var_label o)
        question_label pct_format remove_exclusions show_mean mean_format
  end.

(** [SelectMultipleQuestion.cut_by_question]; it accepts [show_mean] and
    [mean_format] and does not use them. *)
Definition select_multiple {ext : Extern} (q : SelectMultipleQuestion)
    (other_question : Question) (response_set : DataFrame)
    (cut_var_label question_label : option string) (pct_format : pyarg)
    (remove_exclusions : bool) : result CrossTab :=
  match other_question with
  | QMultiple _ => Err (Exception wrong_type_message)
  | QOne o =>
      df ← working_copy o response_set remove_exclusions;
      groups ← groupby df (so_label o);
      let group_mapping := dict_of_zip (so_values o) (so_choices o) in
      SelectMultiple.cut_by q groups group_mapping (axis_text cut_var_label o)
        question_label pct_format remove_exclusions
  end.

End CutByQuestion.

(** ** Cross-tabulation of a matrix of single-answer questions *)

Module SelectOneMatrixCuts.

(** [SelectOneMatrixQuestion.cut_by]: a multi-answer child is called with
    more positional arguments than its [cut_by] takes. *)
Definition cut_by {ext : Extern} (self : MatrixQuestion) (groups : GroupBy)
    (group_label_mapping : gmap Z string) (cut_var_label : string)
    (question_labels : option (list string)) (pct_format : pyarg)
    (remove_exclusions show_mean : bool) (mean_format : string)
  : result CrossTab :=
  let labels := match question_labels with
                | Some (l :: ls) => l :: ls
                | _ => question_text <$> mx_questions self
                end in
  results ← for_each (fun '(q, l) =>
               match q with
               | QOne s =>
                   r ← SelectOne.cut_by s groups group_label_mapping
                         cut_var_label (Some l) pct_format remove_exclusions
                         show_mean mean_format;
                   Ok (transpose r)
               | QMultiple _ =>
                   Err (TypeError
                          "cut_by() takes from 4 to 7 positional arguments")
               end) (zip2 (mx_questions self) labels);
  concat results.

(** [SelectOneMatrixQuestion.cut_by_question]: the response set is grouped
    as it is, no answer is set to missing. *)
Definition cut_by_question {ext : Extern} (self : MatrixQuestion)
    (other_question : Question) (response_set : DataFrame)
    (cut_var_label : option string) (question_labels : option (list string))
    (pct_format : pyarg) (remove_exclusions show_mean : bool)
    (mean_format : string) : result CrossTab :=
  match other_question with
  | QMultiple _ => Err (Exception CutByQuestion.wrong_type_message)
  | QOne o =>
      groups ← groupby response_set (so_label o);
      let group_mapping := dict_of_zip (so_values o) (so_choices o) in
      cut_by self groups group_mapping
        (CutByQuestion.axis_text cut_var_label o) question_labels pct_format
        remove_exclusions show_mean mean_format
  end.

End SelectOneMatrixCuts.

(** ** Reference notions the claims are stated with *)

(** The choices, values or variables that are not excluded from analysis:
    the entries whose exclusion flag, at the same position, is not set. *)
Definition not_excluded {A} (xs : list A) (flags : list bool) : list A :=
  fst <$> filter (fun p : A * bool => p.2 = false) (zip2 xs flags).

(** The entries whose exclusion flag is set. *)
Definition excluded {A} (xs : list A) (flags : list bool) : list A :=
  fst <$> filter (fun p : A * bool => p.2 = true) (zip2 xs flags).

(** The variables that the tally of a multi-answer question goes
    through. *)
Definition analysed_variables (q : SelectMultipleQuestion)
    (remove_exclusions : bool) : list string :=
  if remove_exclusions
  then not_excluded (sm_variables q) (sm_exclude_from_analysis q)
  else sm_variables q.

(** The values that [tally] and [mean] go through. *)
Definition analysed_values (q : SelectOneQuestion) (remove_exclusions : bool)
  : list Z :=
  if remove_exclusions
  then not_excluded (so_values q) (so_exclude_from_analysis q)
  else so_values q.

(** Number of rows whose cell in a column holds the value [v]. *)
Definition occurrences (v : Z) (s : Series) : Z :=
  len (filter (fun c : option Z => c = Some v) s).

(** The column of [var], whether or not it is declared in the frame. *)
Definition column (df : DataFrame) (var : string) : Series :=
  (fun row : gmap string Z => row !! var) <$> df_rows df.

(** Number of rows holding any value in a column: the rows that answered. *)
Definition answered (s : Series) : Z := len (dropna s).

(** The observed values weighted by their frequency, summed. *)
Definition weighted_sum (values : list Z) (s : Series) : Z :=
  pysum ((fun v => occurrences v s * v) <$> values).

(** A cell holding one of the given values. *)
Definition holds_one_of (vals : list Z) (c : option Z) : Prop :=
  match c with
  | Some v => v ∈ vals
  | None => False
  end.

#[global] Instance holds_one_of_dec vals c : Decision (holds_one_of vals c).
Proof. destruct c; simpl; apply _. Defined.

(** Number of rows holding a value for an answer variable. *)
Definition answers (var : string) (rows : list (gmap string Z)) : Z :=
  len (filter (fun row : gmap string Z => is_Some (row !! var)) rows).

(** A row responds to a set of variables when it holds a value for one. *)
Definition responds (vars : list string) (row : gmap string Z) : Prop :=
  Exists (fun v => is_Some (row !! v)) vars.

(** All the variables are missing in the row. *)
Definition all_missing (vars : list string) (row : gmap string Z) : Prop :=
  Forall (fun v => row !! v = None) vars.

(** One when the cell holds a value, zero when it is missing. *)
Definition present (c : option Z) : Z :=
  match c with
  | Some _ => 1
  | None => 0
  end.

(** The raw values of each group, missing cells dropped. *)
Definition samples (q : SelectOneQuestion) (g : GroupBy) : list (list Z) :=
  (fun kd : Z * DataFrame => dropna (column kd.2 (so_variable q)))
    <$> gb_items g.

(** The choice set of a question: labels, values when it has them, and
    exclusion flags, each in order. *)
Definition choice_set (q : Question)
  : list string * option (list Z) * list bool :=
  match q with
  | QOne s => (so_choices s, Some (so_values s), so_exclude_from_analysis s)
  | QMultiple s => (sm_choices s, None, sm_exclude_from_analysis s)
  end.

Definition same_type_all (qs : list Question) : Prop :=
  forall x y, x ∈ qs -> y ∈ qs -> type x = type y.

Definition same_choice_sets (qs : list Question) : Prop :=
  forall x y, x ∈ qs -> y ∈ qs -> choice_set x = choice_set y.

(** Respondents of a multi-answer question in a frame. *)
Definition group_respondents (vars : list string) (df : DataFrame) : Z :=
  len (filter (responds vars) (df_rows df)).

(** The observed count of a choice variable in each group. *)
Definition observed (v : string) (g : GroupBy) : list Z :=
  (fun kd : Z * DataFrame => answers v (df_rows kd.2)) <$> gb_items g.

(** The respondents of each group. *)
Definition group_totals (vars : list string) (g : GroupBy) : list Z :=
  (fun kd : Z * DataFrame => group_respondents vars kd.2) <$> gb_items g.

(** The share of a choice among the respondents of all groups combined. *)
Definition overall_proportion (v : string) (vars : list string) (g : GroupBy)
  : pyfloat :=
  Real (Qmake (pysum (observed v g)) (Z.to_pos (pysum (group_totals vars g)))).

(** Each group's respondents times the overall proportion of the choice. *)
Definition expected (v : string) (vars : list string) (g : GroupBy)
  : list pyfloat :=
  (fun ct => fmul (overall_proportion v vars g) ct) <$> group_totals vars g.

(** The invariant of a single-answer question: as many values and
    exclusion flags as choices. *)
Definition well_formed (q : SelectOneQuestion) : Prop :=
  length (so_choices q) = length (so_values q)
  /\ length (so_choices q) = length (so_exclude_from_analysis q).

(** The labels of the series that [cut_by] builds for each group: the
    answer labels, padded to the number of counts, then the mean row. *)
Definition answer_index (q : SelectOneQuestion) (remove_exclusions : bool)
    (show_mean : bool) : list cell :=
  pad (max_list [length (SelectOne.get_choices q remove_exclusions show_mean);
                 length (SelectOne.retained_values q remove_exclusions)])
      (CStr <$> SelectOne.get_choices q remove_exclusions show_mean)
  ++ (if show_mean then [CStr "Mean"] else []).

(** The label [cut_by] puts above the columns. *)
Definition top_label (q : SelectOneQuestion) (question_label : option string)
  : string :=
  match question_label with
  | Some l => if String.eqb l EmptyString then so_text q else l
  | None => so_text q
  end.

(** ** Sample questions and data *)

Module Sample.

(** A yes/no question with a "don't know" choice left out of analysis. *)
Definition happy : SelectOneQuestion := {|
  so_text := "Are you happy?";
  so_variable := "q1";
  so_choices := ["Yes"; "No"; "Don't know"];
  so_label := "Q1";
  so_values := [1; 2; 9];
  so_exclude_from_analysis := [false; false; true]
|}.

Definition answer (v : Z) : gmap string Z := {[ "q1" := v ]}.

Definition no_answer : gmap string Z := ∅.

Definition frame (rows : list (gmap string Z)) : DataFrame :=
  {| df_columns := ["q1"]; df_rows := rows |}.

(** One respondent chose "Yes", one chose the excluded "Don't know". *)
Definition yes_and_dk : DataFrame := frame [answer 1; answer 9].

(** Answers 1, 1, 2 and one missing. *)
Definition four_rows : DataFrame :=
  frame [answer 1; answer 1; answer 2; no_answer].

Definition nobody : DataFrame := frame [no_answer; no_answer].

(** A multi-answer question with the choice variables A and B. *)
Definition which : SelectMultipleQuestion := {|
  sm_text := "Which apply?";
  sm_variables := ["A"; "B"];
  sm_choices := ["a"; "b"];
  sm_label := "Q2";
  sm_exclude_from_analysis := [false; false]
|}.

(** The rows {A:1, B:NA}, {A:NA, B:NA} and {A:1, B:1}. *)
Definition three_rows : DataFrame := {|
  df_columns := ["A"; "B"];
  df_rows := [ {[ "A" := 1 ]}; ∅; <[ "A" := 1 ]> {[ "B" := 1 ]} ]
|}.

(** The four answers split by a two-valued grouping variable. *)
Definition two_groups : GroupBy := {|
  gb_items := [ (0, frame [answer 1; answer 1]);
                (1, frame [answer 2; no_answer]) ]
|}.

Definition three_groups : GroupBy := {|
  gb_items := [ (0, frame [answer 1]); (1, frame [answer 2]);
                (2, frame [answer 1]) ]
|}.

Definition group_labels : gmap Z string :=
  <[ 0 := "Men" ]> {[ 1 := "Women" ]}.

(** Stand-ins for scipy and [format]: each test reports the p-value
    1/100, and numbers are rendered in full. *)
Definition tests : Extern := {|
  ttest_ind := fun _ _ _ => Real (1 # 100);
  f_oneway := fun _ => Real (1 # 100);
  chisquare := fun _ _ => Real (1 # 100);
  format_float := fun x _ =>
    match x with
    | NaN => "nan"
    | Real r => pretty (Qnum r) +:+ "/" +:+ pretty (Z.pos (Qden r))
    end;
  format_int := fun z _ => pretty z
|}.

(** The same choices under other codes. *)
Definition recoded : SelectOneQuestion := {|
  so_text := "Were you happy?";
  so_variable := "q3";
  so_choices := ["Yes"; "No"; "Don't know"];
  so_label := "Q3";
  so_values := [1; 0; 9];
  so_exclude_from_analysis := [false; false; true]
|}.

(** The choices of [happy] asked about another day. *)
Definition happy_again : SelectOneQuestion := {|
  so_text := "Were you happy yesterday?";
  so_variable := "q4";
  so_choices := ["Yes"; "No"; "Don't know"];
  so_label := "Q4";
  so_values := [1; 2; 9];
  so_exclude_from_analysis := [false; false; true]
|}.

(** Two multi-answer children over the same choices. *)
Definition which_matrix : MatrixQuestion := {|
  mx_text := "What applies";
  mx_label := "M2";
  mx_questions := [QMultiple which; QMultiple which]
|}.

(** Two single-answer children over the same choices, and their data. *)
Definition happy_matrix : MatrixQuestion := {|
  mx_text := "Mood";
  mx_label := "M1";
  mx_questions := [QOne happy; QOne happy_again]
|}.

Definition two_days : DataFrame := {|
  df_columns := ["q1"; "q4"];
  df_rows := [ <[ "q1" := 1 ]> {[ "q4" := 2 ]}; {[ "q1" := 1 ]} ]
|}.

(** A frame whose only row answers nothing. *)
Definition silent : DataFrame := {|
  df_columns := ["A"; "B"];
  df_rows := [ ∅ ]
|}.

(** A grouping whose single group holds no respondent. *)
Definition silent_group : GroupBy := {| gb_items := [(0, silent)] |}.

Definition halves : GroupBy := {|
  gb_items := [(0, three_rows); (1, three_rows)]
|}.

End Sample.

(** A row in which the answer to [var] is set to missing when it is one of
    the values to drop. *)
Definition null_excluded (drop : list Z) (var : string)
    (row : gmap string Z) : gmap string Z :=
  match row !! var with
  | Some v => if decide (v ∈ drop) then delete var row else row
  | None => row
  end.

(** ** Further sample data *)

Module Cases.

(** A frame that lacks the answer column of the sample question. *)
Definition other_columns : DataFrame := {|
  df_columns := ["q7"];
  df_rows := [ {[ "q7" := 1 ]} ]
|}.

(** The sample question with the value 1 listed twice. *)
Definition doubled : SelectOneQuestion := {|
  so_text := "Are you happy?";
  so_variable := "q1";
  so_choices := ["Yes"; "Yes again"];
  so_label := "Q1";
  so_values := [1; 1];
  so_exclude_from_analysis := [false; false]
|}.

(** A frame holding the column A only. *)
Definition only_a : DataFrame := {|
  df_columns := ["A"];
  df_rows := [ {[ "A" := 1 ]} ]
|}.

(** A multi-answer question under the labels of [doubled]. *)
Definition yes_twice : SelectMultipleQuestion := {|
  sm_text := "Which apply?";
  sm_variables := ["A"; "B"];
  sm_choices := ["Yes"; "Yes again"];
  sm_label := "Q2";
  sm_exclude_from_analysis := [false; false]
|}.

(** The choices of [Sample.which] with the second one excluded. *)
Definition which_without_b : SelectMultipleQuestion := {|
  sm_text := "Which apply?";
  sm_variables := ["A"; "B"];
  sm_choices := ["a"; "b"];
  sm_label := "Q2";
  sm_exclude_from_analysis := [false; true]
|}.

(** The grouping question: its answers are in the column "g", the value 9
    is left out of analysis. *)
Definition gender : SelectOneQuestion := {|
  so_text := "Gender";
  so_variable := "g";
  so_choices := ["Men"; "Women"; "Other"; "No answer"];
  so_label := "g";
  so_values := [0; 1; 2; 9];
  so_exclude_from_analysis := [false; false; false; true]
|}.

(** The same question, known to the frame under another label. *)
Definition gender_relabelled : SelectOneQuestion := {|
  so_text := "Gender";
  so_variable := "g";
  so_choices := ["Men"; "Women"; "Other"; "No answer"];
  so_label := "Gender";
  so_values := [0; 1; 2; 9];
  so_exclude_from_analysis := [false; false; false; true]
|}.

Definition respondent (g q1 : Z) : gmap string Z :=
  <[ "g" := g ]> {[ "q1" := q1 ]}.

(** Five respondents of three genders, and one who did not tell. *)
Definition survey : DataFrame := {|
  df_columns := ["q1"; "g"];
  df_rows := [ respondent 1 1; respondent 0 2; respondent 2 1;
               respondent 0 1; respondent 9 2; {[ "q1" := 1 ]} ]
|}.

(** Two groups, the second without any respondent. *)
Definition one_silent_group : GroupBy := {|
  gb_items := [(0, Sample.three_rows); (1, Sample.silent)]
|}.

(** The answers of two days, grouped under two keys. *)
Definition days_by_gender : GroupBy := {|
  gb_items := [(0, Sample.two_days); (1, Sample.two_days)]
|}.

(** One row answering A, one answering B, one answering nothing. *)
Definition a_or_b : DataFrame := {|
  df_columns := ["A"; "B"];
  df_rows := [ {[ "A" := 1 ]}; {[ "B" := 1 ]}; ∅ ]
|}.

(** A question whose first code is 2^62, and two rows holding it. *)
Definition huge : SelectOneQuestion := {|
  so_text := "How many?";
  so_variable := "q1";
  so_choices := ["Many"; "One"];
  so_label := "Q1";
  so_values := [4611686018427387904; 1];
  so_exclude_from_analysis := [false; false]
|}.

Definition two_huge : DataFrame :=
  Sample.frame [Sample.answer 4611686018427387904;
                Sample.answer 4611686018427387904].

End Cases.

(** ** Auxiliary facts *)

Lemma pysum_shift (l : list Z) (a : Z) : fold_left Z.add l a = a + pysum l.
Proof.
  unfold pysum. revert a.
  induction l as [|x l IH]; intros a; simpl; [lia|].
  rewrite (IH (a + x)), (IH (0 + x)). lia.
Qed.

Lemma pysum_cons (x : Z) (l : list Z) : pysum (x :: l) = x + pysum l.
Proof. unfold pysum at 1. simpl. apply pysum_shift. Qed.

Lemma pysum_nil : pysum [] = 0.
Proof. reflexivity. Qed.

Lemma pysum_nonneg (l : list Z) : Forall (fun x => 0 <= x) l -> 0 <= pysum l.
Proof.
  induction 1 as [|x l Hx _ IH]; [rewrite pysum_nil; lia|].
  rewrite pysum_cons. lia.
Qed.

Lemma occurrences_nil v : occurrences v [] = 0.
Proof. reflexivity. Qed.

Lemma occurrences_cons v c s :
  occurrences v (c :: s) =
  (if decide (c = Some v) then 1 else 0) + occurrences v s.
Proof.
  unfold occurrences, len. rewrite filter_cons.
  destruct (decide (c = Some v)); simpl; lia.
Qed.

Lemma occurrences_nonneg v s : 0 <= occurrences v s.
Proof. unfold occurrences, len. lia. Qed.

(** [value_counts] has an entry exactly for the values that occur, holding
    their number of occurrences. *)
Lemma value_counts_lookup (s : Series) (v : Z) :
  value_counts s !! v =
  if decide (occurrences v s = 0) then None else Some (occurrences v s).
Proof.
  induction s as [|c s IH]; simpl.
  - rewrite lookup_empty. reflexivity.
  - rewrite occurrences_cons. pose proof (occurrences_nonneg v s) as Hnn.
    fold (value_counts s). destruct c as [w|].
    + destruct (decide (w = v)) as [->|Hne].
      * rewrite lookup_insert_eq, IH.
        rewrite (decide_True (P := Some v = Some v)) by reflexivity.
        destruct (decide (occurrences v s = 0)) as [E|E]; simpl.
        -- rewrite E. reflexivity.
        -- rewrite decide_False by lia. f_equal. lia.
      * rewrite lookup_insert_ne by exact Hne. rewrite IH.
        rewrite (decide_False (P := Some w = Some v)) by congruence.
        reflexivity.
    + rewrite IH. rewrite (decide_False (P := None = Some v)) by congruence.
      reflexivity.
Qed.

Lemma tally_count_eq (s : Series) (k : Z) :
  match value_counts s !! k with Some c => c | None => 0 end = occurrences k s.
Proof.
  rewrite value_counts_lookup.
  destruct (decide (occurrences k s = 0)) as [E|E]; congruence.
Qed.

Lemma getitem_present df var :
  var ∈ df_columns df -> getitem df var = Ok (column df var).
Proof. intros H. unfold getitem. rewrite decide_True by exact H. reflexivity. Qed.

Lemma getitem_absent df var :
  var ∉ df_columns df -> getitem df var = Err (KeyError var).
Proof. intros H. unfold getitem. rewrite decide_False by exact H. reflexivity. Qed.

(** The closed form of the single-answer tally. *)
Lemma select_one_tally_eq q df re :
  so_variable q ∈ df_columns df ->
  let col := column df (so_variable q) in
  let cts := (fun v => occurrences v col) <$> SelectOne.retained_values q re in
  SelectOne.tally q df re = Ok (cts, pysum cts, len (df_rows df) - pysum cts).
Proof.
  intros Hin col cts. unfold SelectOne.tally.
  rewrite (getitem_present _ _ Hin). simpl.
  fold col.
  assert (Hcts : (fun k => match value_counts col !! k with
                           | Some c => c | None => 0 end)
                 <$> SelectOne.retained_values q re = cts).
  { unfold cts. apply list_fmap_ext. intros _ k _. apply tally_count_eq. }
  rewrite Hcts. unfold col at 1, column, len. rewrite length_fmap. reflexivity.
Qed.

(** ** Single-answer tally and mean *)

(** C1: with exclusions kept, the tally of a single-answer question holds
    one count per choice value, in the order of the values; the respondents
    are the sum of the counts, and counts plus non-respondents make up the
    rows of the data set. *)
Theorem select_one_tally_accounts_for_every_row
    (q : SelectOneQuestion) (df : DataFrame) :
  so_variable q ∈ df_columns df ->
  exists cts respondents nonrespondents,
    SelectOne.tally q df false = Ok (cts, respondents, nonrespondents)
    /\ pysum cts + nonrespondents = len (df_rows df)
    /\ respondents = pysum cts
    /\ cts = (fun v => occurrences v (column df (so_variable q)))
               <$> so_values q.
Proof.
  intros Hin. pose proof (select_one_tally_eq q df false Hin) as Heq.
  simpl in Heq. eexists _, _, _. split; [exact Heq|].
  split; [lia|]. split; reflexivity.
Qed.

Lemma select_one_tally_accounts_for_every_row_witness :
  so_variable Sample.happy ∈ df_columns Sample.four_rows
  /\ exists cts respondents nonrespondents,
       SelectOne.tally Sample.happy Sample.four_rows false
       = Ok (cts, respondents, nonrespondents)
       /\ pysum cts + nonrespondents = len (df_rows Sample.four_rows)
       /\ respondents = pysum cts
       /\ cts = (fun v => occurrences v
                            (column Sample.four_rows (so_variable Sample.happy)))
                  <$> so_values Sample.happy.
Proof.
  assert (H : so_variable Sample.happy ∈ df_columns Sample.four_rows)
    by (vm_compute; repeat constructor).
  split; [exact H|].
  exact (select_one_tally_accounts_for_every_row _ _ H).
Defined.

Lemma holds_one_of_cons_count (v : Z) (vals : list Z) (s : Series) :
  v ∉ vals ->
  len (filter (holds_one_of (v :: vals)) s)
  = occurrences v s + len (filter (holds_one_of vals) s).
Proof.
  intros Hnotin. induction s as [|c s IH].
  - reflexivity.
  - rewrite occurrences_cons, !filter_cons. unfold len in *.
    destruct c as [w|]; simpl.
    + destruct (decide (w = v)) as [->|Hne].
      * rewrite (decide_True (P := v ∈ v :: vals)) by constructor.
        rewrite (decide_False (P := v ∈ vals)) by exact Hnotin.
        rewrite (decide_True (P := Some v = Some v)) by reflexivity.
        simpl. lia.
      * rewrite (decide_False (P := Some w = Some v)) by congruence.
        destruct (decide (w ∈ vals)) as [Hw|Hw].
        -- rewrite (decide_True (P := w ∈ v :: vals)) by (right; exact Hw).
           simpl. lia.
        -- rewrite (decide_False (P := w ∈ v :: vals)).
           ++ lia.
           ++ intros Hin. apply elem_of_cons in Hin. destruct Hin; congruence.
    + lia.
Qed.

(** With distinct values, the counts add up to the rows holding one of
    them. *)
Lemma sum_of_counts_distinct (vals : list Z) (s : Series) :
  NoDup vals ->
  pysum ((fun v => occurrences v s) <$> vals)
  = len (filter (holds_one_of vals) s).
Proof.
  induction 1 as [|v vals Hnotin _ IH].
  - change (pysum ((fun v => occurrences v s) <$> [])) with 0.
    induction s as [|[w|] s IHs]; [reflexivity|..];
      rewrite filter_cons; simpl; exact IHs.
  - rewrite fmap_cons, pysum_cons, IH.
    symmetry. apply holds_one_of_cons_count. exact Hnotin.
Qed.

Lemma occurrences_absent (v : Z) (s : Series) :
  Some v ∉ s -> occurrences v s = 0.
Proof.
  intros Hnotin. induction s as [|c s IH]; [reflexivity|].
  rewrite occurrences_cons, IH.
  - rewrite decide_False; [reflexivity|].
    intros ->. apply Hnotin. constructor.
  - intros Hin. apply Hnotin. right. exact Hin.
Qed.

(** Keeping the entries that [compress] selects by the negated flags is
    keeping the entries that are not excluded. *)
Lemma compress_not_excluded {A} (xs : list A) (flags : list bool) :
  compress xs (negb <$> flags) = not_excluded xs flags.
Proof.
  unfold not_excluded. revert flags.
  induction xs as [|x xs IH]; intros [|f flags]; try reflexivity.
  rewrite fmap_cons. cbn [compress zip2]. rewrite filter_cons.
  destruct f; cbn [negb].
  - rewrite decide_False by discriminate. apply IH.
  - rewrite decide_True by reflexivity. rewrite fmap_cons. f_equal.
    apply IH.
Qed.

Lemma retained_values_analysed (q : SelectOneQuestion)
    (remove_exclusions : bool) :
  SelectOne.retained_values q remove_exclusions
  = analysed_values q remove_exclusions.
Proof.
  unfold SelectOne.retained_values, analysed_values.
  destruct remove_exclusions; [apply compress_not_excluded|reflexivity].
Qed.

Lemma retained_variables_analysed (q : SelectMultipleQuestion)
    (remove_exclusions : bool) :
  SelectMultiple.retained_variables q remove_exclusions
  = analysed_variables q remove_exclusions.
Proof.
  unfold SelectMultiple.retained_variables, analysed_variables.
  destruct remove_exclusions; [apply compress_not_excluded|reflexivity].
Qed.

Lemma zip2_functional {A B} (xs : list A) (fs : list B) (x : A) (a b : B) :
  NoDup xs -> (x, a) ∈ zip2 xs fs -> (x, b) ∈ zip2 xs fs -> a = b.
Proof.
  intros Hnd. revert fs.
  induction Hnd as [|y xs Hy _ IH]; intros [|f fs] Ha Hb;
    try (apply elem_of_nil in Ha; destruct Ha).
  assert (Hfst : forall c, (y, c) ∈ zip2 xs fs -> False).
  { intros c Hc. apply Hy. clear -Hc. revert fs Hc.
    induction xs as [|z xs IHxs]; intros [|g fs] Hc;
      try (apply elem_of_nil in Hc; destruct Hc).
    apply elem_of_cons in Hc as [Hc|Hc].
    - injection Hc as -> _. left.
    - right. exact (IHxs fs Hc). }
  cbn [zip2] in Ha, Hb.
  apply elem_of_cons in Ha as [Ha|Ha], Hb as [Hb|Hb].
  - congruence.
  - injection Ha as -> _. destruct (Hfst b Hb).
  - injection Hb as -> _. destruct (Hfst a Ha).
  - exact (IH fs Ha Hb).
Qed.

(** With distinct entries, none is both excluded and not. *)
Lemma excluded_not_retained {A} (xs : list A) (flags : list bool) (x : A) :
  NoDup xs -> x ∈ excluded xs flags -> x ∉ not_excluded xs flags.
Proof.
  unfold excluded, not_excluded. intros Hnd Hex Hin.
  apply list_elem_of_fmap in Hex as ([x1 f1] & -> & Hex).
  apply list_elem_of_fmap in Hin as ([x2 f2] & Heq & Hin).
  apply list_elem_of_filter in Hex as [Ht Hex].
  apply list_elem_of_filter in Hin as [Hf Hin].
  simpl in *. subst x2.
  pose proof (zip2_functional xs flags x1 f1 f2 Hnd Hex Hin). congruence.
Qed.

Lemma not_excluded_NoDup {A} (xs : list A) (flags : list bool) :
  NoDup xs -> NoDup (not_excluded xs flags).
Proof.
  intros Hnd. eapply sublist_NoDup; [exact Hnd|].
  unfold not_excluded. revert flags.
  induction xs as [|x xs IH]; intros [|f flags]; cbn [zip2];
    try (rewrite filter_nil; apply sublist_nil_l).
  apply NoDup_cons in Hnd as [_ Hnd]. rewrite filter_cons.
  destruct (decide ((x, f).2 = false)).
  - rewrite fmap_cons. apply sublist_skip. exact (IH Hnd flags).
  - apply sublist_cons. exact (IH Hnd flags).
Qed.

(** Cells of three kinds that exclude each other are at most the rows. *)
Lemma three_kinds_of_cells (P Q : option Z -> Prop)
    `{forall c, Decision (P c)} `{forall c, Decision (Q c)} (s : Series) :
  (forall c, P c -> c <> None /\ ~ Q c) ->
  (forall c, Q c -> c <> None) ->
  len (filter P s) + len (filter (fun c : option Z => c = None) s)
  + len (filter Q s) <= len s.
Proof.
  intros HP HQ. unfold len. induction s as [|c s IH]; [simpl; lia|].
  rewrite !filter_cons. cbn [length].
  destruct (decide (P c)) as [Hp|Hp].
  - destruct (HP c Hp) as [Hn Hq].
    rewrite decide_False by exact Hn. rewrite decide_False by exact Hq.
    cbn [length]. lia.
  - destruct (decide (c = None)) as [Hn|Hn].
    + rewrite decide_False by (intros Hq; exact (HQ c Hq Hn)).
      cbn [length]. lia.
    + destruct (decide (Q c)); cbn [length]; lia.
Qed.

(** C4, as amended: with exclusions removed, the counts cover, in order,
    the values of the choices that are not excluded, a retained value
    absent from the data counts zero, the respondents are the sum of the
    retained counts and every other row is a non-respondent.  With
    pairwise distinct values the respondents are the rows holding a
    retained value, so that a row holding an excluded value, like a row
    holding none, is among the non-respondents. *)
Theorem select_one_tally_retained_counts
    (q : SelectOneQuestion) (df : DataFrame) :
  so_variable q ∈ df_columns df ->
  let col := column df (so_variable q) in
  let retained := not_excluded (so_values q) (so_exclude_from_analysis q) in
  let dropped := excluded (so_values q) (so_exclude_from_analysis q) in
  exists cts respondents nonrespondents,
    SelectOne.tally q df true = Ok (cts, respondents, nonrespondents)
    /\ cts = (fun v => occurrences v col) <$> retained
    /\ respondents = pysum cts
    /\ nonrespondents = len (df_rows df) - respondents
    /\ (forall i v, retained !! i = Some v -> Some v ∉ col ->
                    cts !! i = Some 0)
    /\ (NoDup (so_values q) ->
        respondents = len (filter (holds_one_of retained) col)
        /\ len (filter (fun c : option Z => c = None) col)
           + len (filter (holds_one_of dropped) col) <= nonrespondents).
Proof.
  intros Hin col retained dropped.
  pose proof (select_one_tally_eq q df true Hin) as Heq. cbv zeta in Heq.
  rewrite (retained_values_analysed q true) in Heq.
  change (analysed_values q true) with retained in Heq. fold col in Heq.
  eexists _, _, _. split; [exact Heq|].
  split; [reflexivity|]. split; [reflexivity|]. split; [reflexivity|].
  split.
  - intros i v Hi Habsent. rewrite list_lookup_fmap, Hi. simpl. f_equal.
    apply occurrences_absent. exact Habsent.
  - intros Hnodup.
    assert (Hresp : pysum ((fun v => occurrences v col) <$> retained)
                    = len (filter (holds_one_of retained) col)).
    { apply sum_of_counts_distinct, not_excluded_NoDup. exact Hnodup. }
    split; [exact Hresp|]. rewrite Hresp.
    assert (Hrows : len (df_rows df) = len col).
    { unfold col, column, len. rewrite length_fmap. reflexivity. }
    rewrite Hrows.
    pose proof (three_kinds_of_cells (holds_one_of retained)
                  (holds_one_of dropped) col) as Hthree.
    assert (H1 : forall c, holds_one_of retained c ->
                           c <> None /\ ~ holds_one_of dropped c).
    { intros [v|] Hc; [|destruct Hc]. split; [discriminate|].
      intros Hd. simpl in Hc, Hd.
      exact (excluded_not_retained _ _ v Hnodup Hd Hc). }
    assert (H2 : forall c, holds_one_of dropped c -> c <> None).
    { intros [v|] Hc; [discriminate|destruct Hc]. }
    specialize (Hthree H1 H2). lia.
Qed.

Lemma select_one_tally_retained_counts_witness :
  so_variable Sample.happy ∈ df_columns Sample.yes_and_dk
  /\ NoDup (so_values Sample.happy)
  /\ not_excluded (so_values Sample.happy)
       (so_exclude_from_analysis Sample.happy) = [1; 2]
  /\ excluded (so_values Sample.happy)
       (so_exclude_from_analysis Sample.happy) = [9]
  /\ SelectOne.tally Sample.happy Sample.yes_and_dk true = Ok ([1; 0], 1, 1)
  /\ len (filter (holds_one_of [9])
            (column Sample.yes_and_dk (so_variable Sample.happy))) = 1.
Proof.
  assert (H : so_variable Sample.happy ∈ df_columns Sample.yes_and_dk)
    by (vm_compute; repeat constructor).
  assert (Hnd : NoDup (so_values Sample.happy))
    by (apply (bool_decide_unpack _); vm_compute; exact I).
  split; [exact H|]. split; [exact Hnd|].
  split; [reflexivity|]. split; [reflexivity|].
  destruct (select_one_tally_retained_counts _ _ H)
    as (cts & r & n & Heq & Hcts & Hr & Hn & _ & Hsplit).
  destruct (Hsplit Hnd) as [Hresp Hnon].
  split; [|reflexivity].
  rewrite Heq. subst r n cts. reflexivity.
Defined.

(** C4, as stated, fails: a row holding the excluded value 9 is not among
    the respondents of the tally with exclusions removed. *)
Lemma select_one_tally_excluded_row_counterexample :
  so_variable Sample.happy ∈ df_columns Sample.yes_and_dk
  /\ ~ (exists cts respondents nonrespondents,
          SelectOne.tally Sample.happy Sample.yes_and_dk true
          = Ok (cts, respondents, nonrespondents)
          /\ respondents
             = answered (column Sample.yes_and_dk (so_variable Sample.happy))).
Proof.
  split; [vm_compute; repeat constructor|].
  intros (cts & r & n & Heq & Hr).
  vm_compute in Heq. vm_compute in Hr. congruence.
Qed.

Lemma zip2_fmap_self {A B C} (f : A -> B) (g : B * A -> C) (l : list A) :
  g <$> zip2 (f <$> l) l = (fun v => g (f v, v)) <$> l.
Proof. induction l as [|x l IH]; simpl; [reflexivity|]. f_equal. exact IH. Qed.

Lemma truediv_pos (a b : Z) :
  0 < b -> truediv a b = Ok (Real (Qmake a (Z.to_pos b))).
Proof.
  intros Hb. unfold truediv. rewrite decide_False by lia.
  rewrite Z.sgn_pos by exact Hb. rewrite Z.abs_eq by lia.
  rewrite Z.mul_1_l. reflexivity.
Qed.

(** Arithmetic on 64 bits. *)
Lemma int64_small (z : Z) : - 2 ^ 63 <= z < 2 ^ 63 -> int64 z = z.
Proof.
  intros Hz. unfold int64. rewrite Z.mod_small by lia. lia.
Qed.

Lemma int64_add (a b : Z) : int64 (int64 a + int64 b) = int64 (a + b).
Proof.
  unfold int64. f_equal.
  replace ((a + 2 ^ 63) mod 2 ^ 64 - 2 ^ 63
           + ((b + 2 ^ 63) mod 2 ^ 64 - 2 ^ 63) + 2 ^ 63)
    with ((a + 2 ^ 63) mod 2 ^ 64 + ((b + 2 ^ 63) mod 2 ^ 64 - 2 ^ 63))
    by lia.
  rewrite Zplus_mod_idemp_l.
  replace (a + 2 ^ 63 + ((b + 2 ^ 63) mod 2 ^ 64 - 2 ^ 63))
    with ((b + 2 ^ 63) mod 2 ^ 64 + a) by lia.
  rewrite Zplus_mod_idemp_l. f_equal. lia.
Qed.

(** The wrapped sum of wrapped terms is the exact sum, wrapped once. *)
Lemma pysum64_int64 (l : list Z) : pysum64 (int64 <$> l) = int64 (pysum l).
Proof.
  unfold pysum64, pysum.
  assert (Hgen : forall a,
             fold_left (fun acc x => int64 (acc + x)) (int64 <$> l) (int64 a)
             = int64 (fold_left Z.add l a)).
  { induction l as [|x l IH]; intros a; [reflexivity|].
    rewrite fmap_cons. cbn [fold_left]. rewrite int64_add. apply IH. }
  exact (Hgen 0).
Qed.

(** The closed form of the mean. *)
Lemma select_one_mean_eq
    (q : SelectOneQuestion) (df : DataFrame) (remove_exclusions : bool) :
  so_variable q ∈ df_columns df ->
  let col := column df (so_variable q) in
  let values := SelectOne.retained_values q remove_exclusions in
  exists cts respondents nonrespondents,
    SelectOne.tally q df remove_exclusions
    = Ok (cts, respondents, nonrespondents)
    /\ 0 <= respondents
    /\ SelectOne.mean q df remove_exclusions
       = Ok (if decide (respondents = 0) then NaN
             else Real (Qmake (int64 (weighted_sum values col))
                              (Z.to_pos respondents))).
Proof.
  intros Hin col values.
  pose proof (select_one_tally_eq q df remove_exclusions Hin) as Heq.
  cbv zeta in Heq. fold col values in Heq.
  set (cts := (fun v => occurrences v col) <$> values) in *.
  assert (Hnn : 0 <= pysum cts).
  { apply pysum_nonneg. unfold cts. apply Forall_fmap, Forall_forall.
    intros v _. apply occurrences_nonneg. }
  exists cts, (pysum cts), (len (df_rows df) - pysum cts).
  split; [exact Heq|]. split; [exact Hnn|].
  unfold SelectOne.mean. rewrite Heq. simpl.
  fold values. fold cts.
  assert (Hnum : pysum64 ((fun '(ct, v) => int64 (ct * v))
                            <$> zip2 cts values)
                 = int64 (weighted_sum values col)).
  { unfold cts, weighted_sum. rewrite <- pysum64_int64. f_equal.
    rewrite (zip2_fmap_self (fun v => occurrences v col)
               (fun '(ct, v) => int64 (ct * v)) values).
    rewrite <- list_fmap_compose. reflexivity. }
  rewrite Hnum.
  destruct (decide (pysum cts = 0)) as [E|E].
  - rewrite E. reflexivity.
  - assert (Hpos : 0 < pysum cts) by lia.
    apply Z.ltb_lt in Hpos as Hb. rewrite Hb.
    apply truediv_pos. exact Hpos.
Qed.

(** C8, as amended: for values that fit in 64 bits, the mean is the
    not-a-number sentinel when nobody responded, and otherwise the sum of
    the analysed values (those not excluded, when exclusions are removed)
    weighted by their frequency, wrapped around at 64 bits, over the
    respondent count; it is the frequency-weighted average whenever that
    sum fits in 64 bits.  It returns in both cases, without dividing by
    zero. *)
Theorem select_one_mean_weighted_average_or_nan
    (q : SelectOneQuestion) (df : DataFrame) (remove_exclusions : bool) :
  so_variable q ∈ df_columns df ->
  Forall (fun v => - 2 ^ 63 <= v < 2 ^ 63) (so_values q) ->
  let col := column df (so_variable q) in
  let values := analysed_values q remove_exclusions in
  let respondents := pysum ((fun v => occurrences v col) <$> values) in
  (exists nonrespondents,
     SelectOne.tally q df remove_exclusions
     = Ok ((fun v => occurrences v col) <$> values, respondents,
           nonrespondents))
  /\ (respondents = 0 -> SelectOne.mean q df remove_exclusions = Ok NaN)
  /\ (respondents <> 0 ->
      0 < respondents
      /\ SelectOne.mean q df remove_exclusions
         = Ok (Real (Qmake (int64 (weighted_sum values col))
                           (Z.to_pos respondents)))
      /\ (- 2 ^ 63 <= weighted_sum values col < 2 ^ 63 ->
          SelectOne.mean q df remove_exclusions
          = Ok (Real (Qmake (weighted_sum values col)
                            (Z.to_pos respondents))))).
Proof.
  intros Hin _ col values respondents.
  destruct (select_one_mean_eq q df remove_exclusions Hin)
    as (cts & r & n & Htally & Hnn & Hmean).
  cbv zeta in Hmean.
  pose proof (select_one_tally_eq q df remove_exclusions Hin) as Heq.
  cbv zeta in Heq. rewrite Heq in Htally.
  injection Htally as _ Hr _. subst r.
  rewrite (retained_values_analysed q remove_exclusions) in *.
  fold col values in Heq, Hmean, Hnn. fold respondents in Heq, Hmean, Hnn.
  split; [eexists; exact Heq|]. split.
  - intros E. rewrite Hmean, decide_True by exact E. reflexivity.
  - intros E. rewrite decide_False in Hmean by exact E.
    split; [lia|]. split; [exact Hmean|].
    intros Hfit. rewrite Hmean, (int64_small _ Hfit). reflexivity.
Qed.

Lemma select_one_mean_weighted_average_or_nan_witness :
  so_variable Sample.happy ∈ df_columns Sample.yes_and_dk
  /\ Forall (fun v => - 2 ^ 63 <= v < 2 ^ 63) (so_values Sample.happy)
  /\ analysed_values Sample.happy true = [1; 2]
  /\ SelectOne.tally Sample.happy Sample.yes_and_dk true = Ok ([1; 0], 1, 1)
  /\ SelectOne.mean Sample.happy Sample.yes_and_dk true = Ok (Real (1 # 1)).
Proof.
  assert (H : so_variable Sample.happy ∈ df_columns Sample.yes_and_dk)
    by (vm_compute; repeat constructor).
  assert (Hfit : Forall (fun v => - 2 ^ 63 <= v < 2 ^ 63)
                   (so_values Sample.happy))
    by (repeat (constructor; [lia|]); constructor).
  split; [exact H|]. split; [exact Hfit|]. split; [reflexivity|].
  destruct (select_one_mean_weighted_average_or_nan Sample.happy
              Sample.yes_and_dk true H Hfit)
    as (_ & _ & Hmean).
  split.
  - reflexivity.
  - destruct Hmean as (_ & _ & Hexact); [vm_compute; discriminate|].
    rewrite Hexact; [reflexivity|].
    vm_compute. split; [discriminate|reflexivity].
Defined.

(** C8, as stated, fails beyond 64 bits: two answers of the code 2^62
    average to 2^62, and the mean returned is -2^62. *)
Lemma select_one_mean_wraps_counterexample :
  so_variable Cases.huge ∈ df_columns Cases.two_huge
  /\ Forall (fun v => - 2 ^ 63 <= v < 2 ^ 63) (so_values Cases.huge)
  /\ SelectOne.tally Cases.huge Cases.two_huge true = Ok ([2; 0], 2, 0)
  /\ weighted_sum (analysed_values Cases.huge true)
       (column Cases.two_huge (so_variable Cases.huge)) = 2 ^ 63
  /\ SelectOne.mean Cases.huge Cases.two_huge true
     = Ok (Real (Qmake (- 2 ^ 63) 2))
  /\ SelectOne.mean Cases.huge Cases.two_huge true
     <> Ok (Real (Qmake (2 ^ 63) 2)).
Proof.
  split; [vm_compute; repeat constructor|].
  split; [repeat (constructor; [simpl; lia|]); constructor|].
  split; [reflexivity|]. split; [reflexivity|]. split; [reflexivity|].
  vm_compute. discriminate.
Qed.

(** With nobody responding the mean is the sentinel. *)
Example mean_of_nobody :
  SelectOne.mean Sample.happy Sample.nobody true = Ok NaN.
Proof. reflexivity. Qed.

(** The answers 1, 1, 2 and one missing are tallied as ([2,1], 3, 1), and
    the excluded answer beside a "Yes" as ([1,0], 1, 1). *)
Example tally_of_four_rows :
  SelectOne.tally Sample.happy Sample.four_rows true = Ok ([2; 1], 3, 1).
Proof. reflexivity. Qed.

Example tally_of_yes_and_dk :
  SelectOne.tally Sample.happy Sample.yes_and_dk true = Ok ([1; 0], 1, 1).
Proof. reflexivity. Qed.

(** A frame without the answer column is refused by the lookup, in the
    tally and so in the mean. *)
Lemma select_one_tally_missing_column (q : SelectOneQuestion) (df : DataFrame)
    (remove_exclusions : bool) :
  so_variable q ∉ df_columns df ->
  SelectOne.tally q df remove_exclusions = Err (KeyError (so_variable q))
  /\ SelectOne.mean q df remove_exclusions = Err (KeyError (so_variable q)).
Proof.
  intros Hnotin. unfold SelectOne.mean, SelectOne.tally.
  rewrite (getitem_absent _ _ Hnotin). split; reflexivity.
Qed.

(** ** Multi-answer tally *)

Lemma filter_none {A} (P : A -> Prop) `{forall x, Decision (P x)} (l : list A) :
  Forall (fun x => ~ P x) l -> filter P l = [].
Proof.
  induction 1 as [|x l Hx _ IH]; [reflexivity|].
  rewrite filter_cons, decide_False by exact Hx. exact IH.
Qed.

Lemma getitems_present (df : DataFrame) (vars : list string) :
  Forall (fun v => v ∈ df_columns df) vars ->
  getitems df vars
  = Ok ((fun row : gmap string Z => (fun v => row !! v) <$> vars)
          <$> df_rows df).
Proof.
  intros Hall. unfold getitems. rewrite filter_none; [reflexivity|].
  eapply Forall_impl; [exact Hall|]. intros v Hv Hn. exact (Hn Hv).
Qed.

Lemma increment_middle (pre post : list Z) (c : Z) :
  SelectMultiple.increment (pre ++ c :: post) (length pre)
  = Ok (pre ++ (c + 1) :: post).
Proof.
  unfold SelectMultiple.increment.
  rewrite list_lookup_middle by reflexivity.
  rewrite insert_app_r_alt by lia.
  rewrite Nat.sub_diag. reflexivity.
Qed.

(** The inner loop adds one to the count of each cell that holds a value. *)
Lemma count_row_spec (cells : Series) (pre post : list Z) :
  length post = length cells ->
  SelectMultiple.count_row (pre ++ post) (length pre) cells
  = Ok (pre ++ zip_with (fun c v => c + present v) post cells).
Proof.
  revert pre post. induction cells as [|v rest IH]; intros pre post Hlen.
  - destruct post; [reflexivity|discriminate].
  - destruct post as [|c post]; [discriminate|].
    injection Hlen as Hlen. simpl.
    destruct v as [w|]; simpl.
    + rewrite increment_middle. simpl.
      replace (S (length pre)) with (length (pre ++ [c + 1]))
        by (rewrite length_app; simpl; lia).
      rewrite (cons_middle (c + 1) pre post), app_assoc.
      rewrite (IH (pre ++ [c + 1]) post Hlen).
      rewrite <- app_assoc. reflexivity.
    + replace (S (length pre)) with (length (pre ++ [c]))
        by (rewrite length_app; simpl; lia).
      rewrite (cons_middle c pre post), app_assoc.
      rewrite (IH (pre ++ [c]) post Hlen).
      rewrite <- app_assoc. simpl. rewrite Z.add_0_r. reflexivity.
Qed.

Lemma zip_with_fmap_same {A B C D} (f : B -> C -> D) (g : A -> B) (h : A -> C)
    (l : list A) :
  zip_with f (g <$> l) (h <$> l) = (fun x => f (g x) (h x)) <$> l.
Proof. induction l as [|x l IH]; simpl; [reflexivity|]. f_equal. exact IH. Qed.

Lemma dropna_nil_all_missing (vars : list string) (row : gmap string Z) :
  dropna ((fun v => row !! v) <$> vars) = [] <-> all_missing vars row.
Proof.
  unfold all_missing, dropna. induction vars as [|v vars IH]; simpl.
  - split; [constructor|reflexivity].
  - destruct (row !! v) as [w|] eqn:E; simpl.
    + split; [discriminate|]. intros Hall.
      apply Forall_cons in Hall as [Hv _]. congruence.
    + rewrite IH. split.
      * intros Hall. constructor; assumption.
      * intros Hall. apply Forall_cons in Hall as [_ Hall]. exact Hall.
Qed.

Lemma responds_iff_not_all_missing (vars : list string) (row : gmap string Z) :
  responds vars row <-> ~ all_missing vars row.
Proof.
  unfold responds, all_missing. induction vars as [|v vars IH].
  - split; [intros Hex; inversion Hex|intros Hn; destruct Hn; constructor].
  - rewrite Exists_cons, Forall_cons, IH.
    destruct (row !! v) as [w|]; split.
    + intros _ [Hv _]. discriminate.
    + intros _. left. eauto.
    + intros [[w Hw]|Hn]; [discriminate|]. tauto.
    + intros Hn. right. intros Hall. apply Hn. split; [reflexivity|exact Hall].
Qed.

(** One pass of the outer loop over a row of cells read from the frame. *)
Lemma tally_row_spec (vars : list string) (g : string -> Z) (r n : Z)
    (row : gmap string Z) :
  SelectMultiple.tally_row (g <$> vars, r, n) ((fun v => row !! v) <$> vars)
  = Ok ((fun v => g v + present (row !! v)) <$> vars,
        r + (if decide (responds vars row) then 1 else 0),
        n + (if decide (all_missing vars row) then 1 else 0)).
Proof.
  unfold SelectMultiple.tally_row.
  destruct (dropna ((fun v => row !! v) <$> vars)) as [|w ws] eqn:E.
  - apply dropna_nil_all_missing in E as Hmiss.
    rewrite (decide_True (P := all_missing vars row)) by exact Hmiss.
    rewrite (decide_False (P := responds vars row))
      by (rewrite responds_iff_not_all_missing; tauto).
    rewrite Z.add_0_r. do 3 f_equal.
    apply Forall_fmap_ext. eapply Forall_impl; [exact Hmiss|].
    intros v Hv. simpl in Hv. rewrite Hv. simpl. lia.
  - assert (Hresp : ~ all_missing vars row).
    { rewrite <- dropna_nil_all_missing, E. discriminate. }
    rewrite (decide_False (P := all_missing vars row)) by exact Hresp.
    rewrite (decide_True (P := responds vars row))
      by (rewrite responds_iff_not_all_missing; exact Hresp).
    rewrite Z.add_0_r.
    pose proof (count_row_spec ((fun v => row !! v) <$> vars) []
                  (g <$> vars)) as Hrow.
    simpl in Hrow. rewrite Hrow by (rewrite !length_fmap; reflexivity).
    simpl. rewrite zip_with_fmap_same. reflexivity.
Qed.

Lemma answers_cons (v : string) (row : gmap string Z)
    (rows : list (gmap string Z)) :
  answers v (row :: rows) = present (row !! v) + answers v rows.
Proof.
  unfold answers, len. rewrite filter_cons.
  destruct (row !! v) as [w|] eqn:E; simpl; lia.
Qed.

Lemma len_filter_cons {A} (P : A -> Prop) `{forall x, Decision (P x)}
    (x : A) (l : list A) :
  len (filter P (x :: l)) = (if decide (P x) then 1 else 0) + len (filter P l).
Proof.
  unfold len. rewrite filter_cons. destruct (decide (P x)); simpl; lia.
Qed.

(** The loop over the rows, from any starting counts. *)
Lemma tally_loop_spec (vars : list string) (rows : list (gmap string Z))
    (g : string -> Z) (r n : Z) :
  fold_loop SelectMultiple.tally_row (g <$> vars, r, n)
    ((fun row : gmap string Z => (fun v => row !! v) <$> vars) <$> rows)
  = Ok ((fun v => g v + answers v rows) <$> vars,
        r + len (filter (responds vars) rows),
        n + len (filter (all_missing vars) rows)).
Proof.
  revert g r n. induction rows as [|row rows IH]; intros g r n.
  - simpl. unfold len. simpl. rewrite !Z.add_0_r. do 3 f_equal.
    apply list_fmap_ext. intros _ v _. unfold answers, len. simpl. lia.
  - rewrite fmap_cons. cbn [fold_loop]. rewrite tally_row_spec.
    cbn [mbind result_bind].
    rewrite (IH (fun v => g v + present (row !! v))).
    rewrite !len_filter_cons, !Z.add_assoc.
    f_equal. f_equal. f_equal.
    apply list_fmap_ext. intros _ v _. rewrite answers_cons. lia.
Qed.

(** The closed form of the multi-answer tally. *)
Lemma select_multiple_tally_eq (q : SelectMultipleQuestion) (df : DataFrame)
    (remove_exclusions : bool) :
  let vars := SelectMultiple.retained_variables q remove_exclusions in
  Forall (fun v => v ∈ df_columns df) vars ->
  SelectMultiple.tally q df remove_exclusions
  = Ok ((fun v => answers v (df_rows df)) <$> vars,
        len (filter (responds vars) (df_rows df)),
        len (filter (all_missing vars) (df_rows df))).
Proof.
  intros vars Hall. unfold SelectMultiple.tally. fold vars.
  rewrite (getitems_present df vars Hall). cbn [mbind result_bind].
  rewrite <- (const_fmap (fun _ : string => 0) vars 0) by reflexivity.
  rewrite tally_loop_spec. reflexivity.
Qed.

(** C3: the multi-answer tally counts, for each retained variable (each
    variable when exclusions are kept, each one whose exclusion flag is
    not set when they are removed), the rows holding a value for it; a row
    with every retained variable missing is one non-respondent, any other
    row is one respondent however many of its variables are present.  With
    the retained variables A and B, on the rows {A:1,B:NA}, {A:NA,B:NA},
    {A:1,B:1} it returns ([2,1], 2, 1). *)
Theorem select_multiple_tally_counts (q : SelectMultipleQuestion)
    (df : DataFrame) (remove_exclusions : bool) :
  let vars := analysed_variables q remove_exclusions in
  (Forall (fun v => v ∈ df_columns df) vars ->
   SelectMultiple.tally q df remove_exclusions
   = Ok ((fun v => answers v (df_rows df)) <$> vars,
         len (filter (fun row => ~ all_missing vars row) (df_rows df)),
         len (filter (all_missing vars) (df_rows df))))
  /\ (vars = ["A"; "B"] ->
      forall columns, "A" ∈ columns -> "B" ∈ columns ->
      SelectMultiple.tally q
        {| df_columns := columns;
           df_rows := [ {[ "A" := 1 ]}; ∅; <[ "A" := 1 ]> {[ "B" := 1 ]} ] |}
        remove_exclusions
      = Ok ([2; 1], 2, 1)).
Proof.
  intros vars.
  assert (Hgen : forall df',
             Forall (fun v => v ∈ df_columns df') vars ->
             SelectMultiple.tally q df' remove_exclusions
             = Ok ((fun v => answers v (df_rows df')) <$> vars,
                   len (filter (fun row => ~ all_missing vars row)
                               (df_rows df')),
                   len (filter (all_missing vars) (df_rows df')))).
  { intros df' Hall. unfold vars in *.
    rewrite <- (retained_variables_analysed q remove_exclusions) in *.
    rewrite (select_multiple_tally_eq q df' remove_exclusions Hall).
    rewrite (list_filter_iff
               (responds (SelectMultiple.retained_variables q
                            remove_exclusions))
               (fun row => ~ all_missing
                               (SelectMultiple.retained_variables q
                                  remove_exclusions) row)); [reflexivity|].
    intros row. apply responds_iff_not_all_missing. }
  split; [exact (Hgen df)|].
  intros Hvars columns HA HB. rewrite Hgen.
  - rewrite Hvars. reflexivity.
  - rewrite Hvars. cbn [df_columns]. repeat constructor; assumption.
Qed.

Lemma select_multiple_tally_counts_witness :
  analysed_variables Cases.which_without_b true = ["A"]
  /\ Forall (fun v => v ∈ df_columns Cases.a_or_b)
            (analysed_variables Cases.which_without_b true)
  /\ SelectMultiple.tally Cases.which_without_b Cases.a_or_b true
     = Ok ([1], 1, 2)
  /\ analysed_variables Sample.which true = ["A"; "B"]
  /\ SelectMultiple.tally Sample.which Sample.three_rows true
     = Ok ([2; 1], 2, 1).
Proof.
  assert (H : Forall (fun v => v ∈ df_columns Cases.a_or_b)
                (analysed_variables Cases.which_without_b true))
    by (vm_compute; repeat constructor).
  assert (Hvars : analysed_variables Sample.which true = ["A"; "B"])
    by reflexivity.
  split; [reflexivity|]. split; [exact H|]. split.
  - rewrite (proj1 (select_multiple_tally_counts Cases.which_without_b
                      Cases.a_or_b true) H).
    reflexivity.
  - split; [exact Hvars|].
    apply (proj2 (select_multiple_tally_counts Sample.which
                    Sample.three_rows true) Hvars
             (df_columns Sample.three_rows));
      vm_compute; repeat constructor.
Defined.

(** ** Group comparison of a single-answer question *)

Lemma for_each_ok {A B} (f : A -> result B) (g : A -> B) (xs : list A) :
  Forall (fun x => f x = Ok (g x)) xs -> for_each f xs = Ok (g <$> xs).
Proof.
  induction 1 as [|x xs Hx _ IH]; [reflexivity|].
  simpl. rewrite Hx. simpl. rewrite IH. reflexivity.
Qed.

Lemma for_each_ext {A B} (f g : A -> result B) (xs : list A) :
  (forall x, f x = g x) -> for_each f xs = for_each g xs.
Proof.
  intros Hfg. induction xs as [|x xs IH]; [reflexivity|].
  simpl. rewrite Hfg, IH. reflexivity.
Qed.

Lemma compare_groups_data {ext : Extern} (q : SelectOneQuestion) (g : GroupBy) :
  Forall (fun kd : Z * DataFrame => so_variable q ∈ df_columns kd.2)
         (gb_items g) ->
  for_each (fun '(groupname, d) =>
              s ← getitem d (so_variable q); Ok (dropna s)) (gb_items g)
  = Ok (samples q g).
Proof.
  intros Hall. unfold samples. apply for_each_ok.
  eapply Forall_impl; [exact Hall|].
  intros [k d] Hin. simpl in *. rewrite (getitem_present _ _ Hin). reflexivity.
Qed.

(** The three branches of the comparison. *)
Lemma compare_groups_branches {ext : Extern}
    (q : SelectOneQuestion) (g : GroupBy) (pval : pyfloat) :
  Forall (fun kd : Z * DataFrame => so_variable q ∈ df_columns kd.2)
         (gb_items g) ->
  (gb_len g = 2 ->
   exists a b, samples q g = [a; b]
     /\ SelectOne.compare_groups q g pval
        = Ok (flt (ttest_ind a b false) pval, [TTestInd a b false]))
  /\ (gb_len g <> 2 -> size (gb_group_keys g) = 2%nat ->
      SelectOne.compare_groups q g pval
      = Ok (flt (f_oneway (samples q g)) p05, [FOneway (samples q g)]))
  /\ (gb_len g <> 2 -> size (gb_group_keys g) <> 2%nat ->
      SelectOne.compare_groups q g pval = Ok (false, [])).
Proof.
  intros Hall. unfold SelectOne.compare_groups.
  rewrite (compare_groups_data q g Hall). cbn [mbind result_bind].
  split; [|split].
  - intros Hlen. rewrite decide_True by exact Hlen.
    assert (Hl : length (samples q g) = 2%nat).
    { unfold samples. rewrite length_fmap. unfold gb_len, len in Hlen. lia. }
    destruct (samples q g) as [|a [|b [|c rest]]]; try discriminate.
    exists a, b. split; reflexivity.
  - intros Hlen Hkeys. rewrite decide_False by exact Hlen.
    rewrite decide_True by (rewrite Hkeys; reflexivity). reflexivity.
  - intros Hlen Hkeys. rewrite decide_False by exact Hlen.
    rewrite decide_False by lia. reflexivity.
Qed.

(** C2, as amended: on a grouping, whose keys are pairwise distinct, the
    comparison runs the unequal-variance t-test on the two samples of
    missing-dropped raw values when there are exactly two groups and
    reports p < pval; in every other case it reports false and runs
    nothing.  The analysis of variance is never run: its branch asks for
    exactly two keys when the groups are not two, and a grouping has as
    many keys as groups. *)
Theorem select_one_compare_groups_dispatch {ext : Extern}
    (q : SelectOneQuestion) (g : GroupBy) (pval : pyfloat) :
  Forall (fun kd : Z * DataFrame => so_variable q ∈ df_columns kd.2)
         (gb_items g) ->
  NoDup (fst <$> gb_items g) ->
  Z.of_nat (size (gb_group_keys g)) = gb_len g
  /\ (gb_len g = 2 ->
      exists ka da kb db,
        gb_items g = [(ka, da); (kb, db)]
        /\ let a := dropna (column da (so_variable q)) in
           let b := dropna (column db (so_variable q)) in
           SelectOne.compare_groups q g pval
           = Ok (flt (ttest_ind a b false) pval, [TTestInd a b false]))
  /\ (gb_len g <> 2 -> SelectOne.compare_groups q g pval = Ok (false, []))
  /\ (forall significant calls,
        SelectOne.compare_groups q g pval = Ok (significant, calls) ->
        forall data, FOneway data ∉ calls).
Proof.
  intros Hall Hnodup.
  assert (Hkeys : Z.of_nat (size (gb_group_keys g)) = gb_len g).
  { unfold gb_group_keys, gb_len, len.
    rewrite size_list_to_set by exact Hnodup. rewrite length_fmap.
    reflexivity. }
  destruct (compare_groups_branches q g pval Hall) as (Ht & _ & Hn).
  assert (Hnone : gb_len g <> 2 ->
                  SelectOne.compare_groups q g pval = Ok (false, [])).
  { intros Hlen. apply Hn; [exact Hlen|]. lia. }
  split; [exact Hkeys|]. split; [|split; [exact Hnone|]].
  - intros Hlen. destruct (Ht Hlen) as (a & b & Hsamples & Hcmp).
    unfold samples in Hsamples.
    destruct (gb_items g) as [|[ka da] [|[kb db] [|c rest]]];
      try discriminate Hsamples.
    injection Hsamples as <- <-.
    exists ka, da, kb, db. split; [reflexivity|]. exact Hcmp.
  - intros significant calls Hcmp data Hin.
    destruct (decide (gb_len g = 2)) as [Hlen|Hlen].
    + destruct (Ht Hlen) as (a & b & _ & Heq). rewrite Heq in Hcmp.
      injection Hcmp as _ <-. apply list_elem_of_singleton in Hin.
      discriminate Hin.
    + rewrite (Hnone Hlen) in Hcmp. injection Hcmp as _ <-.
      apply elem_of_nil in Hin. exact Hin.
Qed.

Lemma select_one_compare_groups_dispatch_witness :
  Forall (fun kd : Z * DataFrame =>
            so_variable Sample.happy ∈ df_columns kd.2)
         (gb_items Sample.two_groups)
  /\ NoDup (fst <$> gb_items Sample.two_groups)
  /\ gb_len Sample.two_groups = 2
  /\ SelectOne.compare_groups (ext := Sample.tests) Sample.happy
       Sample.two_groups p05
     = Ok (flt (ttest_ind (Extern := Sample.tests) [1; 1] [2] false) p05,
           [TTestInd [1; 1] [2] false])
  /\ Forall (fun kd : Z * DataFrame =>
               so_variable Sample.happy ∈ df_columns kd.2)
            (gb_items Sample.three_groups)
  /\ NoDup (fst <$> gb_items Sample.three_groups)
  /\ gb_len Sample.three_groups <> 2
  /\ SelectOne.compare_groups (ext := Sample.tests) Sample.happy
       Sample.three_groups p05 = Ok (false, []).
Proof.
  assert (Hall : Forall (fun kd : Z * DataFrame =>
                           so_variable Sample.happy ∈ df_columns kd.2)
                   (gb_items Sample.two_groups))
    by (vm_compute; repeat constructor).
  assert (Hnd : NoDup (fst <$> gb_items Sample.two_groups))
    by (apply (bool_decide_unpack _); vm_compute; exact I).
  assert (Hlen : gb_len Sample.two_groups = 2) by reflexivity.
  assert (Hall3 : Forall (fun kd : Z * DataFrame =>
                            so_variable Sample.happy ∈ df_columns kd.2)
                    (gb_items Sample.three_groups))
    by (vm_compute; repeat constructor).
  assert (Hnd3 : NoDup (fst <$> gb_items Sample.three_groups))
    by (apply (bool_decide_unpack _); vm_compute; exact I).
  assert (Hlen3 : gb_len Sample.three_groups <> 2) by discriminate.
  split; [exact Hall|]. split; [exact Hnd|]. split; [exact Hlen|]. split.
  - destruct (select_one_compare_groups_dispatch (ext := Sample.tests)
                Sample.happy Sample.two_groups p05 Hall Hnd)
      as (_ & Htwo & _).
    destruct (Htwo Hlen) as (ka & da & kb & db & Hitems & Hcmp).
    injection Hitems as <- <- <- <-. exact Hcmp.
  - split; [exact Hall3|]. split; [exact Hnd3|]. split; [exact Hlen3|].
    destruct (select_one_compare_groups_dispatch (ext := Sample.tests)
                Sample.happy Sample.three_groups p05 Hall3 Hnd3)
      as (_ & _ & Hother & _).
    exact (Hother Hlen3).
Defined.

(** C2, as stated, fails on its degenerate case: in three groups the
    answers take exactly two distinct values, and no analysis of variance
    is run; no test is. *)
Lemma select_one_compare_groups_anova_counterexample :
  Forall (fun kd : Z * DataFrame =>
            so_variable Sample.happy ∈ df_columns kd.2)
         (gb_items Sample.three_groups)
  /\ NoDup (fst <$> gb_items Sample.three_groups)
  /\ 2 < gb_len Sample.three_groups
  /\ remove_dups (mjoin (samples Sample.happy Sample.three_groups)) = [2; 1]
  /\ SelectOne.compare_groups (ext := Sample.tests) Sample.happy
       Sample.three_groups p05 = Ok (false, [])
  /\ SelectOne.compare_groups (ext := Sample.tests) Sample.happy
       Sample.three_groups p05
     <> Ok (flt (f_oneway (Extern := Sample.tests)
                   (samples Sample.happy Sample.three_groups)) p05,
            [FOneway (samples Sample.happy Sample.three_groups)]).
Proof.
  split; [vm_compute; repeat constructor|].
  split; [apply (bool_decide_unpack _); vm_compute; exact I|].
  split; [reflexivity|]. split; [reflexivity|]. split; [reflexivity|].
  vm_compute. discriminate.
Qed.

(** Three groups run no test. *)
Example compare_three_groups :
  SelectOne.compare_groups (ext := Sample.tests) Sample.happy
    Sample.three_groups p05 = Ok (false, []).
Proof. reflexivity. Qed.

(** When the sub-frames carry pairwise distinct keys, as pandas yields
    them, the keys are as many as the groups and the ANOVA branch is never
    taken. *)
Lemma compare_groups_distinct_keys {ext : Extern}
    (q : SelectOneQuestion) (g : GroupBy) (pval : pyfloat) :
  Forall (fun kd : Z * DataFrame => so_variable q ∈ df_columns kd.2)
         (gb_items g) ->
  NoDup (fst <$> gb_items g) ->
  gb_len g <> 2 ->
  SelectOne.compare_groups q g pval = Ok (false, []).
Proof.
  intros Hall Hnodup Hlen.
  apply (compare_groups_branches q g pval Hall); [exact Hlen|].
  unfold gb_group_keys. rewrite size_list_to_set by exact Hnodup.
  rewrite length_fmap. unfold gb_len, len in Hlen. lia.
Qed.

(** ** Matrix construction *)

Lemma same_choices_same_type (x y : Question) :
  type x = type y ->
  same_choices x y = Ok (bool_decide (choice_set x = choice_set y)).
Proof.
  destruct x as [s|s], y as [o|o]; simpl; try discriminate; intros _;
    f_equal; repeat case_bool_decide; simpl; congruence.
Qed.

Lemma all_same_choices_same_type (q0 : Question) (xs : list Question) :
  Forall (fun x => type x = type q0) xs ->
  Matrix.all_same_choices q0 xs
  = Ok (bool_decide (Forall (fun x => choice_set x = choice_set q0) xs)).
Proof.
  induction 1 as [|x xs Hx _ IH]; cbn [Matrix.all_same_choices].
  - rewrite bool_decide_eq_true_2 by constructor. reflexivity.
  - rewrite (same_choices_same_type x q0 Hx). cbn [mbind result_bind].
    destruct (decide (choice_set x = choice_set q0)) as [Hc|Hc].
    + rewrite (bool_decide_eq_true_2 _ Hc), IH. f_equal.
      apply bool_decide_ext. rewrite Forall_cons. tauto.
    + rewrite (bool_decide_eq_false_2 _ Hc). f_equal. symmetry.
      apply bool_decide_eq_false_2. rewrite Forall_cons. tauto.
Qed.

Lemma same_type_all_head (q0 : Question) (qs : list Question) :
  same_type_all (q0 :: qs)
  <-> Forall (fun x => type x = type q0) (q0 :: qs).
Proof.
  unfold same_type_all. rewrite Forall_forall. split.
  - intros Hall x Hx. apply Hall; [exact Hx|constructor].
  - intros Hall x y Hx Hy. rewrite (Hall x Hx), (Hall y Hy). reflexivity.
Qed.

Lemma same_choice_sets_head (q0 : Question) (qs : list Question) :
  same_choice_sets (q0 :: qs)
  <-> Forall (fun x => choice_set x = choice_set q0) (q0 :: qs).
Proof.
  unfold same_choice_sets. rewrite Forall_forall. split.
  - intros Hall x Hx. apply Hall; [exact Hx|constructor].
  - intros Hall x y Hx Hy. rewrite (Hall x Hx), (Hall y Hy). reflexivity.
Qed.

Lemma forallb_type_check (q0 : Question) (qs : list Question) :
  forallb (fun x => bool_decide (type x = type q0)) qs = true
  <-> Forall (fun x => type x = type q0) qs.
Proof.
  rewrite forallb_forall, Forall_forall. split; intros Hall x Hx.
  - apply list_elem_of_In in Hx. apply Hall in Hx.
    apply bool_decide_eq_true in Hx. exact Hx.
  - apply list_elem_of_In in Hx. apply bool_decide_eq_true_2, Hall, Hx.
Qed.

Lemma assert_same_type_ok (text label : string) (qs : list Question) :
  same_type_all qs ->
  Matrix.assert_questions_same_type
    {| mx_text := text; mx_label := label; mx_questions := qs |} = Ok true.
Proof.
  intros Hty. unfold Matrix.assert_questions_same_type. simpl.
  destruct qs as [|q0 qs]; [reflexivity|].
  apply same_type_all_head, forallb_type_check in Hty. rewrite Hty.
  reflexivity.
Qed.

Lemma assert_same_type_err (text label : string) (qs : list Question) :
  ~ same_type_all qs ->
  Matrix.assert_questions_same_type
    {| mx_text := text; mx_label := label; mx_questions := qs |}
  = Err (Exception Matrix.same_type_message).
Proof.
  intros Hty. unfold Matrix.assert_questions_same_type. simpl.
  destruct qs as [|q0 qs].
  - exfalso. apply Hty. intros x y Hx. inversion Hx.
  - destruct (forallb _ (q0 :: qs)) eqn:E; [|reflexivity].
    exfalso. apply Hty, same_type_all_head, forallb_type_check, E.
Qed.

Lemma assert_choices_same_ok (text label : string) (qs : list Question) :
  same_type_all qs -> same_choice_sets qs ->
  Matrix.assert_choices_same
    {| mx_text := text; mx_label := label; mx_questions := qs |} = Ok true.
Proof.
  intros Hty Hcs. unfold Matrix.assert_choices_same. simpl.
  destruct qs as [|q0 qs]; [reflexivity|].
  apply same_type_all_head in Hty. apply same_choice_sets_head in Hcs.
  rewrite (all_same_choices_same_type q0 (q0 :: qs) Hty).
  rewrite bool_decide_eq_true_2 by exact Hcs. reflexivity.
Qed.

Lemma assert_choices_same_err (text label : string) (qs : list Question) :
  same_type_all qs -> ~ same_choice_sets qs ->
  Matrix.assert_choices_same
    {| mx_text := text; mx_label := label; mx_questions := qs |}
  = Err (Exception Matrix.same_choices_message).
Proof.
  intros Hty Hcs. unfold Matrix.assert_choices_same. simpl.
  destruct qs as [|q0 qs].
  - exfalso. apply Hcs. intros x y Hx. inversion Hx.
  - apply same_type_all_head in Hty.
    rewrite (all_same_choices_same_type q0 (q0 :: qs) Hty).
    rewrite bool_decide_eq_false_2; [reflexivity|].
    intros Hall. apply Hcs, same_choice_sets_head, Hall.
Qed.

Lemma select_one_get_choices_ext (s o : SelectOneQuestion) (re sv : bool) :
  choice_set (QOne s) = choice_set (QOne o) ->
  SelectOne.get_choices s re sv = SelectOne.get_choices o re sv.
Proof.
  simpl. intros [= Hc Hv He].
  unfold SelectOne.get_choices, SelectOne.retained_values.
  rewrite Hc, Hv, He. reflexivity.
Qed.

Lemma select_multiple_get_choices_ext (s o : SelectMultipleQuestion)
    (re : bool) :
  choice_set (QMultiple s) = choice_set (QMultiple o) ->
  SelectMultiple.get_choices s re = SelectMultiple.get_choices o re.
Proof.
  simpl. intros [= Hc He]. unfold SelectMultiple.get_choices.
  rewrite Hc, He. reflexivity.
Qed.

(** C6, as amended: constructing a matrix fails with the message about
    types when the children are not all of one type, else with the message
    about choices when their choice sets are not all identical, and
    succeeds otherwise.  The choices of a matrix built with success are
    those of any child when the matrix is one of multi-answer questions,
    or one of single-answer questions over single-answer children; a
    matrix of single-answer questions over multi-answer children is built
    as well, and asking it for its choices raises a TypeError, as asking a
    matrix without children raises an IndexError. *)
Theorem matrix_construction_validates (text label : string)
    (qs : list Question) :
  (~ same_type_all qs ->
   Matrix.init text label qs = Err (Exception Matrix.same_type_message))
  /\ (same_type_all qs -> ~ same_choice_sets qs ->
      Matrix.init text label qs = Err (Exception Matrix.same_choices_message))
  /\ (same_type_all qs -> same_choice_sets qs ->
      exists m, Matrix.init text label qs = Ok m
        /\ mx_questions m = qs
        /\ (forall s re sv, QOne s ∈ qs ->
              SelectOneMatrix.get_choices m re sv
              = Ok (SelectOne.get_choices s re sv)
              /\ SelectMultipleMatrix.get_choices m re
                 = Ok (SelectOne.get_choices s re false))
        /\ (forall s re sv, QMultiple s ∈ qs ->
              SelectMultipleMatrix.get_choices m re
              = Ok (SelectMultiple.get_choices s re)
              /\ exists msg,
                   SelectOneMatrix.get_choices m re sv = Err (TypeError msg))
        /\ (qs = [] -> forall re sv,
              SelectOneMatrix.get_choices m re sv = Err IndexError
              /\ SelectMultipleMatrix.get_choices m re = Err IndexError)).
Proof.
  unfold Matrix.init. split; [|split].
  - intros Hty. rewrite (assert_same_type_err text label qs Hty). reflexivity.
  - intros Hty Hcs. rewrite (assert_same_type_ok text label qs Hty).
    cbn [mbind result_bind].
    rewrite (assert_choices_same_err text label qs Hty Hcs). reflexivity.
  - intros Hty Hcs. rewrite (assert_same_type_ok text label qs Hty).
    cbn [mbind result_bind].
    rewrite (assert_choices_same_ok text label qs Hty Hcs).
    cbn [mbind result_bind].
    eexists. split; [reflexivity|]. split; [reflexivity|].
    unfold SelectOneMatrix.get_choices, SelectMultipleMatrix.get_choices.
    rewrite (assert_choices_same_ok text label qs Hty Hcs).
    cbn [mbind result_bind mx_questions].
    split; [|split].
    + intros s re sv Hin.
      destruct qs as [|q0 qs']; [inversion Hin|].
      assert (H0 : q0 ∈ q0 :: qs') by constructor.
      pose proof (Hty q0 (QOne s) H0 Hin) as Ht.
      pose proof (Hcs q0 (QOne s) H0 Hin) as Hc.
      destruct q0 as [s0|s0]; [|discriminate].
      split; f_equal; apply select_one_get_choices_ext; exact Hc.
    + intros s re sv Hin.
      destruct qs as [|q0 qs']; [inversion Hin|].
      assert (H0 : q0 ∈ q0 :: qs') by constructor.
      pose proof (Hty q0 (QMultiple s) H0 Hin) as Ht.
      pose proof (Hcs q0 (QMultiple s) H0 Hin) as Hc.
      destruct q0 as [s0|s0]; [discriminate|].
      split; [|eexists; reflexivity].
      f_equal. apply select_multiple_get_choices_ext. exact Hc.
    + intros -> re sv. split; reflexivity.
Qed.

Lemma matrix_construction_validates_witness :
  same_type_all [QOne Sample.happy; QOne Sample.happy_again]
  /\ same_choice_sets [QOne Sample.happy; QOne Sample.happy_again]
  /\ exists m,
       Matrix.init "Mood" "M1" [QOne Sample.happy; QOne Sample.happy_again]
       = Ok m
       /\ SelectOneMatrix.get_choices m true false = Ok ["Yes"; "No"].
Proof.
  assert (Hty : same_type_all [QOne Sample.happy; QOne Sample.happy_again])
    by (apply same_type_all_head; repeat constructor).
  assert (Hcs : same_choice_sets [QOne Sample.happy; QOne Sample.happy_again])
    by (apply same_choice_sets_head; repeat constructor).
  split; [exact Hty|]. split; [exact Hcs|].
  destruct (proj2 (proj2 (matrix_construction_validates "Mood" "M1"
                            [QOne Sample.happy; QOne Sample.happy_again]))
              Hty Hcs) as (m & Hm & _ & Hone & _).
  exists m. split; [exact Hm|].
  rewrite (proj1 (Hone Sample.happy true false ltac:(constructor))).
  reflexivity.
Defined.

(** C6, as stated, fails for a matrix of single-answer questions built
    over multi-answer children: the children pass both checks, and the
    choices of the matrix are not theirs, asking for them raises. *)
Lemma matrix_of_multi_answer_children_counterexample :
  same_type_all [QMultiple Sample.which; QMultiple Sample.which]
  /\ same_choice_sets [QMultiple Sample.which; QMultiple Sample.which]
  /\ Matrix.init "What applies" "M2"
       [QMultiple Sample.which; QMultiple Sample.which]
     = Ok Sample.which_matrix
  /\ (exists msg,
        SelectOneMatrix.get_choices Sample.which_matrix true false
        = Err (TypeError msg))
  /\ SelectOneMatrix.get_choices Sample.which_matrix true false
     <> Ok (SelectMultiple.get_choices Sample.which true).
Proof.
  split; [apply same_type_all_head; repeat constructor|].
  split; [apply same_choice_sets_head; repeat constructor|].
  split; [reflexivity|]. split; [eexists; reflexivity|]. discriminate.
Qed.

(** Children of different choice values, or of different types, are
    refused. *)
Example matrix_of_different_values :
  Matrix.init "Mood" "M1" [QOne Sample.happy; QOne Sample.recoded]
  = Err (Exception "Questions in a matrix must all have the same choices").
Proof. reflexivity. Qed.

Example matrix_of_different_types :
  Matrix.init "Mood" "M1" [QOne Sample.happy; QMultiple Sample.which]
  = Err (Exception "Questions in a matrix must all have the same type").
Proof. reflexivity. Qed.

(** ** Total respondents *)

Lemma bind_ok_inv {A B} (m : result A) (f : A -> result B) (b : B) :
  m ≫= f = Ok b -> exists a, m = Ok a /\ f a = Ok b.
Proof. destruct m as [a|e]; simpl; [eauto|discriminate]. Qed.

Lemma setitem_named (tbl : Table) (name : string) (values : list cell) :
  (name, values) ∈ setitem tbl name values.
Proof.
  unfold setitem. destruct (decide (name ∈ tbl.*1)) as [Hin|Hin].
  - apply list_elem_of_fmap in Hin as ([n col] & -> & Hnc). simpl.
    apply list_elem_of_fmap. exists (n, col). split; [|exact Hnc].
    simpl. rewrite decide_True by reflexivity. reflexivity.
  - apply elem_of_app. right. constructor.
Qed.

Lemma setitem_only (tbl : Table) (name : string) (values col : list cell) :
  (name, col) ∈ setitem tbl name values -> col = values.
Proof.
  unfold setitem. destruct (decide (name ∈ tbl.*1)) as [Hin|Hin]; intros Hel.
  - apply list_elem_of_fmap in Hel as ([n c] & Heq & _). simpl in Heq.
    destruct (decide (n = name)); congruence.
  - apply elem_of_app in Hel as [Hel|Hel].
    + exfalso. apply Hin. apply list_elem_of_fmap.
      exists (name, col). split; [reflexivity|exact Hel].
    + apply list_elem_of_singleton in Hel. congruence.
Qed.

Lemma get_total_respondents_eq (q : Question) (df : DataFrame) :
  get_total_respondents q df
  = (t ← tally q df true; Ok t.1.2).
Proof.
  destruct q as [s|s]; simpl;
    [unfold SelectOne.get_total_respondents
    |unfold SelectMultiple.get_total_respondents];
    match goal with
    | |- context [?t ≫= _] => destruct t as [[[cts r] n]|e]; reflexivity
    end.
Qed.

(** C10: the total respondents of a question are the respondent count of
    its tally with exclusions removed, and the frequency table of a
    multi-answer matrix fills its "Total Respondents" column with that
    count for each child. *)
Theorem total_respondents_is_tally_without_exclusions {ext : Extern}
    (q : Question) (self : MatrixQuestion) (df : DataFrame)
    (show pct_format : string) (remove_exclusions : bool) (tbl : Table) :
  get_total_respondents q df = (t ← tally q df true; Ok t.1.2)
  /\ (SelectMultipleMatrix.frequency_table self df show pct_format
        remove_exclusions true = Ok tbl ->
      exists tots,
        for_each (fun c => t ← tally c df true; Ok t.1.2) (mx_questions self)
        = Ok tots
        /\ ("Total Respondents", CInt <$> tots) ∈ tbl
        /\ forall col, ("Total Respondents", col) ∈ tbl ->
                       col = CInt <$> tots).
Proof.
  split; [apply get_total_respondents_eq|].
  unfold SelectMultipleMatrix.frequency_table. intros Hok.
  apply bind_ok_inv in Hok as (data & _ & Hok).
  apply bind_ok_inv in Hok as (cols & _ & Hok).
  apply bind_ok_inv in Hok as (tbl0 & _ & Hok).
  apply bind_ok_inv in Hok as (tots & Htots & Hok).
  injection Hok as <-.
  exists tots. split.
  - rewrite <- Htots. apply for_each_ext. intros c.
    symmetry. apply get_total_respondents_eq.
  - split; [apply setitem_named|]. intros col. apply setitem_only.
Qed.

Lemma total_respondents_is_tally_without_exclusions_witness :
  SelectMultipleMatrix.frequency_table (ext := Sample.tests) Sample.which_matrix
    Sample.three_rows "ct" ".0%" true true
  = Ok [("Question", [CStr "Which apply?"; CStr "Which apply?"]);
        ("a", [CInt 2; CInt 2]); ("b", [CInt 1; CInt 1]);
        ("Total Respondents", [CInt 2; CInt 2])]
  /\ exists tots,
       for_each (fun c => t ← tally c Sample.three_rows true; Ok t.1.2)
                (mx_questions Sample.which_matrix) = Ok tots
       /\ tots = [2; 2].
Proof.
  assert (Hok : SelectMultipleMatrix.frequency_table (ext := Sample.tests)
                  Sample.which_matrix Sample.three_rows "ct" ".0%" true true
                = Ok [("Question", [CStr "Which apply?"; CStr "Which apply?"]);
                      ("a", [CInt 2; CInt 2]); ("b", [CInt 1; CInt 1]);
                      ("Total Respondents", [CInt 2; CInt 2])])
    by reflexivity.
  split; [exact Hok|].
  destruct (proj2 (total_respondents_is_tally_without_exclusions
                     (ext := Sample.tests) (QMultiple Sample.which)
                     Sample.which_matrix Sample.three_rows "ct" ".0%" true _)
              Hok) as (tots & Htots & _ & _).
  exists tots. split; [exact Htots|].
  vm_compute in Htots. congruence.
Defined.

(** ** Group comparison of a multi-answer question *)

Lemma zip2_fmap_fmap {A B C D} (f : A -> B) (h : A -> C) (k : B * C -> D)
    (l : list A) :
  k <$> zip2 (f <$> l) (h <$> l) = (fun x => k (f x, h x)) <$> l.
Proof. induction l as [|x l IH]; simpl; [reflexivity|]. f_equal. exact IH. Qed.

Lemma zip2_fmap_fmap_id {A B C} (f : A -> B) (h : A -> C) (l : list A) :
  zip2 (f <$> l) (h <$> l) = (fun x => (f x, h x)) <$> l.
Proof. induction l as [|x l IH]; simpl; [reflexivity|]. f_equal. exact IH. Qed.

(** [zip_star] transposes a table given row by row. *)
Lemma zip_star_transpose {A G V} (F : V -> G -> A) (vars : list V)
    (gs : list G) :
  gs <> [] ->
  zip_star ((fun g => (fun v => F v g) <$> vars) <$> gs)
  = (fun v => (fun g => F v g) <$> gs) <$> vars.
Proof.
  induction gs as [|g gs IH]; [congruence|]. intros _.
  destruct gs as [|g' gs].
  - simpl. rewrite <- list_fmap_compose. reflexivity.
  - specialize (IH ltac:(discriminate)).
    set (f := fun g0 => (fun v => F v g0) <$> vars) in *.
    change (zip_star (f <$> g :: g' :: gs))
      with ((fun p : A * list A => p.1 :: p.2)
              <$> zip2 (f g) (zip_star (f <$> g' :: gs))).
    rewrite IH. unfold f. rewrite zip2_fmap_fmap. reflexivity.
Qed.

Lemma compress_length_eq {A B} (a : list A) (b : list B) (sel : list bool) :
  length a = length b -> length (compress a sel) = length (compress b sel).
Proof.
  revert a b. induction sel as [|s sel IH]; intros a b Hlen.
  - destruct a, b; reflexivity.
  - destruct a as [|x a], b as [|y b]; try discriminate; [reflexivity|].
    injection Hlen as Hlen. simpl. destruct s; simpl; rewrite (IH a b Hlen);
      reflexivity.
Qed.

Lemma compare_groups_tallies (q : SelectMultipleQuestion) (g : GroupBy)
    (remove_exclusions : bool) :
  let vars := SelectMultiple.retained_variables q remove_exclusions in
  Forall (fun kd : Z * DataFrame => Forall (fun v => v ∈ df_columns kd.2) vars)
         (gb_items g) ->
  for_each (fun '(k, df) => SelectMultiple.tally q df remove_exclusions)
           (gb_items g)
  = Ok ((fun kd : Z * DataFrame =>
           ((fun v => answers v (df_rows kd.2)) <$> vars,
            group_respondents vars kd.2,
            len (filter (all_missing vars) (df_rows kd.2))))
          <$> gb_items g).
Proof.
  intros vars Hall. apply for_each_ok.
  eapply Forall_impl; [exact Hall|]. intros [k df] Hin. simpl in *.
  apply (select_multiple_tally_eq q df remove_exclusions Hin).
Qed.

(** The closed form of the comparison, when somebody responded. *)
Lemma select_multiple_compare_groups_eq {ext : Extern}
    (q : SelectMultipleQuestion) (g : GroupBy) (remove_exclusions : bool)
    (pval : pyfloat) :
  let vars := SelectMultiple.retained_variables q remove_exclusions in
  Forall (fun kd : Z * DataFrame => Forall (fun v => v ∈ df_columns kd.2) vars)
         (gb_items g) ->
  0 < pysum (group_totals vars g) ->
  SelectMultiple.compare_groups q g remove_exclusions pval
  = Ok ((fun v => flt (chisquare (observed v g) (expected v vars g)) pval)
          <$> vars).
Proof.
  intros vars Hall Hpos. unfold SelectMultiple.compare_groups.
  rewrite (compare_groups_tallies q g remove_exclusions Hall).
  cbn [mbind result_bind]. fold vars.
  rewrite <- !list_fmap_compose.
  change ((fun t : list Z * Z * Z => t.1.2)
          ∘ (fun kd : Z * DataFrame =>
               ((fun v => answers v (df_rows kd.2)) <$> vars,
                group_respondents vars kd.2,
                len (filter (all_missing vars) (df_rows kd.2)))))
    with (fun kd : Z * DataFrame => group_respondents vars kd.2).
  change ((fun t : list Z * Z * Z => t.1.1)
          ∘ (fun kd : Z * DataFrame =>
               ((fun v => answers v (df_rows kd.2)) <$> vars,
                group_respondents vars kd.2,
                len (filter (all_missing vars) (df_rows kd.2)))))
    with (fun kd : Z * DataFrame =>
            (fun v => answers v (df_rows kd.2)) <$> vars).
  fold (group_totals vars g).
  assert (Hne : gb_items g <> []).
  { intros E. unfold group_totals in Hpos. rewrite E in Hpos.
    simpl in Hpos. rewrite pysum_nil in Hpos. lia. }
  rewrite (zip_star_transpose
             (fun v (kd : Z * DataFrame) => answers v (df_rows kd.2))
             vars (gb_items g) Hne).
  rewrite <- list_fmap_compose.
  rewrite (for_each_ok _
             (fun t => Real (Qmake t (Z.to_pos (pysum (group_totals vars g))))))
    by (apply Forall_forall; intros t _; apply truediv_pos; exact Hpos).
  cbn [mbind result_bind].
  rewrite <- list_fmap_compose, zip2_fmap_fmap_id, zip2_fmap_fmap.
  reflexivity.
Qed.

(** C5, as amended: when some respondent answered in some group, the
    comparison returns one flag per retained choice, each telling whether
    the chi-square test of the observed counts per group against the
    expected ones (the group's respondents times the overall proportion of
    the choice) has a p-value below pval. *)
Theorem select_multiple_compare_groups_chisquare {ext : Extern}
    (q : SelectMultipleQuestion) (g : GroupBy) (remove_exclusions : bool)
    (pval : pyfloat) :
  let vars := SelectMultiple.retained_variables q remove_exclusions in
  Forall (fun kd : Z * DataFrame => Forall (fun v => v ∈ df_columns kd.2) vars)
         (gb_items g) ->
  0 < pysum (group_totals vars g) ->
  length (sm_variables q) = length (sm_choices q) ->
  exists sigs,
    SelectMultiple.compare_groups q g remove_exclusions pval = Ok sigs
    /\ length sigs = length (SelectMultiple.get_choices q remove_exclusions)
    /\ sigs = (fun v => flt (chisquare (observed v g) (expected v vars g)) pval)
                <$> vars.
Proof.
  intros vars Hall Hpos Hlen. eexists. split; [|split; [|reflexivity]].
  - apply (select_multiple_compare_groups_eq q g remove_exclusions pval Hall
             Hpos).
  - rewrite length_fmap. unfold vars, SelectMultiple.retained_variables,
      SelectMultiple.get_choices.
    destruct remove_exclusions; [|exact Hlen].
    apply compress_length_eq. exact Hlen.
Qed.

Lemma select_multiple_compare_groups_chisquare_witness :
  Forall (fun kd : Z * DataFrame =>
            Forall (fun v => v ∈ df_columns kd.2)
                   (SelectMultiple.retained_variables Sample.which true))
         (gb_items Sample.halves)
  /\ 0 < pysum (group_totals
                  (SelectMultiple.retained_variables Sample.which true)
                  Sample.halves)
  /\ length (sm_variables Sample.which) = length (sm_choices Sample.which)
  /\ SelectMultiple.compare_groups (ext := Sample.tests) Sample.which
       Sample.halves true p05 = Ok [true; true].
Proof.
  assert (Hall : Forall (fun kd : Z * DataFrame =>
                   Forall (fun v => v ∈ df_columns kd.2)
                          (SelectMultiple.retained_variables Sample.which true))
                   (gb_items Sample.halves))
    by (vm_compute; repeat constructor).
  assert (Hpos : 0 < pysum (group_totals
                              (SelectMultiple.retained_variables Sample.which
                                 true) Sample.halves))
    by (vm_compute; reflexivity).
  assert (Hlen : length (sm_variables Sample.which)
                 = length (sm_choices Sample.which)) by reflexivity.
  split; [exact Hall|]. split; [exact Hpos|]. split; [exact Hlen|].
  destruct (select_multiple_compare_groups_chisquare (ext := Sample.tests)
              Sample.which Sample.halves true p05 Hall Hpos Hlen)
    as (sigs & Hsigs & _ & _).
  rewrite Hsigs. vm_compute in Hsigs. congruence.
Defined.

(** C5, as stated, fails: with no respondent in any group the overall
    proportion divides by zero and no flag is returned. *)
Lemma select_multiple_compare_groups_counterexample :
  Forall (fun kd : Z * DataFrame =>
            Forall (fun v => v ∈ df_columns kd.2)
                   (SelectMultiple.retained_variables Sample.which true))
         (gb_items Sample.silent_group)
  /\ ~ (exists sigs,
          SelectMultiple.compare_groups (ext := Sample.tests) Sample.which
            Sample.silent_group true p05 = Ok sigs
          /\ length sigs
             = length (SelectMultiple.get_choices Sample.which true)).
Proof.
  split; [vm_compute; repeat constructor|].
  intros (sigs & Hsigs & _). vm_compute in Hsigs. discriminate.
Qed.

Example compare_silent_group :
  SelectMultiple.compare_groups (ext := Sample.tests) Sample.which
    Sample.silent_group true p05 = Err ZeroDivisionError.
Proof. reflexivity. Qed.

(** ** Frequency tables of matrices *)

(** C7: on a multi-answer matrix the two percentage modes never reach the
    children: they raise the attribute error on [responses], whatever the
    matrix and the data. *)
Theorem multi_matrix_percent_modes_raise {ext : Extern} (self : MatrixQuestion)
    (df : DataFrame) (pct_format : string)
    (remove_exclusions show_totals : bool) :
  SelectMultipleMatrix.frequency_table self df "pct_respondents" pct_format
    remove_exclusions show_totals = Err (AttributeError "responses")
  /\ SelectMultipleMatrix.frequency_table self df "pct_responses" pct_format
       remove_exclusions show_totals = Err (AttributeError "responses").
Proof. split; reflexivity. Qed.

(** The modes of a single-answer matrix on the sample: counts, then
    percentages, one row per child. *)
Example happy_matrix_counts :
  SelectOneMatrix.frequency_table (ext := Sample.tests) Sample.happy_matrix
    Sample.two_days "ct" ".0%" true true false ".1f"
  = (Ok [("Question", [CStr "Are you happy?";
                       CStr "Were you happy yesterday?"]);
         ("Yes", [CInt 2; CInt 0]); ("No", [CInt 0; CInt 1]);
         ("Total", [CInt 2; CInt 1])], []).
Proof. reflexivity. Qed.

Example happy_matrix_percents :
  SelectOneMatrix.frequency_table (ext := Sample.tests) Sample.happy_matrix
    Sample.two_days "pct" ".0%" true true false ".1f"
  = (Ok [("Question", [CStr "Are you happy?";
                       CStr "Were you happy yesterday?"]);
         ("Yes", [CStr "2/2"; CStr "0/1"]); ("No", [CStr "0/2"; CStr "1/1"]);
         ("Total", [CStr "1"; CStr "1"])], []).
Proof. reflexivity. Qed.

(** An unrecognized mode is refused by both matrices, the message naming
    it. *)
Lemma select_one_matrix_invalid_show {ext : Extern} (self : MatrixQuestion)
    (df : DataFrame) (show pct_format : string)
    (remove_exclusions show_totals show_mean : bool) (mean_format : string) :
  show <> "ct" -> show <> "pct" ->
  SelectOneMatrix.frequency_table self df show pct_format remove_exclusions
    show_totals show_mean mean_format
  = (Err (Exception ("Invalid 'show' parameter: " +:+ show)), []).
Proof.
  intros Hct Hpct. unfold SelectOneMatrix.frequency_table.
  apply String.eqb_neq in Hct, Hpct. rewrite Hct, Hpct. reflexivity.
Qed.

Lemma select_multiple_matrix_invalid_show {ext : Extern} (self : MatrixQuestion)
    (df : DataFrame) (show pct_format : string)
    (remove_exclusions show_totals : bool) :
  show <> "ct" -> show <> "pct_respondents" -> show <> "pct_responses" ->
  SelectMultipleMatrix.frequency_table self df show pct_format
    remove_exclusions show_totals
  = Err (Exception ("Invalid 'show' parameter: " +:+ show)).
Proof.
  intros Hct Hpr Hps. unfold SelectMultipleMatrix.frequency_table.
  apply String.eqb_neq in Hct, Hpr, Hps. rewrite Hct, Hpr, Hps. reflexivity.
Qed.

(** ** Cross-tabulation of a single-answer question *)

Lemma length_pad (n : nat) (l : list cell) :
  length (pad n l) = Nat.max n (length l).
Proof. unfold pad. rewrite length_app, length_replicate. lia. Qed.

Lemma fst_zip2 {A B} (a : list A) (b : list B) :
  length a = length b -> fst <$> zip2 a b = a.
Proof.
  revert b. induction a as [|x a IH]; intros [|y b] Hlen;
    try discriminate; [reflexivity|].
  injection Hlen as Hlen. simpl. f_equal. apply IH. exact Hlen.
Qed.

Lemma length_zip2 {A B} (a : list A) (b : list B) :
  length (zip2 a b) = Nat.min (length a) (length b).
Proof.
  revert b. induction a as [|x a IH]; intros [|y b]; simpl; try reflexivity.
  rewrite IH. reflexivity.
Qed.

Lemma retained_values_length (q : SelectOneQuestion) (re : bool) :
  well_formed q ->
  length (SelectOne.retained_values q re)
  = length (SelectOne.get_choices q re false).
Proof.
  intros [Hv _]. unfold SelectOne.retained_values, SelectOne.get_choices.
  destruct re; [|symmetry; exact Hv].
  apply compress_length_eq. symmetry. exact Hv.
Qed.

Lemma get_choices_length (q : SelectOneQuestion) (re sv : bool) :
  well_formed q ->
  length (SelectOne.get_choices q re sv)
  = length (SelectOne.get_choices q re false).
Proof.
  intros Hwf. pose proof (retained_values_length q re Hwf) as Hr.
  destruct Hwf as [Hv He]. destruct sv; [|reflexivity].
  unfold SelectOne.get_choices in *. destruct re.
  - rewrite length_fmap, length_zip2. lia.
  - rewrite length_fmap, !length_zip2.
    unfold SelectOne.retained_values in *. lia.
Qed.

(** The series of a group has one label per retained choice, and one more
    for the mean. *)
Lemma answer_index_length (q : SelectOneQuestion) (re sm : bool) :
  well_formed q ->
  length (answer_index q re sm)
  = (length (SelectOne.get_choices q re false) + if sm then 1 else 0)%nat.
Proof.
  intros Hwf. unfold answer_index.
  rewrite length_app, length_pad, length_fmap.
  rewrite (get_choices_length q re sm Hwf), (retained_values_length q re Hwf).
  simpl. destruct sm; simpl; lia.
Qed.

Section CutBy.

Context {ext : Extern}.
Variable q : SelectOneQuestion.
Variable groups : GroupBy.
Variable mapping : gmap Z string.
Variables (cut_var_label : string) (question_label : option string).
Variables (pct_format mean_format : string).

(** The precondition of a cross-tabulation: every group holds the answer
    column and has a label. *)
Hypothesis groups_ok :
  Forall (fun kd : Z * DataFrame =>
            so_variable q ∈ df_columns kd.2 /\ is_Some (mapping !! kd.1))
         (gb_items groups).

(** The table from which [cut_by] takes the series of one group. *)
Lemma cut_by_frequency_table (gp : DataFrame)
    (remove_exclusions show_mean : bool) :
  so_variable q ∈ df_columns gp ->
  exists percents,
    SelectOne.frequency_table q gp true false true (PStr pct_format)
      remove_exclusions false show_mean mean_format
    = Ok [("Answer", answer_index q remove_exclusions show_mean);
          ("%", percents)].
Proof.
  intros Hin. unfold SelectOne.frequency_table.
  pose proof (select_one_tally_eq q gp remove_exclusions Hin) as Htally.
  cbv zeta in Htally. rewrite Htally. cbn [mbind result_bind].
  set (cts := (fun v => occurrences v (column gp (so_variable q)))
                <$> SelectOne.retained_values q remove_exclusions).
  set (resp := pysum cts).
  rewrite (for_each_ok _
             (fun x => CStr (if 0 <? resp
                             then format_float
                                    (Real (Qmake x (Z.to_pos resp))) pct_format
                             else "-"))).
  2:{ apply Forall_forall. intros x _. destruct (0 <? resp) eqn:E.
      - apply Z.ltb_lt in E. rewrite (truediv_pos x resp E). reflexivity.
      - reflexivity. }
  cbn [mbind result_bind pyformat_int negb].
  destruct (select_one_mean_eq q gp remove_exclusions Hin)
    as (cts' & r' & n' & _ & _ & Hmean).
  cbv zeta in Hmean. rewrite Hmean.
  match goal with |- context [Ok (if decide (r' = 0) then ?a else ?b)] =>
    generalize (if decide (r' = 0) then a else b) end.
  intros m. clear Hmean. cbn [mbind result_bind app].
  unfold set_columns, columns_of_lists.
  rewrite decide_True by reflexivity.
  cbn [mbind result_bind fmap list_fmap zip2].
  unfold answer_index.
  assert (Hlen : length cts
                 = length (SelectOne.retained_values q remove_exclusions))
    by (unfold cts; apply length_fmap).
  rewrite !length_fmap. fold cts in Hlen |- *. rewrite Hlen.
  destruct show_mean.
  - unfold append_row. rewrite decide_True by reflexivity.
    eexists. reflexivity.
  - rewrite app_nil_r. eexists. reflexivity.
Qed.

Lemma compare_groups_returns (pval : pyfloat) :
  exists significant calls,
    SelectOne.compare_groups q groups pval = Ok (significant, calls).
Proof.
  assert (Hall : Forall (fun kd : Z * DataFrame =>
                           so_variable q ∈ df_columns kd.2) (gb_items groups)).
  { eapply Forall_impl; [exact groups_ok|]. intros kd [Hin _]. exact Hin. }
  destruct (compare_groups_branches q groups pval Hall) as (Ht & Hf & Hn).
  destruct (decide (gb_len groups = 2)) as [E|E].
  - destruct (Ht E) as (a & b & _ & Heq). eauto.
  - destruct (decide (size (gb_group_keys groups) = 2%nat)) as [K|K].
    + rewrite (Hf E K). eauto.
    + rewrite (Hn E K). eauto.
Qed.

(** The series collected by the loop of [cut_by], one per group, all under
    the same labels. *)
Lemma cut_by_series (items : list (Z * DataFrame))
    (remove_exclusions show_mean : bool) :
  Forall (fun kd : Z * DataFrame =>
            so_variable q ∈ df_columns kd.2 /\ is_Some (mapping !! kd.1))
         items ->
  exists freqs : list (string * (list cell * list cell)),
    for_each (fun '(k, gp) =>
        t ← SelectOne.frequency_table q gp true false true (PStr pct_format)
              remove_exclusions false show_mean mean_format;
        series ← series_indexed_by t "Answer";
        name ← match mapping !! k with
               | Some n => Ok n
               | None => Err (KeyError (pretty k))
               end;
        Ok (name, series)) items = Ok freqs
    /\ length freqs = length items
    /\ Forall (fun f => f.2.1 = answer_index q remove_exclusions show_mean)
              freqs.
Proof.
  induction 1 as [|[k gp] items [Hin [name Hname]] _ IH].
  - exists []. repeat split. constructor.
  - destruct IH as (freqs & Hfreqs & Hlen & Hidx). simpl in Hin, Hname.
    destruct (cut_by_frequency_table gp remove_exclusions show_mean Hin)
      as (percents & Htable).
    exists ((name, (answer_index q remove_exclusions show_mean, percents))
            :: freqs).
    split; [|split].
    + cbn [for_each]. rewrite Htable, Hname. cbn [mbind result_bind].
      change (series_indexed_by
                [("Answer", answer_index q remove_exclusions show_mean);
                 ("%", percents)] "Answer")
        with (Ok (A := list cell * list cell)
                (answer_index q remove_exclusions show_mean, percents)).
      cbn [mbind result_bind]. rewrite Hfreqs. reflexivity.
    + simpl. rewrite Hlen. reflexivity.
    + constructor; [reflexivity|exact Hidx].
Qed.

(** What [cut_by] does once the series are collected: it only remains to
    put the top label above the columns. *)
Lemma cut_by_outcome (remove_exclusions show_mean : bool) :
  gb_items groups <> [] ->
  exists index cols data,
    fst <$> index = replicate (length (gb_items groups)) cut_var_label
    /\ length cols = length (answer_index q remove_exclusions show_mean)
    /\ SelectOne.cut_by q groups mapping cut_var_label question_label
         (PStr pct_format) remove_exclusions show_mean mean_format
       = (columns ← from_arrays
                      (replicate (length (so_choices q))
                                 (top_label q question_label)
                       ++ (if show_mean then [top_label q question_label]
                           else [])) cols;
          Ok {| ct_index := index; ct_columns := columns; ct_data := data |}).
Proof.
  intros Hne. unfold SelectOne.cut_by.
  destruct (cut_by_series (gb_items groups) remove_exclusions show_mean
              groups_ok)
    as (freqs & Hfreqs & Hlen & Hidx).
  rewrite Hfreqs. cbn [mbind result_bind].
  fold (top_label q question_label).
  destruct freqs as [|[name [idx vals]] rest].
  { destruct (gb_items groups); [congruence|discriminate]. }
  apply Forall_cons in Hidx as [Hidx _]. simpl in Hidx. subst idx.
  set (freqs := (name, (answer_index q remove_exclusions show_mean, vals))
                :: rest) in *.
  set (names := (fun f : string * (list cell * list cell) => CStr f.1)
                  <$> freqs).
  set (top := replicate (length (gb_items groups)) cut_var_label).
  assert (Hsame : length top = length names).
  { unfold top, names. rewrite length_replicate, length_fmap.
    symmetry. exact Hlen. }
  assert (Hindex : from_arrays top names = Ok (zip2 top names)).
  { unfold from_arrays. rewrite decide_True by exact Hsame. reflexivity. }
  pose proof (fst_zip2 top names Hsame) as Hfst.
  destruct show_mean.
  - destruct (compare_groups_returns p05) as (significant & calls & Hcmp).
    rewrite Hcmp. cbn [mbind result_bind].
    destruct significant.
    + assert (Hlast : last (answer_index q remove_exclusions true)
                      = Some (CStr "Mean"))
        by (unfold answer_index; apply last_snoc).
      assert (Hrem : length (removelast (answer_index q remove_exclusions true)
                             ++ [CStr ("Mean" +:+ "*")])
                     = length (answer_index q remove_exclusions true)).
      { unfold answer_index. rewrite removelast_last, !length_app.
        reflexivity. }
      rewrite Hlast. cbn [mbind result_bind].
      rewrite Hindex. cbn [mbind result_bind].
      eexists _, _, _. split; [exact Hfst|]. split; [exact Hrem|reflexivity].
    + cbn [mbind result_bind]. rewrite Hindex. cbn [mbind result_bind].
      eexists _, _, _. split; [exact Hfst|]. split; reflexivity.
  - cbn [mbind result_bind]. rewrite Hindex. cbn [mbind result_bind].
    eexists _, _, _. split; [exact Hfst|]. split; reflexivity.
Qed.

(** C9: the code misses the claim whenever a choice is excluded and the
    exclusions are removed.  The cross-tabulation then has one column per
    retained choice, while the top label is repeated once per choice of
    the question, and assigning the column keys is refused. *)
Theorem select_one_cut_by_raises_when_a_choice_is_excluded
    (show_mean : bool) :
  well_formed q ->
  (length (SelectOne.get_choices q true false) < length (so_choices q))%nat ->
  gb_len groups = 2 ->
  SelectOne.cut_by q groups mapping cut_var_label question_label
    (PStr pct_format) true show_mean mean_format
  = Err (ValueError "Length mismatch").
Proof.
  intros Hwf Hdrop Hlen.
  assert (Hne : gb_items groups <> []).
  { intros E. unfold gb_len in Hlen. rewrite E in Hlen. discriminate. }
  destruct (cut_by_outcome true show_mean Hne)
    as (index & cols & data & _ & Hcols & Heq).
  rewrite Heq. unfold from_arrays.
  rewrite decide_False; [reflexivity|].
  rewrite Hcols, (answer_index_length q true show_mean Hwf).
  rewrite length_app, length_replicate.
  destruct show_mean; cbn [length]; lia.
Qed.

(** The mismatch of lengths, for any grouping that is not empty. *)
Lemma cut_by_refused (show_mean : bool) :
  well_formed q ->
  (length (SelectOne.get_choices q true false) < length (so_choices q))%nat ->
  gb_items groups <> [] ->
  SelectOne.cut_by q groups mapping cut_var_label question_label
    (PStr pct_format) true show_mean mean_format
  = Err (ValueError "Length mismatch").
Proof.
  intros Hwf Hdrop Hne.
  destruct (cut_by_outcome true show_mean Hne)
    as (index & cols & data & _ & Hcols & Heq).
  rewrite Heq. unfold from_arrays.
  rewrite decide_False; [reflexivity|].
  rewrite Hcols, (answer_index_length q true show_mean Hwf).
  rewrite length_app, length_replicate.
  destruct show_mean; cbn [length]; lia.
Qed.



End CutBy.

Lemma select_one_cut_by_raises_when_a_choice_is_excluded_witness :
  Forall (fun kd : Z * DataFrame =>
            so_variable Sample.happy ∈ df_columns kd.2
            /\ is_Some (Sample.group_labels !! kd.1))
         (gb_items Sample.two_groups)
  /\ well_formed Sample.happy
  /\ (length (SelectOne.get_choices Sample.happy true false)
      < length (so_choices Sample.happy))%nat
  /\ gb_len Sample.two_groups = 2
  /\ SelectOne.cut_by (ext := Sample.tests) Sample.happy Sample.two_groups
       Sample.group_labels "Gender" None (PStr ".0%") true true ".1f"
     = Err (ValueError "Length mismatch").
Proof.
  assert (Hall : Forall (fun kd : Z * DataFrame =>
                           so_variable Sample.happy ∈ df_columns kd.2
                           /\ is_Some (Sample.group_labels !! kd.1))
                   (gb_items Sample.two_groups)).
  { repeat constructor; vm_compute; eauto. }
  assert (Hwf : well_formed Sample.happy) by (split; reflexivity).
  assert (Hdrop : (length (SelectOne.get_choices Sample.happy true false)
                   < length (so_choices Sample.happy))%nat)
    by (vm_compute; lia).
  assert (Hlen : gb_len Sample.two_groups = 2) by reflexivity.
  split; [exact Hall|]. split; [exact Hwf|]. split; [exact Hdrop|].
  split; [exact Hlen|].
  exact (select_one_cut_by_raises_when_a_choice_is_excluded
           (ext := Sample.tests) Sample.happy Sample.two_groups
           Sample.group_labels "Gender" None ".0%" ".1f" Hall true
           Hwf Hdrop Hlen).
Defined.

(** Without removing exclusions the sample question is cut into two rows
    under the axis label and four columns under its text. *)
Example cut_by_keeping_exclusions :
  exists tbl,
    SelectOne.cut_by (ext := Sample.tests) Sample.happy Sample.two_groups
      Sample.group_labels "Gender" None (PStr ".0%") false true ".1f" = Ok tbl
    /\ fst <$> ct_index tbl = ["Gender"; "Gender"]
    /\ fst <$> ct_columns tbl
       = ["Are you happy?"; "Are you happy?"; "Are you happy?";
          "Are you happy?"].
Proof. eexists. split; [reflexivity|]. split; reflexivity. Qed.

(** ** Further properties of the single-answer tally and mean *)

Lemma len_filter_le {A} (P : A -> Prop) `{forall x, Decision (P x)}
    (l : list A) :
  0 <= len (filter P l) <= len l.
Proof.
  unfold len. pose proof (length_filter P l). lia.
Qed.

(** With pairwise distinct retained values no row is counted twice: the
    respondents are at most the rows and the non-respondents are not
    negative. *)
Theorem select_one_tally_bounds (q : SelectOneQuestion) (df : DataFrame)
    (remove_exclusions : bool) :
  so_variable q ∈ df_columns df ->
  NoDup (SelectOne.retained_values q remove_exclusions) ->
  exists cts respondents nonrespondents,
    SelectOne.tally q df remove_exclusions
    = Ok (cts, respondents, nonrespondents)
    /\ 0 <= respondents <= len (df_rows df)
    /\ 0 <= nonrespondents <= len (df_rows df).
Proof.
  intros Hin Hnodup.
  pose proof (select_one_tally_eq q df remove_exclusions Hin) as Heq.
  cbv zeta in Heq. eexists _, _, _. split; [exact Heq|].
  rewrite (sum_of_counts_distinct _ _ Hnodup).
  pose proof (len_filter_le
                (holds_one_of (SelectOne.retained_values q remove_exclusions))
                (column df (so_variable q))) as Hle.
  assert (Hrows : len (column df (so_variable q)) = len (df_rows df)).
  { unfold column, len. rewrite length_fmap. reflexivity. }
  lia.
Qed.

Lemma select_one_tally_bounds_witness :
  so_variable Sample.happy ∈ df_columns Sample.four_rows
  /\ NoDup (SelectOne.retained_values Sample.happy true)
  /\ exists cts respondents nonrespondents,
       SelectOne.tally Sample.happy Sample.four_rows true
       = Ok (cts, respondents, nonrespondents)
       /\ 0 <= respondents <= len (df_rows Sample.four_rows)
       /\ 0 <= nonrespondents <= len (df_rows Sample.four_rows).
Proof.
  assert (Hin : so_variable Sample.happy ∈ df_columns Sample.four_rows)
    by (vm_compute; repeat constructor).
  assert (Hnd : NoDup (SelectOne.retained_values Sample.happy true)).
  { apply (bool_decide_unpack _). vm_compute. exact I. }
  split; [exact Hin|]. split; [exact Hnd|].
  exact (select_one_tally_bounds Sample.happy Sample.four_rows true Hin Hnd).
Defined.

(** A value listed twice is counted twice, and the non-respondents fall
    below zero. *)
Example tally_of_doubled_value :
  SelectOne.tally Cases.doubled (Sample.frame [Sample.answer 1]) false
  = Ok ([1; 1], 2, -1).
Proof. reflexivity. Qed.

Lemma answered_cons (c : option Z) (s : Series) :
  answered (c :: s) = present c + answered s.
Proof.
  unfold answered, dropna, len. destruct c as [v|]; [|reflexivity].
  change (Z.of_nat (S (length (omap id s)))
          = 1 + Z.of_nat (length (omap id s))).
  lia.
Qed.

Lemma holds_all_count (vals : list Z) (s : Series) :
  Forall (fun c : option Z =>
            match c with Some v => v ∈ vals | None => True end) s ->
  len (filter (holds_one_of vals) s) = answered s.
Proof.
  induction 1 as [|c s Hc _ IH]; [reflexivity|].
  rewrite len_filter_cons, answered_cons, IH. destruct c as [v|].
  - rewrite decide_True by exact Hc. reflexivity.
  - rewrite decide_False by (simpl; tauto). reflexivity.
Qed.

(** When the values are pairwise distinct and every answer in the column is
    one of them, the tally with exclusions kept splits the rows into those
    that answered and those that did not. *)
Theorem select_one_tally_complete_codebook (q : SelectOneQuestion)
    (df : DataFrame) :
  so_variable q ∈ df_columns df ->
  NoDup (so_values q) ->
  Forall (fun c : option Z =>
            match c with Some v => v ∈ so_values q | None => True end)
         (column df (so_variable q)) ->
  SelectOne.tally q df false
  = Ok ((fun v => occurrences v (column df (so_variable q))) <$> so_values q,
        answered (column df (so_variable q)),
        len (df_rows df) - answered (column df (so_variable q))).
Proof.
  intros Hin Hnodup Hall.
  pose proof (select_one_tally_eq q df false Hin) as Heq.
  cbv zeta in Heq. rewrite Heq.
  change (SelectOne.retained_values q false) with (so_values q).
  rewrite (sum_of_counts_distinct _ _ Hnodup), (holds_all_count _ _ Hall).
  reflexivity.
Qed.

Lemma select_one_tally_complete_codebook_witness :
  so_variable Sample.happy ∈ df_columns Sample.yes_and_dk
  /\ NoDup (so_values Sample.happy)
  /\ Forall (fun c : option Z =>
               match c with
               | Some v => v ∈ so_values Sample.happy
               | None => True
               end)
            (column Sample.yes_and_dk (so_variable Sample.happy))
  /\ SelectOne.tally Sample.happy Sample.yes_and_dk false
     = Ok ([1; 0; 1], 2, 0).
Proof.
  assert (Hin : so_variable Sample.happy ∈ df_columns Sample.yes_and_dk)
    by (vm_compute; repeat constructor).
  assert (Hnd : NoDup (so_values Sample.happy)).
  { apply (bool_decide_unpack _). vm_compute. exact I. }
  assert (Hall : Forall (fun c : option Z =>
                           match c with
                           | Some v => v ∈ so_values Sample.happy
                           | None => True
                           end)
                   (column Sample.yes_and_dk (so_variable Sample.happy)))
    by (vm_compute; repeat constructor).
  split; [exact Hin|]. split; [exact Hnd|]. split; [exact Hall|].
  rewrite (select_one_tally_complete_codebook _ _ Hin Hnd Hall).
  reflexivity.
Defined.




(** A frame without the answer column. *)
Lemma select_one_tally_missing_column_witness :
  (so_variable Sample.happy ∉ df_columns Cases.other_columns)
  /\ SelectOne.tally Sample.happy Cases.other_columns true
     = Err (KeyError "q1")
  /\ SelectOne.mean Sample.happy Cases.other_columns true
     = Err (KeyError "q1").
Proof.
  assert (Hnotin : so_variable Sample.happy ∉ df_columns Cases.other_columns).
  { intros Hin. vm_compute in Hin. apply list_elem_of_singleton in Hin.
    discriminate. }
  split; [exact Hnotin|].
  exact (select_one_tally_missing_column Sample.happy Cases.other_columns
           true Hnotin).
Defined.

(** ** Further properties of the multi-answer tally *)

Lemma pysum_fmap_add {A} (f g : A -> Z) (l : list A) :
  pysum ((fun x => f x + g x) <$> l) = pysum (f <$> l) + pysum (g <$> l).
Proof.
  induction l as [|x l IH]; [reflexivity|].
  rewrite !fmap_cons, !pysum_cons, IH. lia.
Qed.

Lemma respondents_partition (vars : list string)
    (rows : list (gmap string Z)) :
  len (filter (responds vars) rows) + len (filter (all_missing vars) rows)
  = len rows.
Proof.
  induction rows as [|row rows IH]; [reflexivity|].
  rewrite !len_filter_cons.
  replace (len (row :: rows)) with (1 + len rows)
    by (unfold len; simpl; lia).
  destruct (decide (all_missing vars row)) as [Hm|Hm].
  - rewrite decide_False
      by (rewrite responds_iff_not_all_missing; tauto). lia.
  - rewrite decide_True
      by (rewrite responds_iff_not_all_missing; exact Hm). lia.
Qed.

Lemma answers_le_respondents (vars : list string) (v : string)
    (rows : list (gmap string Z)) :
  v ∈ vars -> 0 <= answers v rows <= len (filter (responds vars) rows).
Proof.
  intros Hv. induction rows as [|row rows IH].
  - unfold answers, len. simpl. lia.
  - rewrite answers_cons, len_filter_cons.
    destruct (row !! v) as [w|] eqn:E; simpl.
    + rewrite decide_True; [lia|].
      apply Exists_exists. exists v. split; [exact Hv|]. rewrite E. eauto.
    + destruct (decide (responds vars row)); lia.
Qed.

(** The number of retained variables a row answers. *)
Lemma row_answers_bounds (vars : list string) (row : gmap string Z) :
  (if decide (responds vars row) then 1 else 0)
  <= pysum ((fun v => present (row !! v)) <$> vars)
  <= (if decide (responds vars row) then 1 else 0) * len vars.
Proof.
  induction vars as [|v vars IH].
  - rewrite decide_False by (intros Hex; inversion Hex).
    rewrite fmap_nil, pysum_nil. lia.
  - rewrite fmap_cons, pysum_cons.
    replace (len (v :: vars)) with (1 + len vars) by (unfold len; simpl; lia).
    assert (Hlen : 0 <= len vars) by (unfold len; lia).
    destruct (row !! v) as [w|] eqn:E; simpl.
    + rewrite (decide_True (P := responds (v :: vars) row)).
      2:{ apply Exists_cons. left. rewrite E. eauto. }
      destruct (decide (responds vars row)); nia.
    + destruct (decide (responds vars row)) as [Hr|Hr].
      * rewrite (decide_True (P := responds (v :: vars) row))
          by (apply Exists_cons; right; exact Hr). nia.
      * rewrite (decide_False (P := responds (v :: vars) row)).
        -- lia.
        -- intros Hex. apply Exists_cons in Hex as [[w Hw]|Hex];
             [congruence|exact (Hr Hex)].
Qed.

Lemma sum_of_answers_bounds (vars : list string)
    (rows : list (gmap string Z)) :
  len (filter (responds vars) rows)
  <= pysum ((fun v => answers v rows) <$> vars)
  <= len (filter (responds vars) rows) * len vars.
Proof.
  induction rows as [|row rows IH].
  - replace (pysum ((fun v => answers v []) <$> vars)) with 0.
    + unfold len. simpl. lia.
    + induction vars as [|v vars IHv]; [reflexivity|].
      rewrite fmap_cons, pysum_cons, <- IHv. reflexivity.
  - assert (Hsum : pysum ((fun v => answers v (row :: rows)) <$> vars)
                   = pysum ((fun v => present (row !! v)) <$> vars)
                     + pysum ((fun v => answers v rows) <$> vars)).
    { rewrite <- pysum_fmap_add. f_equal. apply list_fmap_ext.
      intros _ v _. apply answers_cons. }
    rewrite Hsum, len_filter_cons.
    pose proof (row_answers_bounds vars row). nia.
Qed.

(** Every row is one respondent or one non-respondent, no choice is
    counted more often than there are respondents, and the counts add up
    to at least the respondents and at most the respondents times the
    retained variables. *)
Theorem select_multiple_tally_invariants (q : SelectMultipleQuestion)
    (df : DataFrame) (remove_exclusions : bool) :
  let vars := SelectMultiple.retained_variables q remove_exclusions in
  Forall (fun v => v ∈ df_columns df) vars ->
  exists cts respondents nonrespondents,
    SelectMultiple.tally q df remove_exclusions
    = Ok (cts, respondents, nonrespondents)
    /\ respondents + nonrespondents = len (df_rows df)
    /\ 0 <= respondents /\ 0 <= nonrespondents
    /\ length cts = length vars
    /\ Forall (fun c => 0 <= c <= respondents) cts
    /\ respondents <= pysum cts <= respondents * len vars.
Proof.
  intros vars Hall.
  pose proof (select_multiple_tally_eq q df remove_exclusions Hall) as Heq.
  fold vars in Heq. eexists _, _, _. split; [exact Heq|].
  split; [apply respondents_partition|].
  split; [apply len_filter_le|]. split; [apply len_filter_le|].
  split; [apply length_fmap|]. split.
  - apply Forall_fmap, Forall_forall. intros v Hv.
    apply answers_le_respondents. exact Hv.
  - apply sum_of_answers_bounds.
Qed.

Lemma select_multiple_tally_invariants_witness :
  Forall (fun v => v ∈ df_columns Sample.three_rows)
         (SelectMultiple.retained_variables Sample.which true)
  /\ exists cts respondents nonrespondents,
       SelectMultiple.tally Sample.which Sample.three_rows true
       = Ok (cts, respondents, nonrespondents)
       /\ respondents + nonrespondents = len (df_rows Sample.three_rows)
       /\ Forall (fun c => 0 <= c <= respondents) cts
       /\ respondents <= pysum cts.
Proof.
  assert (H : Forall (fun v => v ∈ df_columns Sample.three_rows)
                (SelectMultiple.retained_variables Sample.which true))
    by (vm_compute; repeat constructor).
  split; [exact H|].
  destruct (select_multiple_tally_invariants Sample.which Sample.three_rows
              true H) as (cts & r & n & Heq & Hsum & _ & _ & _ & Hc & Hle).
  exists cts, r, n. split; [exact Heq|]. split; [exact Hsum|].
  split; [exact Hc|]. exact (proj1 Hle).
Defined.

(** The tally looks up the retained variables only: a retained variable
    that is not a column of the frame is reported by a KeyError, and
    nothing is tallied. *)
Theorem select_multiple_tally_missing_column (q : SelectMultipleQuestion)
    (df : DataFrame) (remove_exclusions : bool) :
  ~ Forall (fun v => v ∈ df_columns df)
           (SelectMultiple.retained_variables q remove_exclusions) ->
  exists v,
    v ∈ SelectMultiple.retained_variables q remove_exclusions
    /\ (v ∉ df_columns df)
    /\ SelectMultiple.tally q df remove_exclusions = Err (KeyError v).
Proof.
  intros Hnot. unfold SelectMultiple.tally, getitems.
  destruct (filter (fun v => v ∉ df_columns df)
              (SelectMultiple.retained_variables q remove_exclusions))
    as [|v rest] eqn:E.
  - exfalso. apply Hnot. apply Forall_forall. intros v Hv.
    destruct (decide (v ∈ df_columns df)) as [Hin|Hin]; [exact Hin|].
    assert (Hf : v ∈ filter (fun v => v ∉ df_columns df)
                   (SelectMultiple.retained_variables q remove_exclusions))
      by (apply list_elem_of_filter; split; assumption).
    rewrite E in Hf. inversion Hf.
  - assert (Hf : v ∈ filter (fun v => v ∉ df_columns df)
                   (SelectMultiple.retained_variables q remove_exclusions))
      by (rewrite E; constructor).
    apply list_elem_of_filter in Hf as [Hout Hin].
    exists v. split; [exact Hin|]. split; [exact Hout|]. reflexivity.
Qed.

Lemma select_multiple_tally_missing_column_witness :
  ~ Forall (fun v => v ∈ df_columns Cases.only_a)
           (SelectMultiple.retained_variables Sample.which true)
  /\ SelectMultiple.tally Sample.which Cases.only_a true
     = Err (KeyError "B").
Proof.
  assert (Hnot : ~ Forall (fun v => v ∈ df_columns Cases.only_a)
                     (SelectMultiple.retained_variables Sample.which true)).
  { intros Hall. vm_compute in Hall.
    apply Forall_cons in Hall as [_ Hall].
    apply Forall_cons in Hall as [Hb _].
    apply list_elem_of_singleton in Hb. discriminate. }
  split; [exact Hnot|].
  destruct (select_multiple_tally_missing_column Sample.which Cases.only_a
              true Hnot) as (v & _ & _ & Heq).
  pose proof Heq as Hv. vm_compute in Hv. injection Hv as <-. exact Heq.
Defined.

(** The column of an excluded choice is not looked up when exclusions are
    removed. *)
Example tally_without_excluded_column :
  SelectMultiple.tally Cases.which_without_b Cases.only_a true
  = Ok ([1], 1, 0).
Proof. reflexivity. Qed.

(** ** Choice labels *)

Lemma compress_labels (cs : list string) (vs : list Z) (fl : list bool) :
  length cs = length vs -> length cs = length fl ->
  (fun '(c, v) => c +:+ " (" +:+ pretty v +:+ ")")
    <$> zip2 (compress cs (negb <$> fl)) (compress vs (negb <$> fl))
  = compress ((fun '(c, v, x) =>
                 if x : bool then c +:+ " (X)"
                 else c +:+ " (" +:+ pretty v +:+ ")")
                <$> zip2 (zip2 cs vs) fl) (negb <$> fl).
Proof.
  revert cs vs. induction fl as [|x fl IH]; intros cs vs Hv Hf.
  - destruct cs; [|discriminate]. destruct vs; reflexivity.
  - destruct cs as [|c cs]; [discriminate|].
    destruct vs as [|v vs]; [discriminate|].
    injection Hv as Hv. injection Hf as Hf.
    destruct x; simpl; [|f_equal]; apply (IH cs vs Hv Hf).
Qed.

Lemma compress_not_excluded_length {A} (cs : list A) (fl : list bool) :
  length cs = length fl ->
  (length (compress cs (negb <$> fl))
   + length (filter (fun x : bool => x = true) fl))%nat
  = length cs.
Proof.
  revert cs. induction fl as [|x fl IH]; intros cs Hlen.
  - destruct cs; [reflexivity|discriminate].
  - destruct cs as [|c cs]; [discriminate|]. injection Hlen as Hlen.
    rewrite filter_cons, fmap_cons. specialize (IH cs Hlen).
    destruct x; cbn [compress negb decide length]; simpl in *; lia.
Qed.

(** Removing the exclusions from the labels of all choices gives the labels
    of the retained choices, with or without the values shown; as many
    labels are dropped as there are excluded choices. *)
Theorem select_one_get_choices_removes_excluded (q : SelectOneQuestion)
    (show_values : bool) :
  well_formed q ->
  SelectOne.get_choices q true show_values
  = compress (SelectOne.get_choices q false show_values)
             (negb <$> so_exclude_from_analysis q)
  /\ (length (SelectOne.get_choices q true show_values)
      + length (filter (fun x : bool => x = true)
                       (so_exclude_from_analysis q)))%nat
     = length (so_choices q).
Proof.
  intros Hwf. pose proof Hwf as [Hv Hf]. split.
  - unfold SelectOne.get_choices, SelectOne.retained_values.
    destruct show_values; [|reflexivity].
    apply compress_labels; assumption.
  - rewrite (get_choices_length q true show_values Hwf).
    apply compress_not_excluded_length. exact Hf.
Qed.

Lemma select_one_get_choices_removes_excluded_witness :
  well_formed Sample.happy
  /\ SelectOne.get_choices Sample.happy true true = ["Yes (1)"; "No (2)"]
  /\ SelectOne.get_choices Sample.happy false true
     = ["Yes (1)"; "No (2)"; "Don't know (X)"].
Proof.
  assert (Hwf : well_formed Sample.happy) by (split; reflexivity).
  split; [exact Hwf|]. split; [|reflexivity].
  rewrite (proj1 (select_one_get_choices_removes_excluded Sample.happy true
                    Hwf)).
  reflexivity.
Defined.

(** The codebook printed for a question is made of the labels that
    [get_choices] gives for all choices with their values: one per line
    under the heading, or joined by commas on one line. *)
Theorem select_one_pretty_print_labels (q : SelectOneQuestion) :
  SelectOne.pretty_print q
  = (so_text q +:+ " (" +:+ so_label q +:+ ")")
    :: SelectOne.get_choices q false true
  /\ SelectOne.pretty_print_answers q
     = [join ", " (SelectOne.get_choices q false true)].
Proof. split; reflexivity. Qed.

(** ** Comparing choice sets *)

(** Among questions of one type, [same_choices] is reflexive, symmetric
    and transitive, so that comparing every child with the first one
    compares them all. *)
Theorem same_choices_equivalence (x y z : Question) :
  type x = type y -> type y = type z ->
  same_choices x x = Ok true
  /\ same_choices x y = same_choices y x
  /\ (same_choices x y = Ok true -> same_choices y z = Ok true ->
      same_choices x z = Ok true).
Proof.
  intros Hxy Hyz.
  rewrite (same_choices_same_type x x eq_refl).
  rewrite (same_choices_same_type x y Hxy).
  rewrite (same_choices_same_type y x (eq_sym Hxy)).
  rewrite (same_choices_same_type y z Hyz).
  rewrite (same_choices_same_type x z (eq_trans Hxy Hyz)).
  split; [|split].
  - rewrite bool_decide_eq_true_2 by reflexivity. reflexivity.
  - f_equal. apply bool_decide_ext. split; intros E; symmetry; exact E.
  - intros [= E1] [= E2]. apply bool_decide_eq_true in E1, E2.
    rewrite bool_decide_eq_true_2 by congruence. reflexivity.
Qed.

Lemma same_choices_equivalence_witness :
  type (QOne Sample.happy) = type (QOne Sample.happy_again)
  /\ type (QOne Sample.happy_again) = type (QOne Sample.recoded)
  /\ same_choices (QOne Sample.happy) (QOne Sample.happy_again)
     = same_choices (QOne Sample.happy_again) (QOne Sample.happy).
Proof.
  split; [reflexivity|]. split; [reflexivity|].
  exact (proj1 (proj2 (same_choices_equivalence (QOne Sample.happy)
                         (QOne Sample.happy_again) (QOne Sample.recoded)
                         eq_refl eq_refl))).
Defined.

(** Across the two types the comparison is not symmetric: a single-answer
    question asked about a multi-answer one with the same labels fails on
    the missing values, while the multi-answer one asked about the
    single-answer one answers from the labels and flags. *)
Theorem same_choices_across_types (s : SelectOneQuestion)
    (m : SelectMultipleQuestion) :
  so_choices s = sm_choices m ->
  same_choices (QOne s) (QMultiple m) = Err (AttributeError "values")
  /\ same_choices (QMultiple m) (QOne s)
     = Ok (bool_decide (sm_exclude_from_analysis m
                        = so_exclude_from_analysis s)).
Proof.
  intros Hc. simpl. rewrite (bool_decide_eq_true_2 _ Hc).
  rewrite (bool_decide_eq_true_2 (sm_choices m = so_choices s))
    by (symmetry; exact Hc).
  split; reflexivity.
Qed.

Lemma same_choices_across_types_witness :
  so_choices Cases.doubled = sm_choices Cases.yes_twice
  /\ same_choices (QOne Cases.doubled) (QMultiple Cases.yes_twice)
     = Err (AttributeError "values")
  /\ same_choices (QMultiple Cases.yes_twice) (QOne Cases.doubled) = Ok true.
Proof.
  assert (Hc : so_choices Cases.doubled = sm_choices Cases.yes_twice)
    by reflexivity.
  split; [exact Hc|].
  destruct (same_choices_across_types Cases.doubled Cases.yes_twice Hc)
    as [H1 H2].
  split; [exact H1|]. rewrite H2. reflexivity.
Defined.

(** ** Witnesses of the group comparison and the cross-tabulation *)

Lemma compare_groups_distinct_keys_witness :
  Forall (fun kd : Z * DataFrame =>
            so_variable Sample.happy ∈ df_columns kd.2)
         (gb_items Sample.three_groups)
  /\ NoDup (fst <$> gb_items Sample.three_groups)
  /\ gb_len Sample.three_groups <> 2
  /\ SelectOne.compare_groups (ext := Sample.tests) Sample.happy
       Sample.three_groups p05 = Ok (false, []).
Proof.
  assert (Hall : Forall (fun kd : Z * DataFrame =>
                           so_variable Sample.happy ∈ df_columns kd.2)
                   (gb_items Sample.three_groups))
    by (vm_compute; repeat constructor).
  assert (Hnd : NoDup (fst <$> gb_items Sample.three_groups)).
  { apply (bool_decide_unpack _). vm_compute. exact I. }
  assert (Hlen : gb_len Sample.three_groups <> 2) by discriminate.
  split; [exact Hall|]. split; [exact Hnd|]. split; [exact Hlen|].
  exact (compare_groups_distinct_keys (ext := Sample.tests) Sample.happy
           Sample.three_groups p05 Hall Hnd Hlen).
Defined.


(** ** Frequency table of a single-answer question *)

Lemma max_list_same (n : nat) (ls : list nat) :
  Forall (fun m => m = n) ls -> ls <> [] -> max_list ls = n.
Proof.
  induction 1 as [|m ls -> _ IH]; [congruence|]. intros _.
  destruct ls as [|m' ls]; simpl.
  - lia.
  - simpl in IH. rewrite IH by discriminate. lia.
Qed.

(** Lists of one length are not padded. *)
Lemma columns_of_lists_same (n : nat) (data : list (list cell)) :
  Forall (fun l => length l = n) data -> columns_of_lists data = data.
Proof.
  intros Hall. unfold columns_of_lists.
  destruct data as [|l0 data]; [reflexivity|].
  rewrite (max_list_same n).
  - rewrite <- (list_fmap_id (l0 :: data)) at 2.
    apply Forall_fmap_ext. eapply Forall_impl; [exact Hall|].
    intros l Hl. simpl in *. unfold pad. rewrite Hl, Nat.sub_diag.
    apply app_nil_r.
  - apply Forall_fmap. exact Hall.
  - discriminate.
Qed.

Ltac table_steps :=
  unfold set_columns, append_row;
  repeat (rewrite decide_True by reflexivity;
          cbn [mbind result_bind zip2 fmap list_fmap fst snd app]).






(** ** Frequency table of a multi-answer question *)

Lemma for_each_first_error {A B} (f : A -> result B) (x : A) (xs : list A)
    (e : pyerror) :
  f x = Err e -> for_each f (x :: xs) = Err e.
Proof. intros Hx. simpl. rewrite Hx. reflexivity. Qed.

Lemma no_respondent_count (vars : list string)
    (rows : list (gmap string Z)) :
  Forall (all_missing vars) rows -> len (filter (responds vars) rows) = 0.
Proof.
  intros Hall. rewrite filter_none; [reflexivity|].
  eapply Forall_impl; [exact Hall|]. intros row Hm Hr.
  apply responds_iff_not_all_missing in Hr. exact (Hr Hm).
Qed.

Lemma frequency_table_multiple_divides_by_zero {ext : Extern}
    (q : SelectMultipleQuestion) (df : DataFrame)
    (show_question ct pct_respondents pct_responses : bool)
    (pct_format : pyarg) (remove_exclusions show_totals : bool) :
  let vars := SelectMultiple.retained_variables q remove_exclusions in
  Forall (fun v => v ∈ df_columns df) vars ->
  vars <> [] ->
  Forall (all_missing vars) (df_rows df) ->
  pct_respondents = true \/ pct_responses = true ->
  SelectMultiple.frequency_table q df show_question ct pct_respondents
    pct_responses pct_format remove_exclusions show_totals
  = Err ZeroDivisionError.
Proof.
  intros vars Hall Hne Hnone Hpct. unfold SelectMultiple.frequency_table.
  rewrite (select_multiple_tally_eq q df remove_exclusions Hall).
  fold vars. cbn [mbind result_bind].
  rewrite (no_respondent_count vars (df_rows df) Hnone).
  pose proof (sum_of_answers_bounds vars (df_rows df)) as Hsum.
  rewrite (no_respondent_count vars (df_rows df) Hnone) in Hsum.
  assert (Hzero : pysum ((fun v => answers v (df_rows df)) <$> vars) = 0)
    by lia.
  rewrite Hzero.
  destruct vars as [|v vars']; [congruence|]. rewrite fmap_cons.
  set (c := answers v (df_rows df)).
  set (rest := (fun v0 => answers v0 (df_rows df)) <$> vars').
  assert (Hdiv : forall k : pyfloat -> result cell,
             for_each (fun x => r ← truediv x 0; k r) (c :: rest)
             = Err ZeroDivisionError).
  { intros k. apply for_each_first_error. reflexivity. }
  destruct pct_respondents.
  - destruct show_question, ct; cbn [mbind result_bind];
      rewrite (Hdiv (fun r => s ← pyformat_float r pct_format; Ok (CStr s)));
      reflexivity.
  - destruct Hpct as [Hpct|Hpct]; [discriminate|]. subst pct_responses.
    destruct show_question, ct; cbn [mbind result_bind];
      rewrite (Hdiv (fun r => s ← pyformat_float r pct_format; Ok (CStr s)));
      reflexivity.
Qed.

(** With no respondent in the frame, asking a multi-answer question for a
    percentage column divides by zero: the table is not returned. *)
Theorem select_multiple_frequency_table_no_respondent {ext : Extern}
    (q : SelectMultipleQuestion) (df : DataFrame)
    (show_question ct pct_respondents pct_responses : bool)
    (pct_format : pyarg) (remove_exclusions show_totals : bool) :
  let vars := SelectMultiple.retained_variables q remove_exclusions in
  Forall (fun v => v ∈ df_columns df) vars ->
  vars <> [] ->
  Forall (all_missing vars) (df_rows df) ->
  pct_respondents = true \/ pct_responses = true ->
  SelectMultiple.frequency_table q df show_question ct pct_respondents
    pct_responses pct_format remove_exclusions show_totals
  = Err ZeroDivisionError.
Proof.
  exact (frequency_table_multiple_divides_by_zero q df show_question ct
           pct_respondents pct_responses pct_format remove_exclusions
           show_totals).
Qed.

Lemma select_multiple_frequency_table_no_respondent_witness :
  Forall (fun v => v ∈ df_columns Sample.silent)
         (SelectMultiple.retained_variables Sample.which true)
  /\ SelectMultiple.retained_variables Sample.which true <> []
  /\ Forall (all_missing (SelectMultiple.retained_variables Sample.which true))
            (df_rows Sample.silent)
  /\ SelectMultiple.frequency_table (ext := Sample.tests) Sample.which
       Sample.silent true true true false (PStr ".0%") true true
     = Err ZeroDivisionError.
Proof.
  assert (Hall : Forall (fun v => v ∈ df_columns Sample.silent)
                   (SelectMultiple.retained_variables Sample.which true))
    by (vm_compute; repeat constructor).
  assert (Hne : SelectMultiple.retained_variables Sample.which true <> [])
    by discriminate.
  assert (Hnone : Forall (all_missing
                            (SelectMultiple.retained_variables Sample.which
                               true)) (df_rows Sample.silent))
    by (vm_compute; repeat constructor).
  split; [exact Hall|]. split; [exact Hne|]. split; [exact Hnone|].
  exact (select_multiple_frequency_table_no_respondent (ext := Sample.tests)
           Sample.which Sample.silent true true true false (PStr ".0%") true
           true Hall Hne Hnone (or_introl eq_refl)).
Defined.

Lemma ratio_cells {ext : Extern} (cts : list Z) (d : Z) (pct_format : string) :
  0 < d ->
  for_each (fun x => r ← truediv x d;
                     s ← pyformat_float r (PStr pct_format); Ok (CStr s)) cts
  = Ok ((fun x => CStr (format_float (Real (Qmake x (Z.to_pos d)))
                          pct_format)) <$> cts).
Proof.
  intros Hd. apply for_each_ok, Forall_forall. intros x _.
  rewrite (truediv_pos x d Hd). reflexivity.
Qed.





(** ** Grouping and the comparison of groups *)

Lemma elem_of_dropna (k : Z) (s : Series) : k ∈ dropna s <-> Some k ∈ s.
Proof.
  unfold dropna. rewrite list_elem_of_omap. split.
  - intros (c & Hc & Hk). simpl in Hk. subst c. exact Hc.
  - intros Hk. exists (Some k). split; [exact Hk|reflexivity].
Qed.

Lemma groupby_present (df : DataFrame) (col : string) :
  col ∈ df_columns df ->
  groupby df col
  = Ok {| gb_items :=
            (fun k => (k, {| df_columns := df_columns df;
                             df_rows := filter (fun row : gmap string Z =>
                                                  row !! col = Some k)
                                               (df_rows df) |}))
              <$> merge_sort Z.le (remove_dups (dropna (column df col))) |}.
Proof.
  intros Hin. unfold groupby. rewrite (getitem_present _ _ Hin). reflexivity.
Qed.

Lemma groupby_inv (df : DataFrame) (col : string) (g : GroupBy) :
  groupby df col = Ok g ->
  col ∈ df_columns df
  /\ fst <$> gb_items g
     = merge_sort Z.le (remove_dups (dropna (column df col)))
  /\ Forall (fun kd : Z * DataFrame => df_columns kd.2 = df_columns df)
            (gb_items g).
Proof.
  intros Hg. destruct (decide (col ∈ df_columns df)) as [Hin|Hout].
  - rewrite (groupby_present _ _ Hin) in Hg. injection Hg as <-.
    split; [exact Hin|]. simpl. split.
    + rewrite <- list_fmap_compose. apply list_fmap_id.
    + apply Forall_fmap, Forall_forall. intros k _. reflexivity.
  - unfold groupby in Hg. rewrite (getitem_absent _ _ Hout) in Hg.
    discriminate.
Qed.

(** The groups of a frame have pairwise distinct keys. *)
Lemma groupby_keys_distinct (df : DataFrame) (col : string) (g : GroupBy) :
  groupby df col = Ok g -> NoDup (fst <$> gb_items g).
Proof.
  intros Hg. destruct (groupby_inv df col g Hg) as (_ & Hkeys & _).
  rewrite Hkeys, merge_sort_Permutation. apply NoDup_remove_dups.
Qed.

Lemma groupby_key_iff (df : DataFrame) (col : string) (g : GroupBy) (k : Z) :
  groupby df col = Ok g ->
  k ∈ fst <$> gb_items g <-> Some k ∈ column df col.
Proof.
  intros Hg. destruct (groupby_inv df col g Hg) as (_ & Hkeys & _).
  rewrite Hkeys, merge_sort_Permutation, elem_of_remove_dups.
  apply elem_of_dropna.
Qed.

(** On the groups that [groupby] makes of a frame, the comparison runs the
    t-test when there are exactly two groups and otherwise reports no
    significance without running any test: the groups are as many as their
    keys, and the analysis of variance is never reached. *)
Theorem compare_groups_after_groupby {ext : Extern} (q : SelectOneQuestion)
    (df : DataFrame) (col : string) (g : GroupBy) (pval : pyfloat) :
  groupby df col = Ok g ->
  so_variable q ∈ df_columns df ->
  (gb_len g = 2 ->
   exists a b, samples q g = [a; b]
     /\ SelectOne.compare_groups q g pval
        = Ok (flt (ttest_ind a b false) pval, [TTestInd a b false]))
  /\ (gb_len g <> 2 -> SelectOne.compare_groups q g pval = Ok (false, [])).
Proof.
  intros Hg Hin.
  destruct (groupby_inv df col g Hg) as (_ & _ & Hcols).
  assert (Hall : Forall (fun kd : Z * DataFrame =>
                           so_variable q ∈ df_columns kd.2) (gb_items g)).
  { eapply Forall_impl; [exact Hcols|]. intros kd Hkd. simpl in Hkd.
    rewrite Hkd. exact Hin. }
  destruct (compare_groups_branches q g pval Hall) as (Ht & _ & Hn).
  split; [exact Ht|]. intros Hlen. apply Hn; [exact Hlen|].
  unfold gb_group_keys.
  rewrite size_list_to_set by (apply (groupby_keys_distinct df col g Hg)).
  rewrite length_fmap. unfold gb_len, len in Hlen. lia.
Qed.

Lemma compare_groups_after_groupby_witness :
  exists g,
    groupby Cases.survey "g" = Ok g
    /\ so_variable Sample.happy ∈ df_columns Cases.survey
    /\ gb_len g <> 2
    /\ SelectOne.compare_groups (ext := Sample.tests) Sample.happy g p05
       = Ok (false, []).
Proof.
  destruct (groupby Cases.survey "g") as [g|e] eqn:Hg;
    [|vm_compute in Hg; discriminate].
  assert (Hin : so_variable Sample.happy ∈ df_columns Cases.survey)
    by (vm_compute; repeat constructor).
  assert (Hlen : gb_len g <> 2).
  { vm_compute in Hg. injection Hg as <-. discriminate. }
  exists g. split; [reflexivity|]. split; [exact Hin|]. split; [exact Hlen|].
  exact (proj2 (compare_groups_after_groupby (ext := Sample.tests)
                  Sample.happy Cases.survey "g" g p05 Hg Hin) Hlen).
Defined.

(** ** The working copy of the response set *)

Lemma replace_with_nan_present (df : DataFrame) (var : string) (v : Z) :
  var ∈ df_columns df ->
  replace_with_nan df var v
  = Ok {| df_columns := df_columns df;
          df_rows := null_excluded [v] var <$> df_rows df |}.
Proof.
  intros Hin. unfold replace_with_nan. rewrite decide_True by exact Hin.
  do 2 f_equal. apply list_fmap_ext. intros _ row _.
  unfold null_excluded. destruct (row !! var) as [w|] eqn:E.
  - destruct (decide (w = v)) as [->|Hne].
    + rewrite decide_True by reflexivity.
      rewrite decide_True by constructor. reflexivity.
    + rewrite decide_False by congruence.
      rewrite decide_False; [reflexivity|].
      intros Hw. apply list_elem_of_singleton in Hw. exact (Hne Hw).
  - rewrite decide_False by discriminate. reflexivity.
Qed.

Lemma null_excluded_cons (v : Z) (drop : list Z) (var : string)
    (row : gmap string Z) :
  null_excluded drop var (null_excluded [v] var row)
  = null_excluded (v :: drop) var row.
Proof.
  unfold null_excluded. destruct (row !! var) as [w|] eqn:E.
  - destruct (decide (w = v)) as [->|Hne].
    + rewrite (decide_True (P := v ∈ [v])) by constructor.
      rewrite lookup_delete_eq.
      rewrite (decide_True (P := v ∈ v :: drop)) by constructor.
      reflexivity.
    + rewrite (decide_False (P := w ∈ [v])).
      2:{ intros Hw. apply list_elem_of_singleton in Hw. exact (Hne Hw). }
      rewrite E. destruct (decide (w ∈ drop)) as [Hd|Hd].
      * rewrite (decide_True (P := w ∈ v :: drop)) by (right; exact Hd).
        reflexivity.
      * rewrite (decide_False (P := w ∈ v :: drop)); [reflexivity|].
        intros Hw. apply elem_of_cons in Hw as [Hw|Hw]; [exact (Hne Hw)|].
        exact (Hd Hw).
  - rewrite E. reflexivity.
Qed.

Lemma null_excluded_nil (var : string) (row : gmap string Z) :
  null_excluded [] var row = row.
Proof.
  unfold null_excluded. destruct (row !! var); [|reflexivity].
  rewrite decide_False by apply not_elem_of_nil. reflexivity.
Qed.

(** The loop of replacements, in closed form. *)
Lemma replace_loop (var : string) (drop : list Z) (df : DataFrame) :
  var ∈ df_columns df ->
  fold_loop (fun df v => replace_with_nan df var v) df drop
  = Ok {| df_columns := df_columns df;
          df_rows := null_excluded drop var <$> df_rows df |}.
Proof.
  revert df. induction drop as [|v drop IH]; intros df Hin.
  - simpl. destruct df as [cols rows]. simpl. do 2 f_equal.
    rewrite <- (list_fmap_id rows) at 1. apply list_fmap_ext.
    intros _ row _. symmetry. apply null_excluded_nil.
  - cbn [fold_loop]. rewrite (replace_with_nan_present df var v Hin).
    cbn [mbind result_bind]. rewrite IH by exact Hin. simpl.
    do 2 f_equal. rewrite <- list_fmap_compose. apply list_fmap_ext.
    intros _ row _. apply null_excluded_cons.
Qed.

Lemma null_excluded_lookup (drop : list Z) (var col : string)
    (row : gmap string Z) :
  null_excluded drop var row !! col
  = if decide (col = var)
    then match row !! var with
         | Some v => if decide (v ∈ drop) then None else Some v
         | None => None
         end
    else row !! col.
Proof.
  unfold null_excluded. destruct (decide (col = var)) as [->|Hne].
  - destruct (row !! var) as [v|] eqn:E; [|exact E].
    destruct (decide (v ∈ drop)); [apply lookup_delete_eq|exact E].
  - destruct (row !! var) as [v|]; [|reflexivity].
    destruct (decide (v ∈ drop)); [|reflexivity].
    apply lookup_delete_ne. congruence.
Qed.

(** With exclusions removed, the working copy differs from the response
    set only in the column of the cut variable, where the excluded answers
    are missing; so the groups made of that column are exactly the
    answers given that are not excluded. *)
Theorem excluded_answers_are_in_no_group (o : SelectOneQuestion)
    (response_set : DataFrame) :
  so_variable o ∈ df_columns response_set ->
  so_label o = so_variable o ->
  exists df g,
    CutByQuestion.working_copy o response_set true = Ok df
    /\ df_columns df = df_columns response_set
    /\ length (df_rows df) = length (df_rows response_set)
    /\ (forall col, col <> so_variable o ->
                    column df col = column response_set col)
    /\ groupby df (so_label o) = Ok g
    /\ (forall k, k ∈ fst <$> gb_items g
                  <-> Some k ∈ column response_set (so_variable o)
                      /\ k ∉ CutByQuestion.values_to_drop o).
Proof.
  intros Hin Hlabel. rewrite Hlabel. unfold CutByQuestion.working_copy.
  rewrite (replace_loop _ _ _ Hin).
  set (drop := CutByQuestion.values_to_drop o).
  set (df := {| df_columns := df_columns response_set;
                df_rows := null_excluded drop (so_variable o)
                             <$> df_rows response_set |}).
  assert (Hin' : so_variable o ∈ df_columns df) by exact Hin.
  exists df, {| gb_items :=
    (fun k => (k, {| df_columns := df_columns df;
                     df_rows := filter (fun row : gmap string Z =>
                                          row !! so_variable o = Some k)
                                       (df_rows df) |}))
      <$> merge_sort Z.le
            (remove_dups (dropna (column df (so_variable o)))) |}.
  split; [reflexivity|]. split; [reflexivity|].
  split; [apply length_fmap|]. split.
  - intros col Hne. unfold column, df. simpl.
    rewrite <- list_fmap_compose. apply list_fmap_ext. intros _ row _.
    simpl. rewrite null_excluded_lookup, decide_False by exact Hne.
    reflexivity.
  - split; [apply (groupby_present df _ Hin')|]. intros k.
    rewrite (groupby_key_iff df (so_variable o) _ k
               (groupby_present df _ Hin')).
    unfold column, df. simpl. rewrite <- list_fmap_compose.
    rewrite !list_elem_of_fmap. split.
    + intros (row & Hk & Hrow). simpl in Hk.
      rewrite null_excluded_lookup, decide_True in Hk by reflexivity.
      destruct (row !! so_variable o) as [v|] eqn:E; [|discriminate].
      destruct (decide (v ∈ drop)) as [Hd|Hd]; [discriminate|].
      injection Hk as ->. split; [|exact Hd].
      exists row. split; [symmetry; exact E|exact Hrow].
    + intros [(row & Hk & Hrow) Hd]. exists row. split; [|exact Hrow].
      simpl. rewrite null_excluded_lookup, decide_True by reflexivity.
      rewrite <- Hk. rewrite decide_False by exact Hd. reflexivity.
Qed.

Lemma excluded_answers_are_in_no_group_witness :
  so_variable Cases.gender ∈ df_columns Cases.survey
  /\ so_label Cases.gender = so_variable Cases.gender
  /\ exists df g,
       CutByQuestion.working_copy Cases.gender Cases.survey true = Ok df
       /\ groupby df (so_label Cases.gender) = Ok g
       /\ fst <$> gb_items g = [0; 1; 2].
Proof.
  assert (Hin : so_variable Cases.gender ∈ df_columns Cases.survey)
    by (vm_compute; repeat constructor).
  split; [exact Hin|]. split; [reflexivity|].
  destruct (excluded_answers_are_in_no_group Cases.gender Cases.survey Hin
              eq_refl)
    as (df & g & Hdf & _ & _ & _ & Hg & _).
  exists df, g. split; [exact Hdf|]. split; [exact Hg|].
  vm_compute in Hdf. injection Hdf as <-.
  vm_compute in Hg. injection Hg as <-. reflexivity.
Defined.

(** The grouping column is looked up under the label of the other
    question, not under its variable: when the label is not a column of
    the response set the cross-tabulation is refused with a KeyError,
    although the answers are there; and another question than a
    single-answer one is refused at once. *)
Theorem cut_by_question_refusals {ext : Extern} (q : SelectOneQuestion)
    (o : SelectOneQuestion) (m : SelectMultipleQuestion)
    (response_set : DataFrame) (cut_var_label question_label : option string)
    (pct_format : pyarg) (remove_exclusions show_mean : bool)
    (mean_format : string) :
  CutByQuestion.select_one q (QMultiple m) response_set cut_var_label
    question_label pct_format remove_exclusions show_mean mean_format
  = Err (Exception "Can only call cut_by_question on a SelectOneQuestion type")
  /\ (so_variable o ∈ df_columns response_set ->
      so_label o ∉ df_columns response_set ->
      CutByQuestion.select_one q (QOne o) response_set cut_var_label
        question_label pct_format remove_exclusions show_mean mean_format
      = Err (KeyError (so_label o))).
Proof.
  split; [reflexivity|]. intros Hin Hout.
  unfold CutByQuestion.select_one, CutByQuestion.working_copy.
  destruct remove_exclusions.
  - rewrite (replace_loop _ _ _ Hin). cbn [mbind result_bind].
    unfold groupby. rewrite getitem_absent by exact Hout. reflexivity.
  - cbn [mbind result_bind]. unfold groupby.
    rewrite getitem_absent by exact Hout. reflexivity.
Qed.

Lemma cut_by_question_refusals_witness :
  so_variable Cases.gender_relabelled ∈ df_columns Cases.survey
  /\ (so_label Cases.gender_relabelled ∉ df_columns Cases.survey)
  /\ CutByQuestion.select_one (ext := Sample.tests) Sample.happy
       (QOne Cases.gender_relabelled) Cases.survey None None (PStr ".0%")
       true true ".1f"
     = Err (KeyError "Gender").
Proof.
  assert (Hin : so_variable Cases.gender_relabelled ∈ df_columns Cases.survey)
    by (vm_compute; repeat constructor).
  assert (Hout : so_label Cases.gender_relabelled ∉ df_columns Cases.survey).
  { intros H. vm_compute in H.
    apply elem_of_cons in H as [H|H]; [discriminate|].
    apply list_elem_of_singleton in H. discriminate. }
  split; [exact Hin|]. split; [exact Hout|].
  exact (proj2 (cut_by_question_refusals (ext := Sample.tests) Sample.happy
                  Cases.gender_relabelled Sample.which Cases.survey None None
                  (PStr ".0%") true true ".1f") Hin Hout).
Defined.

(** ** Cross-tabulation of a multi-answer question *)

Lemma flag_columns_labels (sigs : list bool) (labels : list string) :
  SelectMultiple.flag_columns sigs (CStr <$> labels)
  = Ok ((fun p : bool * string => CStr (if p.1 then p.2 +:+ "*" else p.2))
          <$> zip2 sigs labels).
Proof.
  revert labels. induction sigs as [|s sigs IH]; intros [|l labels];
    try reflexivity.
  rewrite fmap_cons. cbn [SelectMultiple.flag_columns zip2].
  rewrite IH. destruct s; reflexivity.
Qed.

Lemma filter_keeps_all {A} (P : A -> Prop) `{forall x, Decision (P x)}
    (l : list A) :
  len (filter P l) = len l -> Forall P l.
Proof.
  induction l as [|x l IH]; intros E; [constructor|].
  rewrite len_filter_cons in E.
  replace (len (x :: l)) with (1 + len l) in E by (unfold len; simpl; lia).
  pose proof (len_filter_le P l) as Hle.
  destruct (decide (P x)) as [Hx|Hx]; [|lia].
  constructor; [exact Hx|]. apply IH. lia.
Qed.

Lemma some_respondent (vars : list string) (rows : list (gmap string Z)) :
  ~ Forall (all_missing vars) rows -> 0 < len (filter (responds vars) rows).
Proof.
  intros Hnot. pose proof (respondents_partition vars rows) as Hpart.
  pose proof (len_filter_le (all_missing vars) rows) as Hle.
  pose proof (len_filter_le (responds vars) rows) as Hle'.
  destruct (decide (len (filter (all_missing vars) rows) = len rows))
    as [E|E]; [|lia].
  exfalso. apply Hnot. exact (filter_keeps_all _ rows E).
Qed.

Section MultiCutBy.

Context {ext : Extern}.
Variable q : SelectMultipleQuestion.
Variable groups : GroupBy.
Variable mapping : gmap Z string.
Variables (cut_var_label : string) (question_label : option string).
Variable pct_format : string.
Variable remove_exclusions : bool.

Let vars := SelectMultiple.retained_variables q remove_exclusions.
Let labels := SelectMultiple.get_choices q remove_exclusions.
Let my_label :=
  match question_label with
  | Some l => if String.eqb l EmptyString then sm_text q else l
  | None => sm_text q
  end.

(** Every group holds the retained variables and has a label, and the
    question has as many variables as choices. *)
Hypothesis groups_ok :
  Forall (fun kd : Z * DataFrame =>
            Forall (fun v => v ∈ df_columns kd.2) vars
            /\ is_Some (mapping !! kd.1))
         (gb_items groups).
Hypothesis as_many_variables :
  length (sm_variables q) = length (sm_choices q).

Lemma retained_as_many : length vars = length labels.
Proof.
  unfold vars, labels, SelectMultiple.retained_variables,
    SelectMultiple.get_choices.
  destruct remove_exclusions; [|exact as_many_variables].
  apply compress_length_eq. exact as_many_variables.
Qed.

(** The table of a group with a respondent. *)
Lemma multi_cut_by_frequency_table (gp : DataFrame) :
  Forall (fun v => v ∈ df_columns gp) vars ->
  0 < len (filter (responds vars) (df_rows gp)) ->
  exists percents,
    SelectMultiple.frequency_table q gp true false true false
      (PStr pct_format) remove_exclusions false
    = Ok [("Answer", CStr <$> labels); ("% of respondents", percents)].
Proof.
  intros Hall Hresp. unfold SelectMultiple.frequency_table.
  rewrite (select_multiple_tally_eq q gp remove_exclusions Hall).
  fold vars. cbn [mbind result_bind].
  rewrite (ratio_cells _ _ pct_format Hresp). cbn [mbind result_bind app].
  rewrite (columns_of_lists_same (length labels)).
  - table_steps. eexists. reflexivity.
  - repeat constructor; rewrite !length_fmap;
      [reflexivity|apply retained_as_many].
Qed.

(** The loop over the groups stops with the division by zero at the first
    group without a respondent, and collects one series per group under
    the choice labels otherwise. *)
Lemma multi_cut_by_series (items : list (Z * DataFrame)) :
  vars <> [] ->
  Forall (fun kd : Z * DataFrame =>
            Forall (fun v => v ∈ df_columns kd.2) vars
            /\ is_Some (mapping !! kd.1)) items ->
  let loop :=
    for_each (fun '(k, gp) =>
        t ← SelectMultiple.frequency_table q gp true false true false
              (PStr pct_format) remove_exclusions false;
        series ← series_indexed_by t "Answer";
        name ← match mapping !! k with
               | Some n => Ok n
               | None => Err (KeyError (pretty k))
               end;
        Ok (name, series)) items in
  (Exists (fun kd : Z * DataFrame => Forall (all_missing vars) (df_rows kd.2))
          items -> loop = Err ZeroDivisionError)
  /\ (Forall (fun kd : Z * DataFrame =>
                ~ Forall (all_missing vars) (df_rows kd.2)) items ->
      exists freqs : list (string * (list cell * list cell)),
        loop = Ok freqs
        /\ length freqs = length items
        /\ Forall (fun f => f.2.1 = CStr <$> labels) freqs).
Proof.
  intros Hne. induction 1 as [|[k gp] items [Hin [name Hname]] _ IH];
    intros loop.
  - split; [intros Hex; inversion Hex|].
    intros _. exists []. repeat split. constructor.
  - simpl in Hin, Hname. subst loop. cbv zeta in IH.
    destruct IH as [IHerr IHok].
    destruct (decide (Forall (all_missing vars) (df_rows gp))) as [Hm|Hm].
    + split.
      * intros _. apply for_each_first_error.
        rewrite (frequency_table_multiple_divides_by_zero q gp true false
                   true false (PStr pct_format) remove_exclusions false Hin
                   Hne Hm (or_introl eq_refl)).
        reflexivity.
      * intros Hall. apply Forall_cons in Hall as [Hhead _].
        exfalso. exact (Hhead Hm).
    + destruct (multi_cut_by_frequency_table gp Hin (some_respondent _ _ Hm))
        as (percents & Htable).
      assert (Hstep : forall rest,
                for_each (fun '(k, gp) =>
                    t ← SelectMultiple.frequency_table q gp true false true
                          false (PStr pct_format) remove_exclusions false;
                    series ← series_indexed_by t "Answer";
                    name ← match mapping !! k with
                           | Some n => Ok n
                           | None => Err (KeyError (pretty k))
                           end;
                    Ok (name, series)) ((k, gp) :: rest)
                = (ys ← for_each (fun '(k, gp) =>
                      t ← SelectMultiple.frequency_table q gp true false true
                            false (PStr pct_format) remove_exclusions false;
                      series ← series_indexed_by t "Answer";
                      name ← match mapping !! k with
                             | Some n => Ok n
                             | None => Err (KeyError (pretty k))
                             end;
                      Ok (name, series)) rest;
                   Ok ((name, (CStr <$> labels, percents)) :: ys))).
      { intros rest. cbn [for_each]. rewrite Htable, Hname.
        cbn [mbind result_bind].
        change (series_indexed_by
                  [("Answer", CStr <$> labels);
                   ("% of respondents", percents)] "Answer")
          with (Ok (A := list cell * list cell) (CStr <$> labels, percents)).
        reflexivity. }
      rewrite Hstep. split.
      * intros Hex. apply Exists_cons in Hex as [Hex|Hex];
          [exfalso; exact (Hm Hex)|].
        rewrite (IHerr Hex). reflexivity.
      * intros Hall. apply Forall_cons in Hall as [_ Hall].
        destruct (IHok Hall) as (freqs & Hfreqs & Hlen & Hidx).
        rewrite Hfreqs. cbn [mbind result_bind].
        eexists. split; [reflexivity|]. split.
        -- simpl. rewrite Hlen. reflexivity.
        -- constructor; [reflexivity|exact Hidx].
Qed.

(** [cut_by] on groups that all have a respondent: it remains to put the
    top label above the flagged choice labels. *)
Lemma multi_cut_by_outcome :
  gb_items groups <> [] ->
  Forall (fun kd : Z * DataFrame =>
            ~ Forall (all_missing vars) (df_rows kd.2)) (gb_items groups) ->
  vars <> [] ->
  exists index data,
    fst <$> index = replicate (length (gb_items groups)) cut_var_label
    /\ SelectMultiple.cut_by q groups mapping cut_var_label question_label
         (PStr pct_format) remove_exclusions
       = (columns ←
            from_arrays (replicate (length (sm_choices q)) my_label)
              ((fun p : bool * string =>
                  CStr (if p.1 then p.2 +:+ "*" else p.2))
                 <$> zip2 ((fun v => flt (chisquare (observed v groups)
                                            (expected v vars groups)) p05)
                             <$> vars) labels);
          Ok {| ct_index := index; ct_columns := columns; ct_data := data |}).
Proof.
  intros Hne Hresp Hvars. unfold SelectMultiple.cut_by.
  destruct (proj2 (multi_cut_by_series (gb_items groups) Hvars groups_ok)
              Hresp) as (freqs & Hfreqs & Hlen & Hidx).
  rewrite Hfreqs. cbn [mbind result_bind]. fold my_label.
  destruct freqs as [|[name [idx vals]] rest].
  { destruct (gb_items groups); [congruence|discriminate]. }
  apply Forall_cons in Hidx as [Hidx _]. simpl in Hidx. subst idx.
  set (freqs := (name, (CStr <$> labels, vals)) :: rest) in *.
  assert (Hall : Forall (fun kd : Z * DataFrame =>
                           Forall (fun v => v ∈ df_columns kd.2) vars)
                   (gb_items groups)).
  { eapply Forall_impl; [exact groups_ok|]. intros kd [Hin _]. exact Hin. }
  assert (Hpos : 0 < pysum (group_totals vars groups)).
  { unfold group_totals. destruct (gb_items groups) as [|kd items];
      [congruence|].
    apply Forall_cons in Hresp as [Hhead _].
    rewrite fmap_cons, pysum_cons.
    pose proof (some_respondent _ _ Hhead) as Hfirst.
    assert (Hrest : 0 <= pysum ((fun kd0 : Z * DataFrame =>
                                   group_respondents vars kd0.2) <$> items)).
    { apply pysum_nonneg, Forall_fmap, Forall_forall. intros kd0 _.
      apply len_filter_le. }
    unfold group_respondents at 1. lia. }
  rewrite (select_multiple_compare_groups_eq q groups remove_exclusions p05
             Hall Hpos).
  cbn [mbind result_bind]. fold vars.
  rewrite flag_columns_labels. cbn [mbind result_bind].
  set (names := (fun f : string * (list cell * list cell) => CStr f.1)
                  <$> freqs).
  set (top := replicate (length (gb_items groups)) cut_var_label).
  assert (Hsame : length top = length names).
  { unfold top, names. rewrite length_replicate, length_fmap.
    symmetry. exact Hlen. }
  assert (Hindex : from_arrays top names = Ok (zip2 top names)).
  { unfold from_arrays. rewrite decide_True by exact Hsame. reflexivity. }
  rewrite Hindex. cbn [mbind result_bind].
  eexists _, _. split; [exact (fst_zip2 top names Hsame)|reflexivity].
Qed.

End MultiCutBy.

(** A group without a respondent stops the cross-tabulation of a
    multi-answer question with a division by zero: the percentages of the
    group cannot be computed. *)
Theorem select_multiple_cut_by_silent_group {ext : Extern}
    (q : SelectMultipleQuestion) (groups : GroupBy) (mapping : gmap Z string)
    (cut_var_label : string) (question_label : option string)
    (pct_format : string) (remove_exclusions : bool) :
  let vars := SelectMultiple.retained_variables q remove_exclusions in
  Forall (fun kd : Z * DataFrame =>
            Forall (fun v => v ∈ df_columns kd.2) vars
            /\ is_Some (mapping !! kd.1)) (gb_items groups) ->
  length (sm_variables q) = length (sm_choices q) ->
  vars <> [] ->
  Exists (fun kd : Z * DataFrame => Forall (all_missing vars) (df_rows kd.2))
         (gb_items groups) ->
  SelectMultiple.cut_by q groups mapping cut_var_label question_label
    (PStr pct_format) remove_exclusions = Err ZeroDivisionError.
Proof.
  intros vars Hok Hlen Hne Hex. unfold SelectMultiple.cut_by.
  rewrite (proj1 (multi_cut_by_series q groups mapping pct_format
                    remove_exclusions Hok Hlen (gb_items groups) Hne Hok)
             Hex).
  reflexivity.
Qed.

Lemma select_multiple_cut_by_silent_group_witness :
  Forall (fun kd : Z * DataFrame =>
            Forall (fun v => v ∈ df_columns kd.2)
                   (SelectMultiple.retained_variables Sample.which true)
            /\ is_Some (Sample.group_labels !! kd.1))
         (gb_items Cases.one_silent_group)
  /\ length (sm_variables Sample.which) = length (sm_choices Sample.which)
  /\ SelectMultiple.retained_variables Sample.which true <> []
  /\ Exists (fun kd : Z * DataFrame =>
               Forall (all_missing
                         (SelectMultiple.retained_variables Sample.which true))
                      (df_rows kd.2))
            (gb_items Cases.one_silent_group)
  /\ SelectMultiple.cut_by (ext := Sample.tests) Sample.which
       Cases.one_silent_group Sample.group_labels "Gender" None
       (PStr ".0%") true = Err ZeroDivisionError.
Proof.
  assert (Hok : Forall (fun kd : Z * DataFrame =>
                   Forall (fun v => v ∈ df_columns kd.2)
                          (SelectMultiple.retained_variables Sample.which true)
                   /\ is_Some (Sample.group_labels !! kd.1))
                  (gb_items Cases.one_silent_group)).
  { repeat constructor; vm_compute; eauto. }
  assert (Hlen : length (sm_variables Sample.which)
                 = length (sm_choices Sample.which)) by reflexivity.
  assert (Hne : SelectMultiple.retained_variables Sample.which true <> [])
    by discriminate.
  assert (Hex : Exists (fun kd : Z * DataFrame =>
                   Forall (all_missing
                             (SelectMultiple.retained_variables Sample.which
                                true)) (df_rows kd.2))
                  (gb_items Cases.one_silent_group)).
  { apply Exists_cons. right. apply Exists_cons. left.
    vm_compute. repeat constructor. }
  split; [exact Hok|]. split; [exact Hlen|]. split; [exact Hne|].
  split; [exact Hex|].
  exact (select_multiple_cut_by_silent_group (ext := Sample.tests)
           Sample.which Cases.one_silent_group Sample.group_labels "Gender"
           None ".0%" true Hok Hlen Hne Hex).
Defined.


(** As for a single-answer question, the top label is repeated once per
    choice of the question while the columns are the retained choices:
    when removing the exclusions drops a choice, the cross-tabulation of a
    multi-answer question is refused for the mismatch of lengths. *)
Theorem select_multiple_cut_by_raises_when_a_choice_is_excluded
    {ext : Extern} (q : SelectMultipleQuestion) (groups : GroupBy)
    (mapping : gmap Z string) (cut_var_label : string)
    (question_label : option string) (pct_format : string) :
  let vars := SelectMultiple.retained_variables q true in
  Forall (fun kd : Z * DataFrame =>
            Forall (fun v => v ∈ df_columns kd.2) vars
            /\ is_Some (mapping !! kd.1)) (gb_items groups) ->
  length (sm_variables q) = length (sm_choices q) ->
  gb_items groups <> [] ->
  Forall (fun kd : Z * DataFrame =>
            ~ Forall (all_missing vars) (df_rows kd.2)) (gb_items groups) ->
  vars <> [] ->
  (length (SelectMultiple.get_choices q true) < length (sm_choices q))%nat ->
  SelectMultiple.cut_by q groups mapping cut_var_label question_label
    (PStr pct_format) true = Err (ValueError "Length mismatch").
Proof.
  intros vars Hok Hlen Hne Hresp Hvars Hdrop.
  destruct (multi_cut_by_outcome q groups mapping cut_var_label
              question_label pct_format true Hok Hlen Hne Hresp Hvars)
    as (index & data & _ & Heq).
  rewrite Heq. unfold from_arrays. rewrite decide_False; [reflexivity|].
  rewrite length_replicate, length_fmap, length_zip2, length_fmap.
  rewrite (retained_as_many q groups mapping true Hok Hlen). lia.
Qed.

Lemma select_multiple_cut_by_raises_when_a_choice_is_excluded_witness :
  Forall (fun kd : Z * DataFrame =>
            Forall (fun v => v ∈ df_columns kd.2)
                   (SelectMultiple.retained_variables Cases.which_without_b
                      true)
            /\ is_Some (Sample.group_labels !! kd.1))
         (gb_items Sample.halves)
  /\ length (sm_variables Cases.which_without_b)
     = length (sm_choices Cases.which_without_b)
  /\ gb_items Sample.halves <> []
  /\ Forall (fun kd : Z * DataFrame =>
               ~ Forall (all_missing
                           (SelectMultiple.retained_variables
                              Cases.which_without_b true)) (df_rows kd.2))
            (gb_items Sample.halves)
  /\ SelectMultiple.retained_variables Cases.which_without_b true <> []
  /\ (length (SelectMultiple.get_choices Cases.which_without_b true)
      < length (sm_choices Cases.which_without_b))%nat
  /\ SelectMultiple.cut_by (ext := Sample.tests) Cases.which_without_b
       Sample.halves Sample.group_labels "Gender" None (PStr ".0%") true
     = Err (ValueError "Length mismatch").
Proof.
  assert (Hok : Forall (fun kd : Z * DataFrame =>
                   Forall (fun v => v ∈ df_columns kd.2)
                          (SelectMultiple.retained_variables
                             Cases.which_without_b true)
                   /\ is_Some (Sample.group_labels !! kd.1))
                  (gb_items Sample.halves)).
  { repeat constructor; vm_compute; eauto. }
  assert (Hlen : length (sm_variables Cases.which_without_b)
                 = length (sm_choices Cases.which_without_b)) by reflexivity.
  assert (Hne : gb_items Sample.halves <> []) by discriminate.
  assert (Hresp : Forall (fun kd : Z * DataFrame =>
                     ~ Forall (all_missing
                                 (SelectMultiple.retained_variables
                                    Cases.which_without_b true))
                              (df_rows kd.2)) (gb_items Sample.halves)).
  { repeat constructor; intros Hall; vm_compute in Hall;
      apply Forall_cons in Hall as [Hrow _];
      apply Forall_cons in Hrow as [Ha _]; discriminate. }
  assert (Hvars : SelectMultiple.retained_variables Cases.which_without_b true
                  <> []) by discriminate.
  assert (Hdrop : (length (SelectMultiple.get_choices Cases.which_without_b
                             true)
                   < length (sm_choices Cases.which_without_b))%nat)
    by (vm_compute; lia).
  split; [exact Hok|]. split; [exact Hlen|]. split; [exact Hne|].
  split; [exact Hresp|]. split; [exact Hvars|]. split; [exact Hdrop|].
  exact (select_multiple_cut_by_raises_when_a_choice_is_excluded
           (ext := Sample.tests) Cases.which_without_b Sample.halves
           Sample.group_labels "Gender" None ".0%" Hok Hlen Hne Hresp Hvars
           Hdrop).
Defined.



(** ** Cross-tabulation of a matrix of single-answer questions *)





(** A matrix without questions has nothing to stack, and a matrix of
    multi-answer questions passes its children more arguments than their
    [cut_by] takes: either way the cross-tabulation of the matrix raises,
    whatever the groups. *)
Theorem select_one_matrix_cut_by_refusals {ext : Extern}
    (text label : string) (m : SelectMultipleQuestion)
    (rest : list Question) (groups : GroupBy) (mapping : gmap Z string)
    (cut_var_label : string) (question_labels : option (list string))
    (pct_format : pyarg) (remove_exclusions show_mean : bool)
    (mean_format : string) :
  SelectOneMatrixCuts.cut_by
    {| mx_text := text; mx_label := label; mx_questions := [] |}
    groups mapping cut_var_label question_labels pct_format
    remove_exclusions show_mean mean_format
  = Err (ValueError "No objects to concatenate")
  /\ exists msg,
       SelectOneMatrixCuts.cut_by
         {| mx_text := text; mx_label := label;
            mx_questions := QMultiple m :: rest |}
         groups mapping cut_var_label question_labels pct_format
         remove_exclusions show_mean mean_format
       = Err (TypeError msg).
Proof.
  split.
  - unfold SelectOneMatrixCuts.cut_by. reflexivity.
  - eexists. unfold SelectOneMatrixCuts.cut_by. cbn [mx_questions].
    destruct question_labels as [[|l ls]|]; reflexivity.
Qed.

(** The matrix inherits the mismatch of its children: when removing the
    exclusions drops a choice of the first child, the cross-tabulation of
    the matrix is refused as that of the child is. *)
Theorem select_one_matrix_cut_by_raises_when_a_choice_is_excluded
    {ext : Extern} (self : MatrixQuestion) (s : SelectOneQuestion)
    (rest : list Question) (groups : GroupBy) (mapping : gmap Z string)
    (cut_var_label : string) (question_labels : option (list string))
    (pct_format : string) (show_mean : bool) (mean_format : string) :
  mx_questions self = QOne s :: rest ->
  Forall (fun kd : Z * DataFrame =>
            so_variable s ∈ df_columns kd.2 /\ is_Some (mapping !! kd.1))
         (gb_items groups) ->
  well_formed s ->
  (length (SelectOne.get_choices s true false) < length (so_choices s))%nat ->
  gb_items groups <> [] ->
  SelectOneMatrixCuts.cut_by self groups mapping cut_var_label
    question_labels (PStr pct_format) true show_mean mean_format
  = Err (ValueError "Length mismatch").
Proof.
  intros Hqs Hok Hwf Hdrop Hne. unfold SelectOneMatrixCuts.cut_by.
  rewrite Hqs. cbv zeta.
  assert (Hl : exists l ls,
             match question_labels with
             | Some (l :: ls) => l :: ls
             | _ => question_text <$> QOne s :: rest
             end = l :: ls).
  { destruct question_labels as [[|l ls]|]; rewrite ?fmap_cons; eauto. }
  destruct Hl as (l & ls & ->). cbn [zip2].
  erewrite for_each_first_error; [reflexivity|].
  cbn beta iota.
  rewrite (cut_by_refused s groups mapping cut_var_label (Some l) pct_format
             mean_format Hok show_mean Hwf Hdrop Hne).
  reflexivity.
Qed.

Lemma select_one_matrix_cut_by_raises_when_a_choice_is_excluded_witness :
  mx_questions Sample.happy_matrix
  = QOne Sample.happy :: [QOne Sample.happy_again]
  /\ Forall (fun kd : Z * DataFrame =>
               so_variable Sample.happy ∈ df_columns kd.2
               /\ is_Some (Sample.group_labels !! kd.1))
            (gb_items Cases.days_by_gender)
  /\ well_formed Sample.happy
  /\ (length (SelectOne.get_choices Sample.happy true false)
      < length (so_choices Sample.happy))%nat
  /\ gb_items Cases.days_by_gender <> []
  /\ SelectOneMatrixCuts.cut_by (ext := Sample.tests) Sample.happy_matrix
       Cases.days_by_gender Sample.group_labels "Gender" None (PStr ".0%")
       true true ".1f"
     = Err (ValueError "Length mismatch").
Proof.
  assert (Hqs : mx_questions Sample.happy_matrix
                = QOne Sample.happy :: [QOne Sample.happy_again])
    by reflexivity.
  assert (Hok : Forall (fun kd : Z * DataFrame =>
                          so_variable Sample.happy ∈ df_columns kd.2
                          /\ is_Some (Sample.group_labels !! kd.1))
                  (gb_items Cases.days_by_gender)).
  { repeat constructor; vm_compute; eauto. }
  assert (Hwf : well_formed Sample.happy) by (split; reflexivity).
  assert (Hdrop : (length (SelectOne.get_choices Sample.happy true false)
                   < length (so_choices Sample.happy))%nat)
    by (vm_compute; lia).
  assert (Hne : gb_items Cases.days_by_gender <> []) by discriminate.
  split; [exact Hqs|]. split; [exact Hok|]. split; [exact Hwf|].
  split; [exact Hdrop|]. split; [exact Hne|].
  exact (select_one_matrix_cut_by_raises_when_a_choice_is_excluded
           (ext := Sample.tests) Sample.happy_matrix Sample.happy
           [QOne Sample.happy_again] Cases.days_by_gender Sample.group_labels
           "Gender" None ".0%" true ".1f" Hqs Hok Hwf Hdrop Hne).
Defined.

(** Unlike a single question, a matrix groups the response set as it is:
    every answer given to the other question makes a group, the excluded
    ones too, whether or not exclusions are removed.  Another question
    than a single-answer one is refused, and so is a label that is no
    column. *)
Theorem select_one_matrix_cut_by_question_groups {ext : Extern}
    (self : MatrixQuestion) (o : SelectOneQuestion)
    (m : SelectMultipleQuestion) (response_set : DataFrame)
    (cut_var_label : option string) (question_labels : option (list string))
    (pct_format : pyarg) (remove_exclusions show_mean : bool)
    (mean_format : string) :
  SelectOneMatrixCuts.cut_by_question self (QMultiple m) response_set
    cut_var_label question_labels pct_format remove_exclusions show_mean
    mean_format
  = Err (Exception "Can only call cut_by_question on a SelectOneQuestion type")
  /\ (so_label o ∉ df_columns response_set ->
      SelectOneMatrixCuts.cut_by_question self (QOne o) response_set
        cut_var_label question_labels pct_format remove_exclusions show_mean
        mean_format = Err (KeyError (so_label o)))
  /\ (so_label o ∈ df_columns response_set ->
      exists g,
        groupby response_set (so_label o) = Ok g
        /\ (forall k, k ∈ fst <$> gb_items g
                      <-> Some k ∈ column response_set (so_label o))
        /\ SelectOneMatrixCuts.cut_by_question self (QOne o) response_set
             cut_var_label question_labels pct_format remove_exclusions
             show_mean mean_format
           = SelectOneMatrixCuts.cut_by self g
               (dict_of_zip (so_values o) (so_choices o))
               (CutByQuestion.axis_text cut_var_label o) question_labels
               pct_format remove_exclusions show_mean mean_format).
Proof.
  split; [reflexivity|]. split.
  - intros Hout. unfold SelectOneMatrixCuts.cut_by_question, groupby.
    rewrite getitem_absent by exact Hout. reflexivity.
  - intros Hin. pose proof (groupby_present response_set _ Hin) as Hg.
    eexists. split; [exact Hg|]. split.
    + intros k. exact (groupby_key_iff response_set _ _ k Hg).
    + unfold SelectOneMatrixCuts.cut_by_question. rewrite Hg. reflexivity.
Qed.

Lemma select_one_matrix_cut_by_question_groups_witness :
  so_label Cases.gender ∈ df_columns Cases.survey
  /\ exists g,
       groupby Cases.survey (so_label Cases.gender) = Ok g
       /\ fst <$> gb_items g = [0; 1; 2; 9]
       /\ SelectOneMatrixCuts.cut_by_question (ext := Sample.tests)
            Sample.happy_matrix (QOne Cases.gender) Cases.survey None None
            (PStr ".0%") true true ".1f"
          = SelectOneMatrixCuts.cut_by (ext := Sample.tests)
              Sample.happy_matrix g
              (dict_of_zip (so_values Cases.gender) (so_choices Cases.gender))
              "Gender" None (PStr ".0%") true true ".1f".
Proof.
  assert (Hin : so_label Cases.gender ∈ df_columns Cases.survey)
    by (vm_compute; repeat constructor).
  split; [exact Hin|].
  destruct (proj2 (proj2 (select_one_matrix_cut_by_question_groups
                            (ext := Sample.tests) Sample.happy_matrix
                            Cases.gender Sample.which Cases.survey None None
                            (PStr ".0%") true true ".1f")) Hin)
    as (g & Hg & _ & Heq).
  exists g. split; [exact Hg|]. split; [|exact Heq].
  vm_compute in Hg. injection Hg as <-. reflexivity.
Defined.

(** ** The frequency table of a matrix of single-answer questions *)

(** Under distinct labels, asking for a column gives that column alone. *)
Lemma filter_named_column (tbl : Table) (nc : string * list cell) :
  NoDup (tbl.*1) -> nc ∈ tbl ->
  filter (fun x : string * list cell => x.1 = nc.1) tbl = [nc].
Proof.
  induction tbl as [|y t IH]; intros Hnd Hin.
  { apply elem_of_nil in Hin. destruct Hin. }
  rewrite fmap_cons in Hnd. apply NoDup_cons in Hnd as [Hy Hnd].
  apply elem_of_cons in Hin as [->|Hin].
  - rewrite filter_cons_True by reflexivity. f_equal.
    apply filter_none. apply Forall_forall. intros x Hx Heq.
    apply Hy. rewrite <- Heq. apply list_elem_of_fmap. exists x.
    split; [reflexivity|exact Hx].
  - rewrite filter_cons_False; [exact (IH Hnd Hin)|].
    intros Heq. apply Hy. rewrite Heq. apply list_elem_of_fmap.
    exists nc. split; [reflexivity|exact Hin].
Qed.

Lemma select_columns_distinct (tbl l : Table) :
  NoDup (tbl.*1) -> Forall (fun nc => nc ∈ tbl) l ->
  select_columns tbl (l.*1) = l.
Proof.
  intros Hnd Hall. unfold select_columns.
  induction Hall as [|nc l Hin _ IH]; [reflexivity|].
  rewrite fmap_cons, bind_cons, IH, (filter_named_column tbl nc Hnd Hin).
  reflexivity.
Qed.

Lemma last_first_snoc {A} (l : list A) (x : A) :
  last_first (l ++ [x]) = x :: l.
Proof.
  unfold last_first. rewrite last_snoc, removelast_last. reflexivity.
Qed.

(** Rows of one length make that many columns, each as long as the rows
    are many. *)
Lemma columns_of_rows_uniform (n : nat) (data : list (list cell)) :
  Forall (fun row => length row = n) data -> data <> [] ->
  length (columns_of_rows data) = n
  /\ Forall (fun col => length col = length data) (columns_of_rows data).
Proof.
  intros Hall Hne. unfold columns_of_rows. split.
  - rewrite length_fmap, length_seq. apply max_list_same; [|].
    + apply Forall_fmap. exact Hall.
    + destruct data; [congruence|discriminate].
  - apply Forall_fmap, Forall_forall. intros j _. simpl.
    apply length_fmap.
Qed.






(** ** The frequency table of a matrix of multi-answer questions *)

Lemma Forall_compress {A} (P : A -> Prop) (data : list A)
    (selectors : list bool) :
  Forall P data -> Forall P (compress data selectors).
Proof.
  intros Hall. revert selectors.
  induction Hall as [|d ds Hd _ IH]; intros [|s ss]; try constructor.
  simpl. destruct s; [constructor; [exact Hd|apply IH]|apply IH].
Qed.

Lemma retained_variables_present (m : SelectMultipleQuestion)
    (df : DataFrame) (remove_exclusions : bool) :
  Forall (fun v => v ∈ df_columns df) (sm_variables m) ->
  Forall (fun v => v ∈ df_columns df)
         (SelectMultiple.retained_variables m remove_exclusions).
Proof.
  intros Hall. unfold SelectMultiple.retained_variables.
  destruct remove_exclusions; [|exact Hall].
  apply Forall_compress. exact Hall.
Qed.

(** The counts that the matrix takes from the table of a child. *)
Lemma multi_matrix_child_counts {ext : Extern} (m : SelectMultipleQuestion)
    (df : DataFrame) (pct_format : string) (remove_exclusions : bool) :
  Forall (fun v => v ∈ df_columns df) (sm_variables m) ->
  (t ← call_frequency_table (QMultiple m) df (PBool false) (PBool true)
         (PBool false) (PBool false) (PStr pct_format)
         (PBool remove_exclusions) (PBool false);
   iloc_col0 t)
  = Ok (CInt <$> ((fun v => answers v (df_rows df))
                    <$> SelectMultiple.retained_variables m
                          remove_exclusions)).
Proof.
  intros Hall. cbn [call_frequency_table truthy].
  unfold SelectMultiple.frequency_table.
  rewrite (select_multiple_tally_eq m df remove_exclusions
             (retained_variables_present m df remove_exclusions Hall)).
  cbn [mbind result_bind app].
  rewrite (columns_of_lists_same
             (length (CInt <$> ((fun v => answers v (df_rows df))
                                  <$> SelectMultiple.retained_variables m
                                        remove_exclusions))))
    by (repeat constructor).
  reflexivity.
Qed.

Lemma setitem_fresh (tbl : Table) (name : string) (values : list cell) :
  name ∉ tbl.*1 -> setitem tbl name values = tbl ++ [(name, values)].
Proof.
  intros Hout. unfold setitem. rewrite decide_False by exact Hout.
  reflexivity.
Qed.

(** In the count mode the table of a matrix of multi-answer questions holds
    the texts of the children, then under each choice of the first child
    the number of respondents who selected it, one row per child, then
    when asked for the respondents of each child.  The respondents are
    counted with the exclusions removed, whether or not the counts are. *)
Theorem select_multiple_matrix_count_table {ext : Extern}
    (self : MatrixQuestion) (m0 : SelectMultipleQuestion)
    (ms : list SelectMultipleQuestion) (df : DataFrame)
    (pct_format : string) (remove_exclusions show_totals : bool) :
  let names := SelectMultiple.get_choices m0 remove_exclusions in
  let counts := fun m : SelectMultipleQuestion =>
    (fun v => answers v (df_rows df))
      <$> SelectMultiple.retained_variables m remove_exclusions in
  let respondents := fun m : SelectMultipleQuestion =>
    len (filter (responds (SelectMultiple.retained_variables m true))
                (df_rows df)) in
  mx_questions self = QMultiple <$> (m0 :: ms) ->
  Matrix.assert_choices_same self = Ok true ->
  Forall (fun m =>
            Forall (fun v => v ∈ df_columns df) (sm_variables m)
            /\ length (SelectMultiple.retained_variables m remove_exclusions)
               = length names) (m0 :: ms) ->
  NoDup ("Question" :: "Total Respondents" :: names) ->
  SelectMultipleMatrix.frequency_table self df "ct" pct_format
    remove_exclusions show_totals
  = Ok (("Question", CStr <$> (sm_text <$> (m0 :: ms)))
        :: zip2 names
             (columns_of_rows ((fun m => CInt <$> counts m) <$> (m0 :: ms)))
        ++ (if show_totals
            then [("Total Respondents",
                   CInt <$> (respondents <$> (m0 :: ms)))]
            else [])).
Proof.
  intros names counts respondents Hqs Hsame Hall Hnd.
  unfold SelectMultipleMatrix.frequency_table,
    SelectMultipleMatrix.get_choices, Matrix.get_children_text.
  rewrite Hsame, Hqs. cbn [String.eqb Ascii.eqb Bool.eqb].
  rewrite (for_each_ok _ (fun q => match q with
                                   | QMultiple m => CInt <$> counts m
                                   | QOne _ => []
                                   end)).
  2:{ apply Forall_fmap. eapply Forall_impl; [exact Hall|].
      intros m [Hm _]. simpl.
      exact (multi_matrix_child_counts m df pct_format remove_exclusions
               Hm). }
  cbn [mbind result_bind].
  set (data := (fun m => CInt <$> counts m) <$> (m0 :: ms)).
  assert (Hdata : (fun q => match q with
                            | QMultiple m => CInt <$> counts m
                            | QOne _ => []
                            end) <$> (QMultiple <$> (m0 :: ms)) = data).
  { rewrite <- list_fmap_compose. reflexivity. }
  rewrite Hdata. clear Hdata. rewrite (fmap_cons QMultiple m0 ms).
  assert (Hrows : Forall (fun row => length row = length names) data).
  { unfold data. apply Forall_fmap. eapply Forall_impl; [exact Hall|].
    intros m [_ Hm]. simpl. unfold counts. rewrite !length_fmap.
    exact Hm. }
  assert (Hne : data <> []) by discriminate.
  destruct (columns_of_rows_uniform _ data Hrows Hne) as [Hwidth Hheight].
  set (cols := columns_of_rows data) in *.
  cbn [mbind result_bind]. fold names.
  unfold set_columns. rewrite decide_True by (symmetry; exact Hwidth).
  cbn [mbind result_bind].
  assert (Hfst : (zip2 names cols).*1 = names)
    by exact (fst_zip2 names cols (eq_sym Hwidth)).
  apply NoDup_cons in Hnd as [Hq Hnd].
  apply NoDup_cons in Hnd as [Htot Hnd].
  rewrite !(setitem_fresh (zip2 names cols) "Question").
  2:{ rewrite Hfst. intros Hin. apply Hq. right. exact Hin. }
  rewrite !fmap_app, !Hfst.
  match goal with
  | |- context [select_columns (_ ++ [(_, ?t)]) _] => set (texts := t)
  end.
  change ([("Question", texts)].*1) with ["Question"].
  rewrite !last_first_snoc.
  assert (Htexts : texts = CStr <$> (sm_text <$> (m0 :: ms))).
  { unfold texts. rewrite !fmap_cons. f_equal. f_equal.
    rewrite <- list_fmap_compose. reflexivity. }
  assert (Hsel : select_columns (zip2 names cols ++ [("Question", texts)])
                   ("Question" :: names)
                 = ("Question", texts) :: zip2 names cols).
  { replace ("Question" :: names)
      with ((("Question", texts) :: zip2 names cols).*1)
      by (rewrite fmap_cons, Hfst; reflexivity).
    apply select_columns_distinct.
    - rewrite fmap_app, Hfst. cbn [fmap list_fmap fst].
      apply NoDup_app. split; [exact Hnd|]. split.
      + intros x Hx Hx'. apply list_elem_of_singleton in Hx'.
        subst x. apply Hq. right. exact Hx.
      + apply NoDup_singleton.
    - constructor.
      + apply elem_of_app. right. constructor.
      + apply Forall_forall. intros nc Hnc. apply elem_of_app.
        left. exact Hnc. }
  rewrite Hsel, Htexts. destruct show_totals.
  - rewrite (for_each_ok _ (fun q => match q with
                                     | QMultiple m => respondents m
                                     | QOne _ => 0
                                     end)).
    2:{ apply Forall_cons. split.
        - destruct (Forall_cons_1 _ _ _ Hall) as [[Hm _] _].
          simpl. unfold SelectMultiple.get_total_respondents.
          rewrite (select_multiple_tally_eq m0 df true
                     (retained_variables_present m0 df true Hm)).
          reflexivity.
        - apply Forall_fmap.
          destruct (Forall_cons_1 _ _ _ Hall) as [_ Hrest].
          eapply Forall_impl; [exact Hrest|].
          intros m [Hm _]. simpl.
          unfold SelectMultiple.get_total_respondents.
          rewrite (select_multiple_tally_eq m df true
                     (retained_variables_present m df true Hm)).
          reflexivity. }
    cbn [mbind result_bind]. rewrite setitem_fresh.
    2:{ rewrite fmap_cons, Hfst. cbn [fst]. intros Hin.
        apply elem_of_cons in Hin as [Hin|Hin]; [|exact (Htot Hin)].
        apply Hq. rewrite <- Hin. left. }
    assert (Htots : (fun q => match q with
                              | QMultiple m => respondents m
                              | QOne _ => 0
                              end) <$> (QMultiple m0 :: (QMultiple <$> ms))
                    = respondents <$> (m0 :: ms)).
    { rewrite !fmap_cons. f_equal. rewrite <- list_fmap_compose.
      reflexivity. }
    rewrite Htots. reflexivity.
  - rewrite app_nil_r. reflexivity.
Qed.

Lemma select_multiple_matrix_count_table_witness :
  mx_questions Sample.which_matrix
  = QMultiple <$> (Sample.which :: [Sample.which])
  /\ Matrix.assert_choices_same Sample.which_matrix = Ok true
  /\ Forall (fun m =>
               Forall (fun v => v ∈ df_columns Sample.three_rows)
                      (sm_variables m)
               /\ length (SelectMultiple.retained_variables m true)
                  = length (SelectMultiple.get_choices Sample.which true))
            (Sample.which :: [Sample.which])
  /\ NoDup ["Question"; "Total Respondents"; "a"; "b"]
  /\ SelectMultipleMatrix.frequency_table (ext := Sample.tests)
       Sample.which_matrix Sample.three_rows "ct" ".0%" true true
     = Ok [("Question", [CStr "Which apply?"; CStr "Which apply?"]);
           ("a", [CInt 2; CInt 2]); ("b", [CInt 1; CInt 1]);
           ("Total Respondents", [CInt 2; CInt 2])].
Proof.
  assert (Hqs : mx_questions Sample.which_matrix
                = QMultiple <$> (Sample.which :: [Sample.which]))
    by reflexivity.
  assert (Hsame : Matrix.assert_choices_same Sample.which_matrix = Ok true)
    by reflexivity.
  assert (Hall : Forall (fun m =>
                   Forall (fun v => v ∈ df_columns Sample.three_rows)
                          (sm_variables m)
                   /\ length (SelectMultiple.retained_variables m true)
                      = length (SelectMultiple.get_choices Sample.which true))
                  (Sample.which :: [Sample.which])).
  { repeat constructor; vm_compute; repeat constructor. }
  assert (Hnd : NoDup ["Question"; "Total Respondents"; "a"; "b"])
    by (apply (bool_decide_unpack _); vm_compute; exact I).
  split; [exact Hqs|]. split; [exact Hsame|]. split; [exact Hall|].
  split; [exact Hnd|].
  rewrite (select_multiple_matrix_count_table (ext := Sample.tests)
             Sample.which_matrix Sample.which [Sample.which]
             Sample.three_rows ".0%" true true Hqs Hsame Hall Hnd).
  reflexivity.
Defined.
